(** * pdf-to-excel-converter: extraction and classification pipeline

    A shallow embedding of [src/boq_parser.py], [src/spec_sheet_parser.py],
    [src/pdf_to_excel.py] and the data part of [src/excel_generator.py].

    Conventions of the embedding.
    - A Python [str] is a [string]: a sequence of 8-bit characters.  The
      case mappings, [isspace], [re.IGNORECASE] and the classes [\s] and
      [\d] of regular expressions are Python's on the ASCII range;
      characters above 127 (the bytes of a UTF-8 encoded symbol such as
      the degree sign) are carried through unchanged and belong to no
      class.
    - A Python [dict] literal that is only iterated is an association
      list in insertion order, which is the iteration order Python
      guarantees.
    - [list(set(xs))] has no specified order: the enumeration is a
      parameter of the functions that depend on it.
    - An exception is a [None] result of the function that raises it.
    - Spreadsheet numbers are rationals. *)

From Stdlib Require Import Bool Arith Lia List Ascii String ZArith QArith Qreduction.
From Stdlib Require Import Numbers.DecimalString Numbers.DecimalNat Numbers.DecimalFacts Init.Byte.
Import ListNotations.

Local Open Scope list_scope.
Local Open Scope string_scope.
Local Open Scope nat_scope.

(** ** Python string primitives *)
Module Py.

Definition in_range (lo hi : nat) (c : ascii) : bool :=
  let n := nat_of_ascii c in (lo <=? n) && (n <=? hi).

Definition isupper_c (c : ascii) : bool := in_range 65 90 c.
Definition islower_c (c : ascii) : bool := in_range 97 122 c.
Definition isalpha_c (c : ascii) : bool := isupper_c c || islower_c c.
Definition isdigit_c (c : ascii) : bool := in_range 48 57 c.

(** [str.isspace] on one character: TAB, LF, VT, FF, CR, the four
    separators FS GS RS US, and the space. *)
Definition isspace_c (c : ascii) : bool :=
  in_range 9 13 c || in_range 28 32 c.

Definition lower_c (c : ascii) : ascii :=
  if isupper_c c then ascii_of_nat (nat_of_ascii c + 32) else c.

Definition upper_c (c : ascii) : ascii :=
  if islower_c c then ascii_of_nat (nat_of_ascii c - 32) else c.

Fixpoint map_str (f : ascii -> ascii) (s : string) : string :=
  match s with
  | EmptyString => EmptyString
  | String c s' => String (f c) (map_str f s')
  end.

(** [s.lower()], [s.upper()] *)
Definition lower (s : string) : string := map_str lower_c s.
Definition upper (s : string) : string := map_str upper_c s.

(** [s.title()]: a cased character is upper-cased when the character
    before it is not cased, lower-cased otherwise. *)
Fixpoint title_from (prev_cased : bool) (s : string) : string :=
  match s with
  | EmptyString => EmptyString
  | String c s' =>
      String (if isalpha_c c
              then (if prev_cased then lower_c c else upper_c c)
              else c)
             (title_from (isalpha_c c) s')
  end.

Definition title (s : string) : string := title_from false s.

(** [s.startswith(p)] *)
Fixpoint startswith (p s : string) : bool :=
  match p with
  | EmptyString => true
  | String a p' =>
      match s with
      | EmptyString => false
      | String b s' => Ascii.eqb a b && startswith p' s'
      end
  end.

(** [sub in s] *)
Fixpoint contains (sub s : string) : bool :=
  startswith sub s ||
  match s with
  | EmptyString => false
  | String _ s' => contains sub s'
  end.

(** [any(p(x) for x in xs)] *)
Definition any {A} (p : A -> bool) (xs : list A) : bool := existsb p xs.

(** [sep.join(xs)] *)
Fixpoint join (sep : string) (xs : list string) : string :=
  match xs with
  | [] => ""
  | [x] => x
  | x :: rest => x ++ sep ++ join sep rest
  end.

(** [s.lstrip()], [s.rstrip()], [s.strip()] *)
Fixpoint lstrip (s : string) : string :=
  match s with
  | EmptyString => EmptyString
  | String c s' => if isspace_c c then lstrip s' else s
  end.

Fixpoint rstrip (s : string) : string :=
  match s with
  | EmptyString => EmptyString
  | String c s' =>
      match rstrip s' with
      | EmptyString => if isspace_c c then EmptyString else String c EmptyString
      | r => String c r
      end
  end.

Definition strip (s : string) : string := rstrip (lstrip s).

(** [s.split(sep)] for a one-character separator: never empty. *)
Fixpoint split_on (sep : ascii) (s : string) : list string :=
  match s with
  | EmptyString => [EmptyString]
  | String c s' =>
      if Ascii.eqb c sep then EmptyString :: split_on sep s'
      else match split_on sep s' with
           | [] => [String c EmptyString]
           | w :: ws => String c w :: ws
           end
  end.

Definition LF : ascii := ascii_of_nat 10.

(** [str(n)], and [{n}] in an f-string, for a natural number. *)
Definition str (n : nat) : string := NilEmpty.string_of_uint (Nat.to_uint n).

End Py.

(** ** The fragment of Python's [re] the parsers use

    A backtracking matcher in continuation-passing style: alternatives
    are tried left to right, a greedy repetition tries one more
    iteration before it tries to stop, a lazy one the other way round,
    and the first way to reach the end of the pattern is the match. *)
Module Re.

Inductive re : Type :=
| Eps
| Chr (c : ascii)                 (* one literal character *)
| Cls (p : ascii -> bool)         (* a class: [...], \s, \d, . *)
| Seq (r1 r2 : re)
| Alt (r1 r2 : re)                (* r1|r2 *)
| Star (greedy : bool) (r : re)   (* r* (greedy) and r*? (lazy) *)
| Grp (n : nat) (r : re)          (* the n-th capturing group *)
| Bol                             (* ^ *)
| Eol.                            (* $ *)

(** Derived forms. *)
Definition plus (r : re) : re := Seq r (Star true r).          (* r+ *)
Definition plus_lazy (r : re) : re := Seq r (Star false r).    (* r+? *)
Definition star (r : re) : re := Star true r.                  (* r* *)
Definition opt (r : re) : re := Alt r Eps.                     (* r? *)

Fixpoint cat (rs : list re) : re :=
  match rs with
  | [] => Eps
  | [r] => r
  | r :: rest => Seq r (cat rest)
  end.

Fixpoint lit (s : string) : re :=
  match s with
  | EmptyString => Eps
  | String c s' => Seq (Chr c) (lit s')
  end.

(** Character classes. *)
Definition ws : ascii -> bool := Py.isspace_c.          (* \s *)
Definition digit : ascii -> bool := Py.isdigit_c.       (* \d, [0-9] *)
Definition dot (c : ascii) : bool := negb (Ascii.eqb c Py.LF).   (* . *)
Definition only (a : ascii) (c : ascii) : bool := Ascii.eqb a c.
Definition either (p q : ascii -> bool) (c : ascii) : bool := p c || q c.

(** The captured groups, most recent first. *)
Definition caps : Type := list (nat * string).

Fixpoint group (n : nat) (cs : caps) : option string :=
  match cs with
  | [] => None
  | (k, v) :: rest => if k =? n then Some v else group n rest
  end.

(** One character against a literal and against a class, with and
    without [re.IGNORECASE]. *)
Definition chr_ok (ic : bool) (c x : ascii) : bool :=
  if ic then Ascii.eqb (Py.lower_c c) (Py.lower_c x) else Ascii.eqb c x.

Definition cls_ok (ic : bool) (p : ascii -> bool) (x : ascii) : bool :=
  if ic then p x || p (Py.lower_c x) || p (Py.upper_c x) else p x.

(** [$] matches at the end and before a final newline. *)
Definition at_eol (s : string) : bool :=
  match s with
  | EmptyString => true
  | String c EmptyString => Ascii.eqb c Py.LF
  | _ => false
  end.

(** A continuation takes the text just matched, whether the position
    is still the start of the subject, the rest of the subject and the
    groups. *)
Definition cont (R : Type) : Type := string -> bool -> string -> caps -> option R.

(** The iterations of a repetition whose body is matched by [body]:
    [w] is the text the iterations matched so far; an iteration that
    matches nothing is not taken; [fuel] bounds the iterations by the
    length of the subject. *)
Fixpoint star_loop {R : Type} (greedy : bool)
  (body : bool -> string -> caps -> cont R -> option R) (k : cont R)
  (fuel : nat) (w : string) (b : bool) (s : string) (cs : caps) : option R :=
  match fuel with
  | O => k w b s cs
  | S fuel' =>
      let again (_ : unit) :=
        body b s cs
          (fun w1 b1 s1 cs1 =>
             if String.length s1 <? String.length s
             then star_loop greedy body k fuel' (w ++ w1) b1 s1 cs1
             else None) in
      if greedy
      then match again tt with
           | Some x => Some x
           | None => k w b s cs
           end
      else match k w b s cs with
           | Some x => Some x
           | None => again tt
           end
  end.

(** [m ic r b s cs k]: match [r] against [s], the rest of the subject,
    [b] telling whether [s] is all of it, then continue with [k]. *)
Fixpoint m {R : Type} (ic : bool) (r : re) (b : bool) (s : string) (cs : caps)
  (k : cont R) {struct r} : option R :=
  match r with
  | Eps => k "" b s cs
  | Chr c =>
      match s with
      | String x s' => if chr_ok ic c x then k (String x "") false s' cs else None
      | EmptyString => None
      end
  | Cls p =>
      match s with
      | String x s' => if cls_ok ic p x then k (String x "") false s' cs else None
      | EmptyString => None
      end
  | Seq r1 r2 =>
      m ic r1 b s cs
        (fun w1 b1 s1 cs1 =>
           m ic r2 b1 s1 cs1 (fun w2 b2 s2 cs2 => k (w1 ++ w2) b2 s2 cs2))
  | Alt r1 r2 =>
      match m ic r1 b s cs k with
      | Some x => Some x
      | None => m ic r2 b s cs k
      end
  | Star greedy r1 =>
      star_loop greedy (fun b' s' cs' k' => m ic r1 b' s' cs' k') k
                (String.length s) "" b s cs
  | Grp n r1 => m ic r1 b s cs (fun w b' s' cs' => k w b' s' ((n, w) :: cs'))
  | Bol => if b then k "" b s cs else None
  | Eol => if at_eol s then k "" b s cs else None
  end.

(** A match at the current position: its text, the rest of the subject
    and the groups. *)
Definition match_at (ic : bool) (r : re) (b : bool) (s : string)
  : option (string * string * caps) :=
  m ic r b s [] (fun w _ s' cs' => Some (w, s', cs')).

(** [m.group(1)] for a match of a pattern all of whose matches take
    part in group 1. *)
Definition group1 (groups : caps) : string :=
  match group 1 groups with
  | Some g => g
  | None => ""
  end.

(** [re.match(r, s)]: the groups of a match at the start of [s]. *)
Definition match_ (ic : bool) (r : re) (s : string) : option caps :=
  match match_at ic r true s with
  | Some (_, _, cs) => Some cs
  | None => None
  end.

(** [re.search(r, s)]: the leftmost match, as (matched text, groups). *)
Fixpoint search_from (ic : bool) (r : re) (b : bool) (s : string)
  : option (string * caps) :=
  match match_at ic r b s with
  | Some (w, _, cs) => Some (w, cs)
  | None =>
      match s with
      | EmptyString => None
      | String _ s' => search_from ic r false s'
      end
  end.

Definition search (ic : bool) (r : re) (s : string) : option (string * caps) :=
  search_from ic r true s.

(** [re.findall(r, s)] for a pattern without groups: the texts of the
    successive non-overlapping matches, left to right; after an empty
    match the scan moves on by one character. *)
Fixpoint findall_from (fuel : nat) (ic : bool) (r : re) (b : bool) (s : string)
  : list string :=
  match fuel with
  | O => []
  | S fuel' =>
      let skip :=
        match s with
        | EmptyString => []
        | String _ s' => findall_from fuel' ic r false s'
        end in
      match match_at ic r b s with
      | Some (w, s', _) =>
          w :: (match w with
                | EmptyString => skip
                | _ => findall_from fuel' ic r false s'
                end)
      | None => skip
      end
  end.

Definition findall (ic : bool) (r : re) (s : string) : list string :=
  findall_from (S (String.length s)) ic r true s.

(** No match of [r] begins in [pre], the part of the subject before [s]. *)
Fixpoint no_match_before (ic : bool) (r : re) (b : bool) (pre s : string) : bool :=
  match pre with
  | EmptyString => true
  | String _ pre' =>
      match match_at ic r b (pre ++ s) with
      | Some _ => false
      | None => no_match_before ic r false pre' s
      end
  end.

End Re.

(** ** The PDF source and the fragment of pandas the parsers use *)
Module Pandas.

(** A Python value held by a data-frame or a worksheet cell. *)
Inductive value : Type :=
| VStr (s : string)
| VNum (q : Q)
| VNone
| VNaN.

(** A column label: a table's header cell, a string or [None]. *)
Definition label : Type := option string.

Definition label_eqb (a b : label) : bool :=
  match a, b with
  | Some x, Some y => String.eqb x y
  | None, None => true
  | _, _ => false
  end.

(** A frame with the default index [0 .. n-1]: a row's index is its
    position. *)
Record DataFrame : Type := mkDF { columns : list label; rows : list (list value) }.

Notation "x <- e ;; k" := (match e with Some x => k | None => None end)
  (at level 60, e at next level, right associativity).

(** [pd.DataFrame(data, columns=cols)] for a list of lists: short rows
    are padded with [None] to the longest, whose length has to be the
    number of columns ([ValueError] otherwise). *)
Definition width (data : list (list value)) : nat :=
  fold_right (fun r w => Nat.max (List.length r) w) 0 data.

Definition pad (w : nat) (r : list value) : list value :=
  (r ++ repeat VNone (w - List.length r))%list.

Definition from_rows (data : list (list value)) (cols : list label) : option DataFrame :=
  match data with
  | [] => Some (mkDF cols [])
  | _ :: _ =>
      if width data =? List.length cols
      then Some (mkDF cols (map (pad (width data)) data))
      else None
  end.

(** [pd.DataFrame(records)] for a list of dicts that all have the keys
    [cols], given as their value lists; no record, no column. *)
Definition from_records (cols : list label) (records : list (list value)) : DataFrame :=
  match records with
  | [] => mkDF [] []
  | _ :: _ => mkDF cols records
  end.

(** [df.empty] *)
Definition empty (df : DataFrame) : bool :=
  (List.length (rows df) =? 0) || (List.length (columns df) =? 0).

Fixpoint index_of (l : label) (cols : list label) : option nat :=
  match cols with
  | [] => None
  | c :: rest =>
      if label_eqb c l then Some 0
      else match index_of l rest with
           | Some j => Some (S j)
           | None => None
           end
  end.

Definition has_column (l : label) (cols : list label) : bool :=
  existsb (label_eqb l) cols.

Fixpoint unique (cols : list label) : bool :=
  match cols with
  | [] => true
  | c :: rest => negb (has_column c rest) && unique rest
  end.

Definition same_columns (a b : list label) : bool :=
  (List.length a =? List.length b) &&
  forallb (fun p => label_eqb (fst p) (snd p)) (combine a b).

(** The union of the column indexes, in order of first appearance. *)
Definition union_columns (frames : list DataFrame) : list label :=
  fold_left
    (fun acc df =>
       fold_left (fun acc c => if has_column c acc then acc else (acc ++ [c])%list)
                 (columns df) acc)
    frames [].

(** The rows of [df] laid out on the columns [cols]; a column [df] does
    not have is filled with NaN. *)
Definition reindex (cols : list label) (df : DataFrame) : list (list value) :=
  map (fun r =>
         map (fun c => match index_of c (columns df) with
                       | Some j => nth j r VNaN
                       | None => VNaN
                       end) cols)
      (rows df).

(** [pd.concat(frames, ignore_index=True)]: no frame is a [ValueError];
    frames whose columns differ are aligned on the union of their
    columns, which needs every frame's labels to be unique. *)
Definition concat (frames : list DataFrame) : option DataFrame :=
  match frames with
  | [] => None
  | f :: rest =>
      if forallb (fun g => same_columns (columns g) (columns f)) rest
      then Some (mkDF (columns f) (flat_map rows frames))
      else if forallb (fun g => unique (columns g)) frames
      then let cols := union_columns frames in
           Some (mkDF cols (flat_map (reindex cols) frames))
      else None
  end.

(** [df.iloc[:, j]]: [IndexError] when there is no such column. *)
Definition iloc_col (j : nat) (df : DataFrame) : option (list value) :=
  if j <? List.length (columns df)
  then Some (map (fun r => nth j r VNone) (rows df))
  else None.

(** [series.apply(f)] for an [f] that can raise. *)
Fixpoint apply (f : value -> option value) (series : list value) : option (list value) :=
  match series with
  | [] => Some []
  | v :: rest =>
      w <- f v ;;
      ws <- apply f rest ;;
      Some (w :: ws)
  end.

(** [df[l] = series]: every column labelled [l] is overwritten; without
    one, a new last column is added. *)
Definition set_column (l : label) (series : list value) (df : DataFrame) : DataFrame :=
  if has_column l (columns df)
  then mkDF (columns df)
            (map (fun rv =>
                    map (fun cv => if label_eqb (fst cv) l then snd rv else snd cv)
                        (combine (columns df) (fst rv)))
                 (combine (rows df) series))
  else mkDF (columns df ++ [l])%list
            (map (fun rv => (fst rv ++ [snd rv])%list) (combine (rows df) series)).

(** [row.get(l)]: the row's value in the first column labelled [l]. *)
Definition field (df : DataFrame) (row : list value) (l : label) : option value :=
  j <- index_of l (columns df) ;; nth_error row j.

(** [row.get(l, default)] *)
Definition get (df : DataFrame) (row : list value) (l : label) (default : value) : value :=
  match field df row l with
  | Some v => v
  | None => default
  end.

(** [a != b] on two cell values: numbers by value, and NaN differs
    from everything, itself included. *)
Definition value_ne (a b : value) : bool :=
  match a, b with
  | VStr s, VStr t => negb (String.eqb s t)
  | VNum p, VNum q => negb (Qeq_bool p q)
  | VNone, VNone => false
  | _, _ => true
  end.

(** [pd.isna(v)] *)
Definition isna (v : value) : bool :=
  match v with
  | VNone | VNaN => true
  | _ => false
  end.

(** The order in which [groupby] lists its keys: numbers by value,
    then strings by code point. *)
Definition key_compare (a b : value) : comparison :=
  match a, b with
  | VNum p, VNum q => Qcompare p q
  | VNum _, _ => Lt
  | VStr _, VNum _ => Gt
  | VStr s, VStr t => String.compare s t
  | VStr _, _ => Lt
  | _, (VNum _ | VStr _) => Gt
  | _, _ => Eq
  end.

(** One more row for the group of [key], in groups kept in key order. *)
Fixpoint count_key (key : value) (groups : list (value * nat)) : list (value * nat) :=
  match groups with
  | [] => [(key, 1)]
  | (k, n) :: rest =>
      match key_compare key k with
      | Lt => (key, 1) :: groups
      | Eq => (k, S n) :: rest
      | Gt => (k, n) :: count_key key rest
      end
  end.

(** [df.groupby(l).size()]: the number of rows for each value of the
    column [l], in key order; a row whose value is null is in no
    group.  [KeyError] without a column [l], [ValueError] with more
    than one. *)
Definition groupby_size (l : label) (df : DataFrame) : option (list (value * nat)) :=
  match index_of l (columns df) with
  | None => None
  | Some j =>
      if 1 <? List.length (filter (label_eqb l) (columns df)) then None
      else Some (fold_left
                   (fun groups r =>
                      let v := nth j r VNone in
                      if isna v then groups else count_key v groups)
                   (rows df) [])
  end.

(** [series.reset_index(name=name)] for the sizes of the groups of [l]. *)
Definition reset_index (l : label) (name : string) (groups : list (value * nat))
  : DataFrame :=
  mkDF [l; Some name]
       (map (fun g => [fst g; VNum (inject_Z (Z.of_nat (snd g)))]) groups).

End Pandas.

(** What pdfplumber gives for a document: per page its text and its
    tables, a table being rows of cells, a cell a string or [None]. *)
Module Pdf.

Record page : Type :=
  mkPage { page_text : string;
           page_tables : list (list (list (option string))) }.

Definition document : Type := list page.

Definition cell_value (c : option string) : Pandas.value :=
  match c with
  | Some s => Pandas.VStr s
  | None => Pandas.VNone
  end.

(** [extract_text], the same method in both parsers. *)
Definition extract_text (doc : document) : string :=
  fold_left (fun text pg => text ++ page_text pg ++ String Py.LF "") doc "".

(** [extract_tables], the same method in both parsers: every non-empty
    table becomes a frame, its first row the column labels. *)
Fixpoint frames_of (tables : list (list (list (option string))))
  : option (list Pandas.DataFrame) :=
  match tables with
  | [] => Some []
  | [] :: rest => frames_of rest
  | (header :: data) :: rest =>
      match Pandas.from_rows (map (map cell_value) data) header with
      | None => None
      | Some df =>
          match frames_of rest with
          | None => None
          | Some dfs => Some (df :: dfs)
          end
      end
  end.

Definition extract_tables (doc : document) : option (list Pandas.DataFrame) :=
  frames_of (flat_map page_tables doc).

End Pdf.

(** ** boq_parser.py *)
Module BOQParser.

(** [units] of [_extract_unit] *)
Definition units : list string :=
  ["nos"; "no"; "pcs"; "pc"; "set"; "meter"; "m"; "ft"; "each"; "ea"].

(** The [for unit in units] loop of [_extract_unit]. *)
Fixpoint scan_units (us : list string) (desc_lower : string) : option string :=
  match us with
  | [] => None
  | unit :: rest =>
      if Py.contains unit desc_lower then Some (Py.upper unit)
      else scan_units rest desc_lower
  end.

Definition _extract_unit (description : string) : string :=
  let desc_lower := Py.lower description in
  match scan_units units desc_lower with
  | Some u => u
  | None => "NOS"
  end.

(** [categories] of [_categorize_smoke_detector_item], in insertion order *)
Definition categories : list (string * list string) :=
  [ ("Smoke Detectors",
      ["smoke detector"; "smoke alarm"; "photoelectric"; "ionization"; "heat detector"]);
    ("Control Panels",
      ["control panel"; "facp"; "fire alarm control"; "annunciator"; "repeater panel"]);
    ("Notification Devices",
      ["horn"; "strobe"; "bell"; "siren"; "speaker"; "notification"]);
    ("Initiation Devices",
      ["pull station"; "manual pull"; "call point"; "break glass"]);
    ("Installation Materials",
      ["conduit"; "wire"; "cable"; "junction box"; "mounting bracket"; "backbox"]);
    ("Testing Equipment",
      ["test kit"; "test meter"; "megger"; "smoke detector tester"]);
    ("Accessories",
      ["battery"; "power supply"; "transformer"; "relay"; "module"]);
    ("System Components",
      ["addressable"; "conventional"; "analog"; "beam detector"; "duct detector"]) ].

(** The [for category, keywords in categories.items()] loop. *)
Fixpoint scan_categories (cats : list (string * list string)) (desc_lower : string)
  : option string :=
  match cats with
  | [] => None
  | (category, keywords) :: rest =>
      if Py.any (fun keyword => Py.contains keyword desc_lower) keywords
      then Some category
      else scan_categories rest desc_lower
  end.

Definition _categorize_smoke_detector_item (description : string) : string :=
  let desc_lower := Py.lower description in
  match scan_categories categories desc_lower with
  | Some category => category
  | None => "Other"
  end.

(** The line pattern of [parse_boq_structure], piece by piece. *)
Definition item_pattern : Re.re :=
  let d := Re.Cls Re.digit in
  let s := Re.Cls Re.ws in
  Re.cat
    [ Re.Bol;                                                  (* ^ *)
      Re.Grp 1 (Re.cat [Re.plus d; Re.opt (Re.Chr "."); Re.star d]);
                                                               (* (\d+\.?\d* ) *)
      Re.plus s;                                               (* \s+ *)
      Re.Grp 2 (Re.plus_lazy (Re.Cls Re.dot));                 (* (.+?) *)
      Re.opt (Re.cat [Re.plus s;                               (* (?:\s+ *)
                      Re.Grp 3 (Re.cat [Re.plus d;             (* (\d+ *)
                                        Re.opt (Re.cat [Re.Chr "."; Re.plus d])])]);
                                                               (* (?:\.\d+)?))? *)
      Re.star s;                                               (* \s* *)
      Re.Eol ].                                                (* $ *)

(** The dict appended to [items]. *)
Record Item : Type :=
  mkItem { item_no : string;
           description : string;
           quantity : option string;
           unit : string;
           category : string }.

(** The body of the [for i, line in enumerate(lines)] loop: the item of
    a line that matches, nothing for a line that does not. *)
Definition parse_line (line : string) : option Item :=
  match Re.match_ false item_pattern (Py.strip line) with
  | Some groups =>
      match Re.group 1 groups, Re.group 2 groups with
      | Some g1, Some g2 =>
          let quantity :=
            match Re.group 3 groups with
            | Some EmptyString => None
            | Some q => Some q
            | None => None
            end in
          Some (mkItem g1 g2 quantity
                       (_extract_unit g2)
                       (_categorize_smoke_detector_item g2))
      | _, _ => None
      end
  | None => None
  end.

Fixpoint collect_items (lines : list string) : list Item :=
  match lines with
  | [] => []
  | line :: rest =>
      match parse_line line with
      | Some item => item :: collect_items rest
      | None => collect_items rest
      end
  end.

Definition parse_boq_structure (text : string) : list Item :=
  let lines := Py.split_on Py.LF text in
  collect_items lines.

(** The keys of an item dict, which become the frame's columns. *)
Definition item_columns : list Pandas.label :=
  [Some "Item No"; Some "Description"; Some "Quantity"; Some "Unit"; Some "Category"].

Definition item_values (it : Item) : list Pandas.value :=
  [ Pandas.VStr (item_no it);
    Pandas.VStr (description it);
    match quantity it with Some q => Pandas.VStr q | None => Pandas.VNone end;
    Pandas.VStr (unit it);
    Pandas.VStr (category it) ].

(** [_categorize_smoke_detector_item] on a frame cell: only a string
    has [lower]. *)
Definition categorize_cell (v : Pandas.value) : option Pandas.value :=
  match v with
  | Pandas.VStr s => Some (Pandas.VStr (_categorize_smoke_detector_item s))
  | _ => None
  end.

(** The table branch of [parse]. *)
Definition parse_tables (tables : list Pandas.DataFrame) : option Pandas.DataFrame :=
  match Pandas.concat tables with
  | None => None
  | Some df =>
      match Pandas.iloc_col 1 df with
      | None => None
      | Some descriptions =>
          match Pandas.apply categorize_cell descriptions with
          | None => None
          | Some cats => Some (Pandas.set_column (Some "Category") cats df)
          end
      end
  end.

(** The text branch of [parse]. *)
Definition parse_text (text : string) : Pandas.DataFrame :=
  let items := parse_boq_structure text in
  Pandas.from_records item_columns (map item_values items).

Definition parse (doc : Pdf.document) : option Pandas.DataFrame :=
  let text := Pdf.extract_text doc in
  match Pdf.extract_tables doc with
  | None => None
  | Some tables =>
      match tables with
      | _ :: _ => parse_tables tables
      | [] => Some (parse_text text)
      end
  end.

(** [get_summary]: the items per category; an empty frame when [df]
    has no Category column. *)
Definition get_summary (df : Pandas.DataFrame) : option Pandas.DataFrame :=
  if Pandas.has_column (Some "Category") (Pandas.columns df)
  then match Pandas.groupby_size (Some "Category") df with
       | Some groups => Some (Pandas.reset_index (Some "Category") "Count" groups)
       | None => None
       end
  else Some (Pandas.mkDF [] []).

End BOQParser.


(** ** spec_sheet_parser.py *)
Module SpecSheetParser.

(** A [dict] with string keys, in insertion order. *)
Definition dict : Type := list (string * string).

(** [d[key] = v]: an existing key keeps its place. *)
Fixpoint dict_set (key v : string) (d : dict) : dict :=
  match d with
  | [] => [(key, v)]
  | (k, w) :: rest =>
      if String.eqb k key then (k, v) :: rest else (k, w) :: dict_set key v rest
  end.

(** [d.get(key, default)] *)
Fixpoint dict_get (key default : string) (d : dict) : string :=
  match d with
  | [] => default
  | (k, w) :: rest => if String.eqb k key then w else dict_get key default rest
  end.

Definition colon_ws : ascii -> bool := Re.either (Re.only ":") Re.ws.      (* [:\s] *)
Definition token_c : ascii -> bool :=                                       (* [A-Z0-9-] *)
  Re.either Py.isupper_c (Re.either Re.digit (Re.only "-")).

Definition model_patterns : list Re.re :=
  [ Re.cat [Re.lit "Model"; Re.plus (Re.Cls colon_ws); Re.Grp 1 (Re.plus (Re.Cls token_c))];
    Re.cat [Re.lit "Part"; Re.plus (Re.Cls (Re.either colon_ws (Re.only "#")));
            Re.Grp 1 (Re.plus (Re.Cls token_c))];
    Re.cat [Re.lit "SKU"; Re.plus (Re.Cls colon_ws); Re.Grp 1 (Re.plus (Re.Cls token_c))] ].

(** The [for pattern in model_patterns] loop: the first pattern that is
    found gives the model number and ends the loop. *)
Fixpoint first_model (patterns : list Re.re) (text : string) : option string :=
  match patterns with
  | [] => None
  | pattern :: rest =>
      match Re.search true pattern text with
      | Some (_, groups) => Some (Re.group1 groups)
      | None => first_model rest text
      end
  end.

Definition product_types : list string :=
  [ "smoke detector"; "heat detector"; "control panel"; "notification device";
    "horn"; "strobe"; "pull station"; "duct detector"; "beam detector" ].

Fixpoint first_type (types : list string) (text_lower : string) : option string :=
  match types with
  | [] => None
  | ptype :: rest =>
      if Py.contains ptype text_lower then Some (Py.title ptype)
      else first_type rest text_lower
  end.

Definition extract_product_info (text : string) : dict :=
  let info := [ ("Product Name", ""); ("Model Number", "");
                ("Manufacturer", ""); ("Product Type", "") ] in
  let info :=
    match first_model model_patterns text with
    | Some model => dict_set "Model Number" model info
    | None => info
    end in
  let text_lower := Py.lower text in
  match first_type product_types text_lower with
  | Some ptype => dict_set "Product Type" ptype info
  | None => info
  end.

(** The patterns of [extract_technical_specs]; a symbol outside ASCII
    is the literal of its UTF-8 bytes. *)
Definition num_c (extra : string) : ascii -> bool :=
  Re.either Re.digit (fun c => Py.contains (String c "") extra).

Definition alt (rs : list Re.re) : Re.re :=
  match rs with
  | [] => Re.Eps
  | r :: rest => fold_left Re.Alt rest r
  end.

Definition labelled (name : Re.re) (body : Re.re) : Re.re :=
  Re.cat [name; Re.plus (Re.Cls colon_ws); Re.Grp 1 body].

Definition technical_patterns : list (string * Re.re) :=
  let s := Re.star (Re.Cls Re.ws) in
  let d := Re.Cls Re.digit in
  let deg := Re.opt (Re.lit "°") in
  let cf := Re.Cls (Re.either (Re.only "C") (Re.only "F")) in
  let x := Re.Alt (Re.Chr "x") (Re.lit "×") in
  let minus := Re.opt (Re.Chr "-") in
  [ ("Operating Voltage",
      labelled (Re.cat [Re.opt (Re.cat [Re.lit "Operating"; Re.plus (Re.Cls Re.ws)]);
                        Re.lit "Voltage"])
               (Re.cat [Re.plus (Re.Cls (num_c ".-")); s;
                        alt [Re.lit "V"; Re.lit "VAC"; Re.lit "VDC"]]));
    ("Current Draw",
      labelled (Re.lit "Current")
               (Re.cat [Re.plus (Re.Cls (num_c ".-")); s; alt [Re.lit "mA"; Re.lit "A"]]));
    ("Temperature Range",
      labelled (Re.lit "Temperature")
               (Re.cat [minus; Re.plus d; deg; s; Re.opt cf; s; Re.lit "to"; s;
                        minus; Re.plus d; deg; s; cf]));
    ("Humidity Range",
      labelled (Re.lit "Humidity")
               (Re.cat [Re.plus d; Re.opt (Re.Chr "%"); s; Re.lit "to"; s;
                        Re.plus d; Re.Chr "%"]));
    ("Dimensions",
      labelled (Re.lit "Dimensions")
               (Re.cat [Re.plus (Re.Cls (num_c ".")); s; x; s;
                        Re.plus (Re.Cls (num_c ".")); s; Re.opt x; s;
                        Re.star (Re.Cls (num_c ".")); s;
                        alt [Re.lit "in"; Re.lit "mm"; Re.lit "cm"]]));
    ("Weight",
      labelled (Re.lit "Weight")
               (Re.cat [Re.plus (Re.Cls (num_c ".")); s;
                        alt [Re.lit "kg"; Re.lit "g"; Re.lit "lb"; Re.lit "oz"]]));
    ("Coverage Area",
      labelled (Re.lit "Coverage")
               (Re.cat [Re.plus (Re.Cls (num_c ",")); s;
                        alt [Re.cat [Re.lit "sq"; Re.opt (Re.Chr "."); s; Re.lit "ft"];
                             Re.lit "ft²"; Re.lit "m²"]]));
    ("Response Time",
      labelled (Re.lit "Response")
               (Re.cat [Re.plus (Re.Cls (num_c ".")); s;
                        alt [Re.lit "sec"; Re.lit "seconds"; Re.lit "min"; Re.lit "minutes"]])) ].

(** The [for spec_name, pattern in patterns.items()] loop. *)
Fixpoint collect_specs (patterns : list (string * Re.re)) (text : string) (specs : dict)
  : dict :=
  match patterns with
  | [] => specs
  | (spec_name, pattern) :: rest =>
      match Re.search true pattern text with
      | Some (_, groups) =>
          collect_specs rest text (dict_set spec_name (Re.group1 groups) specs)
      | None => collect_specs rest text specs
      end
  end.

Definition extract_technical_specs (text : string) : dict :=
  collect_specs technical_patterns text [].

Definition standard_patterns : list Re.re :=
  let s := Re.star (Re.Cls Re.ws) in
  let ds := Re.plus (Re.Cls Re.digit) in
  [ Re.cat [Re.lit "UL"; s; ds; Re.opt (Re.Cls Py.isupper_c)];
    Re.cat [Re.lit "NFPA"; s; ds];
    Re.cat [Re.lit "FM"; s; Re.lit "Approved"];
    Re.cat [Re.lit "CE"; s; Re.lit "Certified"];
    Re.cat [Re.lit "EN"; s; ds];
    Re.cat [Re.lit "ISO"; s; ds];
    Re.cat [Re.lit "BS"; s; ds];
    Re.cat [Re.lit "CSA"; s; Re.lit "Certified"] ].

(** The list [standards] before duplicates are removed: for every
    pattern in turn, all its matches, upper-cased. *)
Definition collect_standards (text : string) : list string :=
  flat_map (fun pattern => map Py.upper (Re.findall true pattern text))
           standard_patterns.

Definition feature_keywords : list string :=
  [ "addressable"; "wireless"; "photoelectric"; "ionization";
    "multi-sensor"; "dual sensor"; "heat detection"; "smoke detection";
    "tamper resistant"; "led indicator"; "test button"; "low battery";
    "self-diagnostic"; "drift compensation"; "alarm memory" ].

Definition extract_features (text : string) : list string :=
  let text_lower := Py.lower text in
  map Py.title (filter (fun keyword => Py.contains keyword text_lower) feature_keywords).

(** A row of the result: Category, Specification, Value. *)
Record SpecRecord : Type :=
  mkRec { rec_category : string; rec_specification : string; rec_value : string }.

Definition spec_columns : list Pandas.label :=
  [Some "Category"; Some "Specification"; Some "Value"].

Definition record_values (r : SpecRecord) : list Pandas.value :=
  [Pandas.VStr (rec_category r); Pandas.VStr (rec_specification r);
   Pandas.VStr (rec_value r)].

Section SetOrder.

(** [list(set(xs))]: some enumeration of the distinct elements. *)
Variable list_of_set : list string -> list string.

Definition extract_standards_compliance (text : string) : list string :=
  list_of_set (collect_standards text).

(** The list [data] that [parse] builds from the text. *)
Definition parse_data (text : string) : list SpecRecord :=
  let product_info := extract_product_info text in
  let tech_specs := extract_technical_specs text in
  let standards := extract_standards_compliance text in
  let features := extract_features text in
  ([ mkRec "Product Information" "Model Number"
           (dict_get "Model Number" "N/A" product_info);
     mkRec "Product Information" "Product Type"
           (dict_get "Product Type" "N/A" product_info) ]
   ++ map (fun kv => mkRec "Technical Specifications" (fst kv) (snd kv)) tech_specs
   ++ match standards with
      | [] => []
      | _ :: _ => [mkRec "Compliance" "Standards" (Py.join ", " standards)]
      end
   ++ match features with
      | [] => []
      | _ :: _ => [mkRec "Features" "Key Features" (Py.join ", " features)]
      end)%list.

(** [parse]: the tables are extracted, and labelled, but not used. *)
Definition parse (doc : Pdf.document) : option Pandas.DataFrame :=
  let text := Pdf.extract_text doc in
  match Pdf.extract_tables doc with
  | None => None
  | Some _ =>
      Some (Pandas.from_records spec_columns (map record_values (parse_data text)))
  end.

End SetOrder.

(** [get_comparison_format]: the rows of every sheet under the name of
    its product, [Product 1], [Product 2], ... *)
Definition comparison_columns : list Pandas.label :=
  [Some "Product"; Some "Category"; Some "Specification"; Some "Value"].

(** The body of the [for _, row in spec_df.iterrows()] loop. *)
Definition comparison_row (i : nat) (spec_df : Pandas.DataFrame) (row : list Pandas.value)
  : list Pandas.value :=
  [ Pandas.VStr ("Product " ++ Py.str (i + 1));
    Pandas.get spec_df row (Some "Category") (Pandas.VStr "");
    Pandas.get spec_df row (Some "Specification") (Pandas.VStr "");
    Pandas.get spec_df row (Some "Value") (Pandas.VStr "") ].

(** The [for i, spec_df in enumerate(multiple_specs)] loop, from [i] on. *)
Fixpoint comparison_data (i : nat) (multiple_specs : list Pandas.DataFrame)
  : list (list Pandas.value) :=
  match multiple_specs with
  | [] => []
  | spec_df :: rest =>
      (map (comparison_row i spec_df) (Pandas.rows spec_df)
       ++ comparison_data (S i) rest)%list
  end.

Definition get_comparison_format (multiple_specs : list Pandas.DataFrame)
  : Pandas.DataFrame :=
  Pandas.from_records comparison_columns (comparison_data 0 multiple_specs).

End SpecSheetParser.

(** ** excel_generator.py: the cells the three sheets get *)
Module ExcelGenerator.

(** A worksheet: the cells written so far, latest first, by (row, column). *)
Definition worksheet : Type := list (nat * nat * Pandas.value).

Fixpoint cell (ws : worksheet) (row col : nat) : Pandas.value :=
  match ws with
  | [] => Pandas.VNone
  | (r, c, v) :: rest => if (r =? row) && (c =? col) then v else cell rest row col
  end.

(** [cell.value = v] *)
Definition set_value (row col : nat) (v : Pandas.value) (ws : worksheet) : worksheet :=
  (row, col, v) :: ws.

(** [ws.cell(row, column, value)]: [None] leaves the cell as it is. *)
Definition ws_cell (row col : nat) (v : Pandas.value) (ws : worksheet) : worksheet :=
  match v with
  | Pandas.VNone => ws
  | _ => set_value row col v ws
  end.

(** [str(n)] of an f-string. *)
Definition str (n : nat) : string := NilEmpty.string_of_uint (Nat.to_uint n).

Definition header_row : nat := 4.
Definition headers : list string :=
  ["Item No"; "Description"; "Quantity"; "Unit"; "Category"; "Unit Price"; "Total Price"].
Definition data_start_row : nat := header_row + 1.

(** The [for col, header in enumerate(headers, start=1)] loop. *)
Fixpoint write_headers (col : nat) (hs : list string) (ws : worksheet) : worksheet :=
  match hs with
  | [] => ws
  | h :: rest => write_headers (S col) rest (ws_cell header_row col (Pandas.VStr h) ws)
  end.

(** The body of the [for idx, row in df.iterrows()] loop. *)
Definition write_row (df : Pandas.DataFrame) (idx : nat) (row : list Pandas.value)
  (ws : worksheet) : worksheet :=
  let row_num := data_start_row + idx in
  let ws := ws_cell row_num 1 (Pandas.get df row (Some "Item No") (Pandas.VStr "")) ws in
  let ws := ws_cell row_num 2 (Pandas.get df row (Some "Description") (Pandas.VStr "")) ws in
  let ws := ws_cell row_num 3 (Pandas.get df row (Some "Quantity") (Pandas.VStr "")) ws in
  let ws := ws_cell row_num 4 (Pandas.get df row (Some "Unit") (Pandas.VStr "NOS")) ws in
  let ws := ws_cell row_num 5 (Pandas.get df row (Some "Category") (Pandas.VStr "Other")) ws in
  let ws := set_value row_num 6 (Pandas.VNum 0) ws in
  set_value row_num 7 (Pandas.VStr ("=C" ++ str row_num ++ "*F" ++ str row_num)) ws.

Fixpoint write_rows (df : Pandas.DataFrame) (idx : nat) (rs : list (list Pandas.value))
  (ws : worksheet) : worksheet :=
  match rs with
  | [] => ws
  | row :: rest => write_rows df (S idx) rest (write_row df idx row ws)
  end.

(** [create_boq_sheet]: the values of the new sheet; [now] is the
    formatted time of the call. *)
Definition create_boq_sheet (now : string) (df : Pandas.DataFrame) : worksheet :=
  let ws := [] in
  let ws := set_value 1 1 (Pandas.VStr "BILL OF QUANTITIES - SMOKE DETECTION SYSTEM") ws in
  let ws := set_value 2 1 (Pandas.VStr ("Generated: " ++ now)) ws in
  let ws := write_headers 1 headers ws in
  let ws := write_rows df 0 (Pandas.rows df) ws in
  let last_data_row := data_start_row + List.length (Pandas.rows df) in
  let summary_row := last_data_row + 2 in
  let ws := ws_cell summary_row 6 (Pandas.VStr "TOTAL:") ws in
  set_value summary_row 7
    (Pandas.VStr ("=SUM(G" ++ str data_start_row ++ ":G" ++ str last_data_row ++ ")")) ws.

(** [create_spec_sheet] *)
Definition spec_headers : list string := ["Category"; "Specification"; "Value"].

(** The body of its [for idx, row in df.iterrows()] loop, on the pair
    of [current_category] and the sheet: a category is written where
    it differs from the one of the row before, an empty text where it
    does not. *)
Definition write_spec_row (df : Pandas.DataFrame) (idx : nat) (row : list Pandas.value)
  (st : Pandas.value * worksheet) : Pandas.value * worksheet :=
  let current_category := fst st in
  let ws := snd st in
  let row_num := data_start_row + idx in
  let category := Pandas.get df row (Some "Category") (Pandas.VStr "") in
  let st :=
    if Pandas.value_ne category current_category
    then (category, ws_cell row_num 1 category ws)
    else (current_category, ws_cell row_num 1 (Pandas.VStr "") ws) in
  let ws := ws_cell row_num 2 (Pandas.get df row (Some "Specification") (Pandas.VStr ""))
                    (snd st) in
  let ws := ws_cell row_num 3 (Pandas.get df row (Some "Value") (Pandas.VStr "")) ws in
  (fst st, ws).

Fixpoint write_spec_rows (df : Pandas.DataFrame) (idx : nat)
  (rs : list (list Pandas.value)) (st : Pandas.value * worksheet)
  : Pandas.value * worksheet :=
  match rs with
  | [] => st
  | row :: rest => write_spec_rows df (S idx) rest (write_spec_row df idx row st)
  end.

Definition create_spec_sheet (now : string) (df : Pandas.DataFrame) : worksheet :=
  let ws := [] in
  let ws := set_value 1 1
              (Pandas.VStr "PRODUCT SPECIFICATIONS - SMOKE DETECTION EQUIPMENT") ws in
  let ws := set_value 2 1 (Pandas.VStr ("Generated: " ++ now)) ws in
  let ws := write_headers 1 spec_headers ws in
  let current_category := Pandas.VNone in
  snd (write_spec_rows df 0 (Pandas.rows df) (current_category, ws)).

(** [create_summary_sheet]: the [for idx, row in summary.iterrows()]
    loop, on the groups of the summary. *)
Fixpoint write_summary_rows (idx : nat) (groups : list (Pandas.value * nat))
  (ws : worksheet) : worksheet :=
  match groups with
  | [] => ws
  | (category, item_count) :: rest =>
      let row_num := header_row + 1 + idx in
      let ws := ws_cell row_num 1 category ws in
      let ws := ws_cell row_num 2 (Pandas.VNum (inject_Z (Z.of_nat item_count))) ws in
      write_summary_rows (S idx) rest ws
  end.

(** [create_summary_sheet(boq_df)]; the grouping can raise. *)
Definition create_summary_sheet (boq_df : option Pandas.DataFrame) : option worksheet :=
  let ws := [] in
  let ws := set_value 1 1 (Pandas.VStr "PROJECT SUMMARY - SMOKE DETECTION SYSTEM") ws in
  let ws := set_value 3 1 (Pandas.VStr "Category Breakdown") ws in
  match boq_df with
  | Some df =>
      if Pandas.has_column (Some "Category") (Pandas.columns df)
      then match Pandas.groupby_size (Some "Category") df with
           | None => None
           | Some summary =>
               let ws := ws_cell header_row 1 (Pandas.VStr "Category") ws in
               let ws := ws_cell header_row 2 (Pandas.VStr "Item Count") ws in
               Some (write_summary_rows 0 summary ws)
           end
      else Some ws
  | None => Some ws
  end.

End ExcelGenerator.

(** ** What a spreadsheet computes for the formulas of the BOQ sheet *)
Module Sheet.

Import Pandas.

(** A reference: (row, column), column A being 1. *)
Definition ref : Type := (nat * nat)%type.

Inductive formula : Type :=
| FMul (a b : ref)          (* =a*b *)
| FSum (a b : ref).         (* =SUM(a:b) *)

Fixpoint span_digits (s : string) : string * string :=
  match s with
  | EmptyString => (EmptyString, EmptyString)
  | String c s' =>
      if Py.isdigit_c c
      then let (ds, rest) := span_digits s' in (String c ds, rest)
      else (EmptyString, s)
  end.

Definition nat_of_digits (ds : string) : option nat :=
  match ds with
  | EmptyString => None
  | _ => option_map Nat.of_uint (NilEmpty.uint_of_string ds)
  end.

(** A cell name: one capital letter and a row number. *)
Definition parse_ref (s : string) : option (ref * string) :=
  match s with
  | String c s' =>
      if Py.isupper_c c
      then let (ds, rest) := span_digits s' in
           match nat_of_digits ds with
           | Some row => Some ((row, nat_of_ascii c - 64), rest)
           | None => None
           end
      else None
  | EmptyString => None
  end.

Fixpoint strip_prefix (p s : string) : option string :=
  match p with
  | EmptyString => Some s
  | String a p' =>
      match s with
      | String b s' => if Ascii.eqb a b then strip_prefix p' s' else None
      | EmptyString => None
      end
  end.

(** The two shapes of formula the generator writes. *)
Definition parse_formula (s : string) : option formula :=
  match strip_prefix "=SUM(" s with
  | Some range =>
      match parse_ref range with
      | Some (a, rest) =>
          match strip_prefix ":" rest with
          | Some rest' =>
              match parse_ref rest' with
              | Some (b, ")") => Some (FSum a b)
              | _ => None
              end
          | None => None
          end
      | None => None
      end
  | None =>
      match strip_prefix "=" s with
      | Some body =>
          match parse_ref body with
          | Some (a, rest) =>
              match strip_prefix "*" rest with
              | Some rest' =>
                  match parse_ref rest' with
                  | Some (b, EmptyString) => Some (FMul a b)
                  | _ => None
                  end
              | None => None
              end
          | None => None
          end
      | None => None
      end
  end.

(** The number a text stands for, when it is digits with an optional
    fraction. *)
Definition number_of_text (s : string) : option Q :=
  let (ip, rest) := span_digits s in
  match nat_of_digits ip, rest with
  | Some n, EmptyString => Some (inject_Z (Z.of_nat n))
  | Some n, String "." fp =>
      match span_digits fp with
      | (ds, EmptyString) =>
          match nat_of_digits ds with
          | Some f =>
              Some (inject_Z (Z.of_nat n)
                    + (Z.of_nat f # Pos.of_nat (10 ^ String.length ds)))%Q
          | None => None
          end
      | _ => None
      end
  | _, _ => None
  end.

Definition is_formula (s : string) : bool := Py.startswith "=" s.

Definition sum_opt (xs : list (option Q)) : option Q :=
  fold_right (fun x acc =>
                match x, acc with
                | Some a, Some b => Some (a + b)%Q
                | _, _ => None
                end) (Some 0%Q) xs.

(** The cells of the range [a:b], row by row. *)
Definition range_cells (a b : ref) : list ref :=
  flat_map (fun row => map (fun col => (row, col)) (seq (snd a) (S (snd b) - snd a)))
           (seq (fst a) (S (fst b) - fst a)).

(** An operand of [*] is coerced to a number, an empty cell being 0;
    [rec] gives the value of a cell that holds a formula. *)
Definition operand (rec : ref -> option Q) (ws : ExcelGenerator.worksheet) (a : ref)
  : option Q :=
  match ExcelGenerator.cell ws (fst a) (snd a) with
  | VNum q => Some q
  | VNone => Some 0%Q
  | VStr s => if is_formula s then rec a else number_of_text s
  | VNaN => None
  end.

(** [SUM] adds the numbers of its range and passes over texts and
    empty cells. *)
Definition summand (rec : ref -> option Q) (ws : ExcelGenerator.worksheet) (a : ref)
  : option Q :=
  match ExcelGenerator.cell ws (fst a) (snd a) with
  | VNum q => Some q
  | VNone => Some 0%Q
  | VStr s => if is_formula s then rec a else Some 0%Q
  | VNaN => None
  end.

(** [eval depth ws r]: the number the cell [r] shows ([None] is an
    error value); [depth] bounds the chain of formulas followed. *)
Fixpoint eval (depth : nat) (ws : ExcelGenerator.worksheet) (r : ref) : option Q :=
  match depth with
  | O => None
  | S depth' =>
      match ExcelGenerator.cell ws (fst r) (snd r) with
      | VNum q => Some q
      | VStr s =>
          match parse_formula s with
          | Some (FMul a b) =>
              match operand (eval depth' ws) ws a, operand (eval depth' ws) ws b with
              | Some x, Some y => Some (x * y)%Q
              | _, _ => None
              end
          | Some (FSum a b) =>
              sum_opt (map (summand (eval depth' ws) ws) (range_cells a b))
          | None => None
          end
      | _ => None
      end
  end.

(** The number a quantity cell stands for as an operand. *)
Definition quantity_number (v : Pandas.value) : option Q :=
  match v with
  | VNum q => Some q
  | VNone => Some 0%Q
  | VStr s => if is_formula s then None else number_of_text s
  | VNaN => None
  end.

(** The user's edits of unit prices, latest first: (item index, price). *)
Fixpoint apply_edits (edits : list (nat * Q)) (ws : ExcelGenerator.worksheet)
  : ExcelGenerator.worksheet :=
  match edits with
  | [] => ws
  | (i, p) :: earlier =>
      ExcelGenerator.set_value (ExcelGenerator.data_start_row + i) 6 (VNum p)
        (apply_edits earlier ws)
  end.

(** The unit price of item [i] after the edits: the latest one entered
    for it, and the generator's 0 without any. *)
Fixpoint price_of (edits : list (nat * Q)) (i : nat) : Q :=
  match edits with
  | [] => 0%Q
  | (j, p) :: earlier => if j =? i then p else price_of earlier i
  end.

(** The sum of quantity times price over the items from index [i] on. *)
Fixpoint total_from (edits : list (nat * Q)) (i : nat) (qs : list Q) : Q :=
  match qs with
  | [] => 0%Q
  | q :: rest => (q * price_of edits i + total_from edits (S i) rest)%Q
  end.

End Sheet.

(** ** pdf_to_excel.py *)
Module PdfToExcel.

Inductive kind : Type := boq | spec.

(** The [doc_type] argument, which the command line restricts to these. *)
Inductive doc_type : Type := auto | given (k : kind).

Definition hex_digit (n : nat) : ascii :=
  nth n (list_ascii_of_string "0123456789abcdef") "0"%char.

Definition QUOTE : ascii := ascii_of_nat 39.
Definition DQUOTE : ascii := ascii_of_nat 34.
Definition BACKSLASH : ascii := ascii_of_nat 92.

(** One byte in the [repr] of a [bytes] object. *)
Definition repr_byte (quote : ascii) (b : byte) : string :=
  let c := ascii_of_byte b in
  let n := nat_of_ascii c in
  if Ascii.eqb c quote || Ascii.eqb c BACKSLASH then String BACKSLASH (String c "")
  else if n =? 9 then String BACKSLASH "t"
  else if n =? 10 then String BACKSLASH "n"
  else if n =? 13 then String BACKSLASH "r"
  else if (n <? 32) || (127 <=? n)
  then String BACKSLASH (String "x" (String (hex_digit (n / 16)) (String (hex_digit (n mod 16)) "")))
  else String c "".

Fixpoint repr_body (quote : ascii) (bs : list byte) : string :=
  match bs with
  | [] => ""
  | b :: rest => repr_byte quote b ++ repr_body quote rest
  end.

Definition has_byte (c : ascii) (bs : list byte) : bool :=
  existsb (fun b => Ascii.eqb (ascii_of_byte b) c) bs.

(** [str(content)] for [content : bytes]: the literal that denotes it,
    in double quotes only when it has a single quote and no double one. *)
Definition str_bytes (content : list byte) : string :=
  let quote := if has_byte QUOTE content && negb (has_byte DQUOTE content)
               then DQUOTE else QUOTE in
  String "b" (String quote (repr_body quote content ++ String quote "")).

(** [os.path.basename] *)
Definition basename (path : string) : string :=
  last (Py.split_on "/" path) "".

(** The [if doc_type == 'auto'] block of [convert_pdf_to_excel]. *)
Definition detect (content : list byte) (pdf_path : string) : kind :=
  let content_lower := Py.lower (str_bytes content) in
  if Py.contains "bill of quantities" content_lower || Py.contains "boq" content_lower
  then boq
  else if Py.contains "specification" content_lower || Py.contains "spec sheet" content_lower
  then spec
  else
    let filename_lower := Py.lower (basename pdf_path) in
    if Py.contains "boq" filename_lower || Py.contains "bill" filename_lower
    then boq
    else if Py.contains "spec" filename_lower
    then spec
    else boq.

(** A file: its bytes, and the document pdfplumber reads from it
    ([None] when it cannot). *)
Record file : Type := mkFile { content : list byte; document : option Pdf.document }.

(** How [convert_pdf_to_excel] ends: the three ways it returns [False],
    and the hand-over of the extracted frame to the generator. *)
Inductive outcome : Type :=
| FileNotFound
| NoDataExtracted
| ConversionError
| Generate (k : kind) (df : Pandas.DataFrame).

Section Convert.

Variable list_of_set : list string -> list string.
Variable fs : string -> option file.

Definition convert_pdf_to_excel (pdf_path : string) (dt : doc_type) : outcome :=
  match fs pdf_path with
  | None => FileNotFound
  | Some f =>
      let k := match dt with
               | auto => detect (content f) pdf_path
               | given k => k
               end in
      match document f with
      | None => ConversionError
      | Some doc =>
          match k with
          | boq =>
              match BOQParser.parse doc with
              | None => ConversionError
              | Some df => if Pandas.empty df then NoDataExtracted else Generate boq df
              end
          | spec =>
              match SpecSheetParser.parse list_of_set doc with
              | None => ConversionError
              | Some df => if Pandas.empty df then NoDataExtracted else Generate spec df
              end
          end
      end
  end.

End Convert.

End PdfToExcel.

(** * Notions the statements and the proofs use *)

(** ** Texts *)

(** [sub] occurs in [s]. *)
Definition occurs (sub s : string) : Prop :=
  exists pre post, s = pre ++ sub ++ post.

(** [sub] occurs in [s] up to the case of letters. *)
Definition occurs_ci (sub s : string) : Prop :=
  exists pre mid post, s = pre ++ mid ++ post /\ Py.lower mid = Py.lower sub.

(** Every character of [s] is in [p]. *)
Fixpoint all_chars (p : ascii -> bool) (s : string) : bool :=
  match s with
  | EmptyString => true
  | String c s' => p c && all_chars p s'
  end.

(** [s] is empty or begins with a character outside [p]: a run of
    characters of [p] stops before [s]. *)
Definition stops (p : ascii -> bool) (s : string) : Prop :=
  match s with
  | EmptyString => True
  | String c _ => p c = false
  end.

(** [pre] does not end with a digit. *)
Definition not_after_digit (pre : string) : Prop :=
  pre = "" \/ exists a d, pre = a ++ String d "" /\ Py.isdigit_c d = false.

(** No character of [s] is the letter [h], in either case. *)
Definition avoids (h : ascii) (s : string) : bool :=
  all_chars (fun c => negb (Ascii.eqb (Py.lower_c c) h)) s.

(** Every two neighbours in [s] are in [P]. *)
Fixpoint adj (P : ascii -> ascii -> bool) (s : string) : bool :=
  match s with
  | String a t =>
      match t with
      | String b _ => P a b && adj P t
      | EmptyString => true
      end
  | EmptyString => true
  end.

(** Two relations of neighbours: the second is not the letter [h]; the
    second is not the letter [h] unless the first is a digit. *)
Definition other_letter (h : ascii) (d c : ascii) : bool :=
  negb (Ascii.eqb (Py.lower_c c) h).

Definition other_letter_or_after_digit (h : ascii) (d c : ascii) : bool :=
  negb (Ascii.eqb (Py.lower_c c) h) || Py.isdigit_c d.

(** ** Regular expressions *)

(** The texts a pattern can match, whatever the position: anchors
    match the empty text. *)
Inductive lang (ic : bool) : Re.re -> string -> Prop :=
| L_Eps : lang ic Re.Eps ""
| L_Chr c x : Re.chr_ok ic c x = true -> lang ic (Re.Chr c) (String x "")
| L_Cls p x : Re.cls_ok ic p x = true -> lang ic (Re.Cls p) (String x "")
| L_Seq r1 r2 w1 w2 : lang ic r1 w1 -> lang ic r2 w2 -> lang ic (Re.Seq r1 r2) (w1 ++ w2)
| L_AltL r1 r2 w : lang ic r1 w -> lang ic (Re.Alt r1 r2) w
| L_AltR r1 r2 w : lang ic r2 w -> lang ic (Re.Alt r1 r2) w
| L_Star0 g r : lang ic (Re.Star g r) ""
| L_StarS g r w1 w2 :
    lang ic r w1 -> lang ic (Re.Star g r) w2 -> lang ic (Re.Star g r) (w1 ++ w2)
| L_Grp n r w : lang ic r w -> lang ic (Re.Grp n r) w
| L_Bol : lang ic Re.Bol ""
| L_Eol : lang ic Re.Eol "".

(** The matcher is sound for [r]: what it matches is a text of [r], a
    prefix of the subject, and the continuation is applied to it. *)
Definition sound (ic : bool) (r : Re.re) : Prop :=
  forall (R : Type) b s cs (k : Re.cont R) x,
    Re.m ic r b s cs k = Some x ->
    exists w b' s' cs', s = w ++ s' /\ lang ic r w /\ k w b' s' cs' = Some x.

(** A greedy repetition of one class, by recursion on the subject: the
    longest run first, then shorter ones. *)
Fixpoint greedy_run {R : Type} (p : ascii -> bool) (k : Re.cont R)
  (w : string) (b : bool) (s : string) (cs : Re.caps) : option R :=
  match s with
  | String x s' =>
      if p x
      then match greedy_run p k (w ++ String x "") false s' cs with
           | Some y => Some y
           | None => k w b s cs
           end
      else k w b s cs
  | EmptyString => k w b s cs
  end.

(** The Model pattern and the patterns of the UL, NFPA and FM codes. *)
Definition model_pattern : Re.re := nth 0 SpecSheetParser.model_patterns Re.Eps.
Definition ul_pattern : Re.re := nth 0 SpecSheetParser.standard_patterns Re.Eps.
Definition nfpa_pattern : Re.re := nth 1 SpecSheetParser.standard_patterns Re.Eps.
Definition fm_pattern : Re.re := nth 2 SpecSheetParser.standard_patterns Re.Eps.

(** ** Frames, sets, records, sheets *)

(** Every row has one value per column. *)
Definition well_formed (df : Pandas.DataFrame) : Prop :=
  Forall (fun r => List.length r = List.length (Pandas.columns df)) (Pandas.rows df).

(** [v] is a category the classifier gave. *)
Definition is_category (v : Pandas.value) : Prop :=
  exists d, v = Pandas.VStr (BOQParser._categorize_smoke_detector_item d).

(** What is asked of [list(set(xs))]: the elements of [xs], once each. *)
Definition enumerates_set (list_of_set : list string -> list string) : Prop :=
  forall xs, NoDup (list_of_set xs) /\ forall x, In x (list_of_set xs) <-> In x xs.

(** One such enumeration: the first occurrences, in order. *)
Fixpoint first_seen (xs : list string) : list string :=
  match xs with
  | [] => []
  | x :: rest => x :: filter (fun y => negb (String.eqb x y)) (first_seen rest)
  end.

Definition is_compliance (r : SpecSheetParser.SpecRecord) : bool :=
  String.eqb (SpecSheetParser.rec_category r) "Compliance".

Module EG := ExcelGenerator.

(** ** Sample data *)

(** The ten descriptions of [create_sample_boq_data] in
    test_converter.py, and the categories it gives them. *)
Definition sample_descriptions : list string :=
  [ "Addressable Photoelectric Smoke Detector, 24VDC";
    "Addressable Heat Detector, Fixed Temperature 135°F";
    "Manual Pull Station, Single Action, Red";
    "Horn/Strobe Notification Device, 24VDC, Red";
    "Fire Alarm Control Panel, 8-Zone Addressable";
    "Remote Annunciator Panel, LCD Display";
    "Duct Smoke Detector with Housing";
    "Fire Alarm Wire, 18/2 FPLR, Red";
    "Conduit and Fittings for Installation";
    "Smoke Detector Test Kit with Aerosol Spray" ].

Definition sample_categories : list string :=
  [ "Smoke Detectors"; "Smoke Detectors"; "Initiation Devices";
    "Notification Devices"; "Control Panels"; "Control Panels";
    "System Components"; "Installation Materials"; "Installation Materials";
    "Testing Equipment" ].

(** A document with one table, of columns Item, Description and Qty,
    and one row. *)
Definition table_without_unit : Pdf.document :=
  [ Pdf.mkPage ""
      [ [ [Some "Item"; Some "Description"; Some "Qty"];
          [Some "1"; Some "Junction box"; Some "5"] ] ] ].

(** A document without tables: a heading and two item lines. *)
Definition text_only : Pdf.document :=
  [ Pdf.mkPage ("BILL OF QUANTITIES" ++ String Py.LF "1 Junction box 12"
                ++ String Py.LF "2.1 Rack 3") [] ].

(** Two items, of quantities 4 and 10. *)
Definition two_items : Pandas.DataFrame :=
  Pandas.mkDF BOQParser.item_columns
    [ [Pandas.VStr "1"; Pandas.VStr "Fire Alarm Wire"; Pandas.VNum 4;
       Pandas.VStr "FT"; Pandas.VStr "Installation Materials"];
      [Pandas.VStr "2"; Pandas.VStr "Horn"; Pandas.VNum 10;
       Pandas.VStr "NOS"; Pandas.VStr "Notification Devices"] ].

(** The standards text of the examples. *)
Definition standards_phrase : string := "UL 268, NFPA 72, FM Approved".

(** ** Ranks, runs of a pattern, groups and columns *)

(** The place of [x] in [xs], and the length of [xs] when it is not there. *)
Fixpoint index_in (x : string) (xs : list string) : nat :=
  match xs with
  | [] => 0
  | y :: rest => if String.eqb x y then 0 else S (index_in x rest)
  end.

(** The place of a category in the classifier's table; "Other", which
    is not in the table, comes after all of them. *)
Definition category_rank (category : string) : nat :=
  index_in category (map fst BOQParser.categories).

(** [xs] is [ys] with some elements left out: the same order. *)
Inductive subsequence {A : Type} : list A -> list A -> Prop :=
| sub_nil ys : subsequence [] ys
| sub_take x xs ys : subsequence xs ys -> subsequence (x :: xs) (x :: ys)
| sub_skip y xs ys : subsequence xs ys -> subsequence xs (y :: ys).

(** A character a technical value can begin with: a digit, a point, a
    hyphen or a comma. *)
Definition number_start (c : ascii) : bool :=
  Py.isdigit_c c || Ascii.eqb c "." || Ascii.eqb c "-" || Ascii.eqb c ",".

(** [s] begins with a character of [p]. *)
Definition begins_with (p : ascii -> bool) (s : string) : bool :=
  match s with
  | String c _ => p c
  | EmptyString => false
  end.

(** [s] split after a beginning that is [l] up to case, if it has one. *)
Fixpoint ci_split (l s : string) : option (string * string) :=
  match l with
  | EmptyString => Some (EmptyString, s)
  | String c l' =>
      match s with
      | String x s' =>
          if Re.chr_ok true c x
          then match ci_split l' s' with
               | Some (w, rest) => Some (String x w, rest)
               | None => None
               end
          else None
      | EmptyString => None
      end
  end.

(** A pattern without capturing groups. *)
Fixpoint no_group (r : Re.re) : bool :=
  match r with
  | Re.Grp _ _ => false
  | Re.Seq r1 r2 | Re.Alt r1 r2 => no_group r1 && no_group r2
  | Re.Star _ r1 => no_group r1
  | _ => true
  end.

(** A lazy repetition of one class, by recursion on the subject: the
    shortest run first, then longer ones. *)
Fixpoint lazy_run {R : Type} (p : ascii -> bool) (k : Re.cont R)
  (w : string) (b : bool) (s : string) (cs : Re.caps) : option R :=
  match k w b s cs with
  | Some y => Some y
  | None =>
      match s with
      | String x s' =>
          if p x then lazy_run p k (w ++ String x "") false s' cs else None
      | EmptyString => None
      end
  end.

(** The texts of an item number, digits with an optional point and
    more digits, and of a quantity, digits with an optional fraction. *)
Definition item_number (s : string) : bool :=
  let (whole, rest) := Sheet.span_digits s in
  negb (String.eqb whole "")
  && match rest with
     | EmptyString => true
     | String c fraction => Ascii.eqb c "." && all_chars Py.isdigit_c fraction
     end.

Definition quantity_text (s : string) : bool :=
  let (whole, rest) := Sheet.span_digits s in
  negb (String.eqb whole "")
  && match rest with
     | EmptyString => true
     | String c fraction =>
         Ascii.eqb c "." && negb (String.eqb fraction "")
         && all_chars Py.isdigit_c fraction
     end.

(** The first and the last character of [s] are in [p]; [s] is not empty. *)
Definition ends_in (p : ascii -> bool) (s : string) : Prop :=
  exists a d, s = a ++ String d "" /\ p d = true.

Definition not_ws (c : ascii) : bool := negb (Py.isspace_c c).

(** The part of the item pattern after the description: an optional
    quantity, white space, the end of the line. *)
Definition item_tail : Re.re :=
  Re.Seq
    (Re.opt (Re.Seq (Re.plus (Re.Cls Re.ws))
               (Re.Grp 3 (Re.Seq (Re.plus (Re.Cls Re.digit))
                            (Re.opt (Re.Seq (Re.Chr ".")
                                       (Re.plus (Re.Cls Re.digit))))))))
    (Re.Seq (Re.star (Re.Cls Re.ws)) Re.Eol).

(** The Category cell of a row, as the grouping reads it, and the
    categories of the rows of a frame that have one, in row order. *)
Definition category_cell (df : Pandas.DataFrame) (r : list Pandas.value)
  : Pandas.value :=
  Pandas.get df r (Some "Category") Pandas.VNone.

Definition categories_of (df : Pandas.DataFrame) : list string :=
  flat_map (fun r => match category_cell df r with
                     | Pandas.VStr c => [c]
                     | _ => []
                     end)
           (Pandas.rows df).

(** Strictly increasing in the order of code points: every text comes
    before all the later ones. *)
Fixpoint increasing (xs : list string) : Prop :=
  match xs with
  | [] => True
  | x :: rest => (forall y, In y rest -> String.compare x y = Lt) /\ increasing rest
  end.

(** The number of rows for the key [c] in the groups. *)
Fixpoint group_size (groups : list (Pandas.value * nat)) (c : string) : nat :=
  match groups with
  | [] => 0
  | (Pandas.VStr k, n) :: rest => if String.eqb k c then n else group_size rest c
  | _ :: rest => group_size rest c
  end.

(** The keys of groups that are texts. *)
Definition text_keys (groups : list (Pandas.value * nat)) : list string :=
  flat_map (fun g => match fst g with Pandas.VStr c => [c] | _ => [] end) groups.

(** Reading a column of headings top down: an empty text stands for
    the heading above it. *)
Fixpoint fill_down (above : Pandas.value) (cells : list Pandas.value)
  : list Pandas.value :=
  match cells with
  | [] => []
  | cell :: rest =>
      let v := match cell with
               | Pandas.VStr EmptyString => above
               | _ => cell
               end in
      v :: fill_down v rest
  end.

(** The cells of column [col] in the rows [first], [first + 1], ... of
    a sheet, [n] of them. *)
Definition column_cells (ws : ExcelGenerator.worksheet) (col first n : nat)
  : list Pandas.value :=
  map (fun i => ExcelGenerator.cell ws (first + i) col) (seq 0 n).

(** What the loop of [create_spec_sheet] writes in column A for the
    categories [cats], [current] being the category before them. *)
Fixpoint headings (current : Pandas.value) (cats : list Pandas.value)
  : list Pandas.value :=
  match cats with
  | [] => []
  | category :: rest =>
      if Pandas.value_ne category current
      then category :: headings category rest
      else Pandas.VStr "" :: headings current rest
  end.

(** * Properties *)

(** ** Strings and characters *)

Lemma append_assoc (a b c : string) : (a ++ b) ++ c = a ++ (b ++ c).
Proof. induction a as [|x a IH]; simpl; [reflexivity | now rewrite IH]. Qed.

Lemma append_empty_r (a : string) : a ++ "" = a.
Proof. induction a as [|x a IH]; simpl; [reflexivity | now rewrite IH]. Qed.

Lemma append_length (a b : string) :
  String.length (a ++ b) = String.length a + String.length b.
Proof. induction a as [|x a IH]; simpl; [reflexivity | now rewrite IH]. Qed.

Lemma map_str_append f (a b : string) :
  Py.map_str f (a ++ b) = Py.map_str f a ++ Py.map_str f b.
Proof. induction a as [|x a IH]; simpl; [reflexivity | now rewrite IH]. Qed.

Lemma map_str_split f (s a b : string) :
  Py.map_str f s = a ++ b ->
  exists x y, s = x ++ y /\ Py.map_str f x = a /\ Py.map_str f y = b.
Proof.
  revert s; induction a as [|c a IH]; intros s H.
  - exists "", s. auto.
  - destruct s as [|d s]; simpl in H; [discriminate|].
    injection H as Hc Hs. destruct (IH _ Hs) as (x & y & -> & Hx & Hy).
    exists (String d x), y. simpl. now rewrite Hc, Hx.
Qed.

Lemma startswith_iff (p s : string) :
  Py.startswith p s = true <-> exists t, s = p ++ t.
Proof.
  revert s; induction p as [|a p IH]; intros s; simpl.
  - split; [exists s; reflexivity | reflexivity].
  - destruct s as [|b s].
    + split; [discriminate | intros [t H]; discriminate].
    + rewrite andb_true_iff, Ascii.eqb_eq, IH. split.
      * intros [-> [t ->]]. now exists t.
      * intros [t H]. injection H as -> ->. split; [reflexivity | now exists t].
Qed.

(** [in] is the substring test. *)
Lemma contains_iff (sub s : string) :
  Py.contains sub s = true <-> occurs sub s.
Proof.
  unfold occurs. induction s as [|c s IH].
  - simpl. rewrite orb_false_r, startswith_iff. split.
    + intros [t H]. exists "", t. exact H.
    + intros (pre & post & H). destruct pre; [now exists post|discriminate].
  - cbn [Py.contains]. rewrite orb_true_iff, startswith_iff, IH. split.
    + intros [[t H] | (pre & post & H)].
      * exists "", t. exact H.
      * exists (String c pre), post. simpl. now rewrite H.
    + intros (pre & post & H). destruct pre as [|d pre].
      * left. now exists post.
      * right. injection H as _ H. now exists pre, post.
Qed.

Lemma contains_false_iff (sub s : string) :
  Py.contains sub s = false <-> ~ occurs sub s.
Proof.
  rewrite <- contains_iff. destruct (Py.contains sub s); split; congruence.
Qed.

Lemma lower_append (a b : string) : Py.lower (a ++ b) = Py.lower a ++ Py.lower b.
Proof. apply map_str_append. Qed.

(** Looking for a lower-case word in the lower-cased text is looking
    for the word in the text up to case. *)
Lemma contains_lower_iff (k d : string) :
  Py.lower k = k ->
  (Py.contains k (Py.lower d) = true <-> occurs_ci k d).
Proof.
  intros Hk. rewrite contains_iff. unfold occurs, occurs_ci. split.
  - intros (pre & post & H).
    destruct (map_str_split _ _ _ _ H) as (x & y & -> & Hx & Hy).
    destruct (map_str_split _ _ _ _ Hy) as (u & v & -> & Hu & Hv).
    exists x, u, v. split; [reflexivity|]. unfold Py.lower in *. congruence.
  - intros (pre & mid & post & -> & H).
    exists (Py.lower pre), (Py.lower post).
    rewrite !lower_append. congruence.
Qed.

Lemma occurs_lower (sub s : string) :
  occurs sub s -> occurs (Py.lower sub) (Py.lower s).
Proof.
  intros (a & b & ->). exists (Py.lower a), (Py.lower b). now rewrite !lower_append.
Qed.

Lemma same_prefix (c a b d : string) :
  a ++ b = c ++ d -> String.length c <= String.length a ->
  exists e, a = c ++ e /\ d = e ++ b.
Proof.
  revert a. induction c as [|x c IH]; intros a H Hlen.
  - exists a. simpl in *. auto.
  - destruct a as [|y a]; [simpl in Hlen; lia|].
    simpl in H. injection H as -> H. simpl in Hlen.
    destruct (IH a H ltac:(lia)) as (e & -> & ->). now exists e.
Qed.

Lemma last_char (s : string) :
  s <> "" -> exists a d, s = a ++ String d "".
Proof.
  induction s as [|x s IH]; intros H; [contradiction|].
  destruct s as [|y s].
  - now exists "", x.
  - destruct IH as (a & d & E); [discriminate|]. exists (String x a), d.
    simpl. now rewrite E.
Qed.

Lemma last_char_unique a d b e : a ++ String d "" = b ++ String e "" -> d = e.
Proof.
  revert b. induction a as [|x a IH]; intros b H; destruct b as [|y b]; simpl in H.
  - congruence.
  - injection H as _ H. destruct b; discriminate.
  - injection H as _ H. destruct a; discriminate.
  - injection H as _ H. eauto.
Qed.

Lemma lower_c_fixed c d :
  Py.lower_c c = d -> Py.islower_c d = false -> c = d.
Proof.
  intros <-. destruct c as [[] [] [] [] [] [] [] []]; vm_compute; congruence.
Qed.

Lemma lower_fixed : forall t x,
  Py.lower x = t -> all_chars (fun c => negb (Py.islower_c c)) t = true -> x = t.
Proof.
  induction t as [|d t IH]; intros x Hx Ht; destruct x as [|c x]; try discriminate;
    [reflexivity|].
  injection Hx as Hc Hx. simpl in Ht. apply andb_true_iff in Ht. destruct Ht as [Hd Ht].
  apply negb_true_iff in Hd. f_equal; [now apply lower_c_fixed | now apply IH].
Qed.

Lemma upper_c_lower_c c : Py.upper_c (Py.lower_c c) = Py.upper_c c.
Proof. destruct c as [[] [] [] [] [] [] [] []]; reflexivity. Qed.

Lemma upper_of_lower a b : Py.lower a = Py.lower b -> Py.upper a = Py.upper b.
Proof.
  assert (H : forall s, Py.upper (Py.lower s) = Py.upper s).
  { induction s as [|c s IH]; [reflexivity|].
    unfold Py.upper, Py.lower in *. simpl. now rewrite upper_c_lower_c, IH. }
  intros E. now rewrite <- (H a), <- (H b), E.
Qed.

Lemma in_join (sep x : string) (xs : list string) :
  In x xs -> occurs x (Py.join sep xs).
Proof.
  induction xs as [|y xs IH]; [contradiction|].
  intros [->|H].
  - destruct xs as [|z xs].
    + exists "", "". cbn [Py.join append]. now rewrite append_empty_r.
    + change (Py.join sep (x :: z :: xs)) with (x ++ sep ++ Py.join sep (z :: xs)).
      now exists "", (sep ++ Py.join sep (z :: xs)).
  - specialize (IH H). destruct xs as [|z xs]; [contradiction|].
    change (Py.join sep (y :: z :: xs)) with (y ++ sep ++ Py.join sep (z :: xs)).
    destruct IH as (a & b & E). rewrite E.
    exists (y ++ sep ++ a), b. now rewrite !append_assoc.
Qed.

Lemma all_chars_append p a b :
  all_chars p (a ++ b) = all_chars p a && all_chars p b.
Proof. induction a as [|x a IH]; simpl; [reflexivity|]. now rewrite IH, andb_assoc. Qed.

Lemma all_chars_weaken (p q : ascii -> bool) s :
  (forall c, p c = true -> q c = true) -> all_chars p s = true -> all_chars q s = true.
Proof.
  intros Hpq. induction s as [|c s IH]; simpl; [reflexivity|].
  rewrite !andb_true_iff. intros [Hc Hs]. split; auto.
Qed.

Lemma avoids_lower h s :
  avoids h s = all_chars (fun c => negb (Ascii.eqb c h)) (Py.lower s).
Proof. unfold avoids. induction s as [|c s IH]; simpl; [reflexivity|]. now rewrite IH. Qed.

Lemma avoids_append h a b : avoids h (a ++ b) = avoids h a && avoids h b.
Proof. apply all_chars_append. Qed.

(** Characters *)
Lemma ws_not_letter c :
  Re.cls_ok true Re.ws c = true -> Py.islower_c (Py.lower_c c) = false.
Proof. destruct c as [[] [] [] [] [] [] [] []]; vm_compute; congruence. Qed.

Lemma digit_not_letter c :
  Re.cls_ok true Re.digit c = true -> Py.islower_c (Py.lower_c c) = false.
Proof. destruct c as [[] [] [] [] [] [] [] []]; vm_compute; congruence. Qed.

Lemma digit_is_digit c : Re.cls_ok true Re.digit c = true -> Py.isdigit_c c = true.
Proof. destruct c as [[] [] [] [] [] [] [] []]; vm_compute; congruence. Qed.

Lemma letter_not_ws c :
  Py.islower_c (Py.lower_c c) = true -> Re.cls_ok true Re.ws c = false.
Proof. destruct c as [[] [] [] [] [] [] [] []]; vm_compute; congruence. Qed.

Lemma not_letter_avoids (p : ascii -> bool) h s :
  Py.islower_c h = true ->
  (forall c, p c = true -> Py.islower_c (Py.lower_c c) = false) ->
  all_chars p s = true -> avoids h s = true.
Proof.
  intros Hh Hp. apply all_chars_weaken. intros c Hc. apply Hp in Hc.
  destruct (Ascii.eqb_spec (Py.lower_c c) h) as [E|E]; [|reflexivity].
  congruence.
Qed.

(** Neighbours *)
Lemma adj_free_all P s :
  (forall d, all_chars (P d) s = true) -> adj P s = true.
Proof.
  induction s as [|a s IH]; intros H; [reflexivity|].
  destruct s as [|b s]; [reflexivity|].
  cbn [adj]. apply andb_true_iff. split.
  - specialize (H a). simpl in H. apply andb_true_iff in H.
    destruct H as [_ H]. now apply andb_true_iff in H.
  - apply IH. intros d. specialize (H d). simpl in H. now apply andb_true_iff in H.
Qed.

Lemma adj_append_free P a b :
  adj P a = true -> (forall d, all_chars (P d) b = true) -> adj P (a ++ b) = true.
Proof.
  intros Ha Hb. induction a as [|x a IH].
  - simpl. now apply adj_free_all.
  - destruct a as [|y a].
    + simpl. destruct b as [|c b]; [reflexivity|].
      apply andb_true_iff. split.
      * specialize (Hb x). simpl in Hb. now apply andb_true_iff in Hb.
      * now apply adj_free_all.
    + cbn [adj append] in *. apply andb_true_iff in Ha. destruct Ha as [Hxy Ha].
      rewrite Hxy. simpl. exact (IH Ha).
Qed.

Lemma adj_snoc P a d c :
  adj P (a ++ String d "") = true -> P d c = true ->
  adj P (a ++ String d (String c "")) = true.
Proof.
  intros Ha Hdc. induction a as [|x a IH].
  - simpl. now rewrite Hdc.
  - destruct a as [|y a].
    + simpl in *. apply andb_true_iff in Ha. destruct Ha as [Hxd _].
      now rewrite Hxd, Hdc.
    + cbn [adj append] in *. apply andb_true_iff in Ha. destruct Ha as [Hxy Ha].
      rewrite Hxy. simpl. exact (IH Ha).
Qed.

Lemma adj_inside P a d c e :
  adj P (a ++ String d (String c e)) = true -> P d c = true.
Proof.
  induction a as [|x a IH]; intros H.
  - simpl in H. now apply andb_true_iff in H.
  - destruct a as [|y a]; cbn [adj append] in H;
      apply andb_true_iff in H; destruct H as [_ H]; exact (IH H).
Qed.

Lemma adj_free_head h c t : avoids h t = true -> adj (other_letter h) (String c t) = true.
Proof.
  intros H. apply (adj_append_free (other_letter h) (String c "") t); [reflexivity|].
  intros d. exact H.
Qed.

Lemma adj_digit_head h c t : avoids h t = true -> adj (other_letter_or_after_digit h) (String c t) = true.
Proof.
  intros H. apply (adj_append_free (other_letter_or_after_digit h) (String c "") t); [reflexivity|].
  intros d. revert H. apply all_chars_weaken. intros x Hx. unfold other_letter_or_after_digit.
  now rewrite Hx.
Qed.

(** ** The matcher *)

Lemma star_loop_sound ic g r :
  sound ic r ->
  forall (R : Type) (k : Re.cont R) fuel w0 b s cs x,
    Re.star_loop g (fun b' s' cs' k' => Re.m ic r b' s' cs' k') k fuel w0 b s cs = Some x ->
    exists w b' s' cs',
      s = w ++ s' /\ lang ic (Re.Star g r) w /\ k (w0 ++ w) b' s' cs' = Some x.
Proof.
  intros Hr R k. induction fuel as [|fuel IH]; intros w0 b s cs x H.
  - simpl in H. exists "", b, s, cs. rewrite append_empty_r.
    split; [reflexivity|]. split; [constructor | exact H].
  - assert (Hstop : k w0 b s cs = Some x ->
              exists w b' s' cs',
                s = w ++ s' /\ lang ic (Re.Star g r) w /\ k (w0 ++ w) b' s' cs' = Some x).
    { intros Hk. exists "", b, s, cs. rewrite append_empty_r.
      split; [reflexivity|]. split; [constructor | exact Hk]. }
    assert (Hagain : forall y,
              Re.m ic r b s cs
                (fun w1 b1 s1 cs1 =>
                   if String.length s1 <? String.length s
                   then Re.star_loop g (fun b' s' cs' k' => Re.m ic r b' s' cs' k')
                          k fuel (w0 ++ w1) b1 s1 cs1
                   else None) = Some y ->
              exists w b' s' cs',
                s = w ++ s' /\ lang ic (Re.Star g r) w /\ k (w0 ++ w) b' s' cs' = Some y).
    { intros y Hy. apply Hr in Hy. destruct Hy as (w1 & b1 & s1 & cs1 & -> & Hl1 & Hy).
      destruct (String.length s1 <? String.length (w1 ++ s1)); [|discriminate].
      apply IH in Hy. destruct Hy as (w2 & b2 & s2 & cs2 & -> & Hl2 & Hy).
      exists (w1 ++ w2), b2, s2, cs2. rewrite <- !append_assoc in *.
      split; [reflexivity|]. split; [now constructor | exact Hy]. }
    cbn [Re.star_loop] in H. destruct g.
    + destruct (Re.m ic r b s cs _) as [y|] eqn:E.
      * injection H as <-. now apply Hagain.
      * now apply Hstop.
    + destruct (k w0 b s cs) as [y|] eqn:E.
      * injection H as <-. now apply Hstop.
      * now apply Hagain.
Qed.

Theorem m_sound ic r : sound ic r.
Proof.
  induction r as [|c|p|r1 IH1 r2 IH2|r1 IH1 r2 IH2|g r IH|n r IH| |];
    intros R b s cs k x H; cbn [Re.m] in H.
  - exists "", b, s, cs. repeat split; [constructor | exact H].
  - destruct s as [|y s]; [discriminate|].
    destruct (Re.chr_ok ic c y) eqn:E; [|discriminate].
    exists (String y ""), false, s, cs. repeat split; [now constructor | exact H].
  - destruct s as [|y s]; [discriminate|].
    destruct (Re.cls_ok ic p y) eqn:E; [|discriminate].
    exists (String y ""), false, s, cs. repeat split; [now constructor | exact H].
  - apply IH1 in H. destruct H as (w1 & b1 & s1 & cs1 & -> & Hl1 & H).
    apply IH2 in H. destruct H as (w2 & b2 & s2 & cs2 & -> & Hl2 & H).
    exists (w1 ++ w2), b2, s2, cs2. rewrite append_assoc.
    repeat split; [now constructor | exact H].
  - destruct (Re.m ic r1 b s cs k) as [y|] eqn:E.
    + injection H as <-. apply IH1 in E.
      destruct E as (w & b' & s' & cs' & -> & Hl & E).
      exists w, b', s', cs'. repeat split; [now apply L_AltL | exact E].
    + apply IH2 in H. destruct H as (w & b' & s' & cs' & -> & Hl & H).
      exists w, b', s', cs'. repeat split; [now apply L_AltR | exact H].
  - apply (star_loop_sound ic g r IH) in H.
    destruct H as (w & b' & s' & cs' & -> & Hl & H).
    exists w, b', s', cs'. repeat split; [exact Hl | exact H].
  - apply IH in H. destruct H as (w & b' & s' & cs' & -> & Hl & H).
    exists w, b', s', ((n, w) :: cs'). repeat split; [now constructor | exact H].
  - destruct b; [|discriminate]. exists "", true, s, cs.
    repeat split; [constructor | exact H].
  - destruct (Re.at_eol s); [|discriminate]. exists "", b, s, cs.
    repeat split; [constructor | exact H].
Qed.

Lemma match_at_sound ic r b s w s' cs :
  Re.match_at ic r b s = Some (w, s', cs) -> s = w ++ s' /\ lang ic r w.
Proof.
  unfold Re.match_at. intros H. apply m_sound in H.
  destruct H as (w1 & b1 & s1 & cs1 & -> & Hl & H). injection H as <- <- _.
  split; [reflexivity | exact Hl].
Qed.

Lemma lang_seq ic r1 r2 w :
  lang ic (Re.Seq r1 r2) w ->
  exists w1 w2, w = w1 ++ w2 /\ lang ic r1 w1 /\ lang ic r2 w2.
Proof. inversion 1; subst; eauto. Qed.

Lemma lang_cls ic p w :
  lang ic (Re.Cls p) w -> exists x, w = String x "" /\ Re.cls_ok ic p x = true.
Proof. inversion 1; subst; eauto. Qed.

Lemma lang_opt ic r w : lang ic (Re.opt r) w -> lang ic r w \/ w = "".
Proof.
  unfold Re.opt. inversion 1; subst; [now left|].
  match goal with H : lang _ Re.Eps _ |- _ => inversion H end. now right.
Qed.

Lemma lang_lit : forall l w, lang true (Re.lit l) w -> Py.lower w = Py.lower l.
Proof.
  induction l as [|c l IH]; intros w H; cbn [Re.lit] in H.
  - inversion H. reflexivity.
  - apply lang_seq in H. destruct H as (w1 & w2 & -> & H1 & H2).
    inversion H1; subst. apply IH in H2. unfold Re.chr_ok in *.
    match goal with H : Ascii.eqb _ _ = true |- _ => apply Ascii.eqb_eq in H; rename H into Hc end.
    unfold Py.lower in *. simpl. now rewrite Hc, H2.
Qed.

Lemma lang_star_cls ic g p w :
  lang ic (Re.Star g (Re.Cls p)) w -> all_chars (Re.cls_ok ic p) w = true.
Proof.
  intros H. remember (Re.Star g (Re.Cls p)) as r eqn:E.
  induction H; try discriminate; [reflexivity|].
  injection E as -> ->. specialize (IHlang2 eq_refl).
  apply lang_cls in H. destruct H as (x & -> & Hx). simpl. now rewrite Hx.
Qed.

Lemma lang_grp ic n r w : lang ic (Re.Grp n r) w -> lang ic r w.
Proof. inversion 1; subst; assumption. Qed.

Lemma lang_plus_cls ic p w :
  lang ic (Re.plus (Re.Cls p)) w -> w <> "" /\ all_chars (Re.cls_ok ic p) w = true.
Proof.
  unfold Re.plus. intros H. apply lang_seq in H. destruct H as (w1 & w2 & -> & H1 & H2).
  apply lang_cls in H1. destruct H1 as (x & -> & Hx). apply lang_star_cls in H2.
  split; [discriminate|]. cbn [append all_chars]. now rewrite Hx, H2.
Qed.

(** [findall] finds the match at a position that no earlier match
    runs across. *)
Lemma findall_reaches ic r w s :
  (forall bb, exists s' cs, Re.match_at ic r bb s = Some (w, s', cs)) ->
  forall fuel pre b,
    String.length (pre ++ s) < fuel ->
    (forall pre1 pre2 bb w' s'' cs',
        pre = pre1 ++ pre2 -> pre2 <> "" ->
        Re.match_at ic r bb (pre2 ++ s) = Some (w', s'', cs') ->
        String.length w' <= String.length pre2) ->
    In w (Re.findall_from fuel ic r b (pre ++ s)).
Proof.
  intros Hm. induction fuel as [|fuel IH]; intros pre b Hf Hc; [lia|].
  destruct pre as [|c pre].
  - simpl append. cbn [Re.findall_from]. destruct (Hm b) as (s' & cs & ->). now left.
  - assert (Hskip : In w (Re.findall_from fuel ic r false (pre ++ s))).
    { apply IH; [simpl in Hf; lia|].
      intros pre1 pre2 bb w' s'' cs' -> Hne. apply (Hc (String c pre1) pre2); auto. }
    cbn [Re.findall_from].
    destruct (Re.match_at ic r b (String c pre ++ s)) as [[[w' s''] cs']|] eqn:E;
      [|exact Hskip].
    right. destruct w' as [|x w']; [exact Hskip|].
    pose proof (Hc "" (String c pre) b _ _ _ eq_refl ltac:(discriminate) E) as Hlen.
    destruct (match_at_sound _ _ _ _ _ _ _ E) as [Hs _].
    destruct (same_prefix _ _ _ _ Hs Hlen) as (e & He & ->).
    apply IH.
    + rewrite He, append_assoc, append_length in Hf. simpl in Hf. lia.
    + intros pre1 pre2 bb w2 s2 cs2 -> Hne.
      apply (Hc (String x w' ++ pre1) pre2); [|exact Hne].
      now rewrite He, append_assoc.
Qed.

(** A match whose neighbours satisfy [P] does not run across a
    position where they do not. *)
Lemma no_crossing P w' rest pre2 a d c s0 :
  adj P w' = true ->
  pre2 ++ String c s0 = w' ++ rest ->
  pre2 = a ++ String d "" ->
  P d c = false ->
  String.length w' <= String.length pre2.
Proof.
  intros Hadj Heq Hpre HP.
  destruct (Nat.le_gt_cases (String.length w') (String.length pre2)) as [H|H];
    [exact H|exfalso].
  symmetry in Heq.
  destruct (same_prefix pre2 w' rest (String c s0) Heq ltac:(lia)) as (e & He & Hs).
  destruct e as [|x e].
  - rewrite append_empty_r in He. subst w'. lia.
  - simpl in Hs. injection Hs as <- _. subst w' pre2.
    rewrite append_assoc in Hadj. cbn [append] in Hadj.
    apply adj_inside in Hadj. congruence.
Qed.

(** A pattern whose matches have neighbours in [P] finds the match at
    a position where [P] fails. *)
Lemma findall_at P r w pre c s0 :
  (forall w', lang true r w' -> adj P w' = true) ->
  (forall bb, exists s' cs, Re.match_at true r bb (String c s0) = Some (w, s', cs)) ->
  (forall a d, pre = a ++ String d "" -> P d c = false) ->
  In w (Re.findall true r (pre ++ String c s0)).
Proof.
  intros Hshape Hm HP. unfold Re.findall. apply findall_reaches; [exact Hm|lia|].
  intros pre1 pre2 bb w' s'' cs' -> Hne E.
  destruct (match_at_sound _ _ _ _ _ _ _ E) as [Hs Hl].
  destruct (last_char pre2 Hne) as (a & d & Ea).
  apply (no_crossing P w' s'' pre2 a d c s0); auto.
  apply (HP (pre1 ++ a)). now rewrite Ea, append_assoc.
Qed.

Lemma search_after ic r s : forall pre b,
  Re.no_match_before ic r b pre s = true ->
  Re.search_from ic r b (pre ++ s)
  = Re.search_from ic r (match pre with EmptyString => b | _ => false end) s.
Proof.
  induction pre as [|c pre IH]; intros b H; [reflexivity|].
  cbn [Re.no_match_before append] in H. cbn [append Re.search_from].
  destruct (Re.match_at ic r b (String c (pre ++ s))); [discriminate|].
  rewrite (IH false H). now destruct pre.
Qed.

Lemma m_seq ic r1 r2 (R : Type) (k : Re.cont R) b s cs :
  Re.m ic (Re.Seq r1 r2) b s cs k
  = Re.m ic r1 b s cs
      (fun w1 b1 s1 cs1 =>
         Re.m ic r2 b1 s1 cs1 (fun w2 b2 s2 cs2 => k (w1 ++ w2) b2 s2 cs2)).
Proof. reflexivity. Qed.

Lemma m_alt ic r1 r2 (R : Type) (k : Re.cont R) b s cs :
  Re.m ic (Re.Alt r1 r2) b s cs k
  = match Re.m ic r1 b s cs k with
    | Some x => Some x
    | None => Re.m ic r2 b s cs k
    end.
Proof. reflexivity. Qed.

Lemma m_eps ic (R : Type) (k : Re.cont R) b s cs :
  Re.m ic Re.Eps b s cs k = k "" b s cs.
Proof. reflexivity. Qed.

Lemma m_grp ic n r (R : Type) (k : Re.cont R) b s cs :
  Re.m ic (Re.Grp n r) b s cs k
  = Re.m ic r b s cs (fun w b' s' cs' => k w b' s' ((n, w) :: cs')).
Proof. reflexivity. Qed.

Lemma m_cls_ok ic p (R : Type) (k : Re.cont R) b x s cs :
  Re.cls_ok ic p x = true ->
  Re.m ic (Re.Cls p) b (String x s) cs k = k (String x "") false s cs.
Proof. intros H. cbn [Re.m]. now rewrite H. Qed.

Lemma m_cls_stops ic p (R : Type) (k : Re.cont R) b s cs :
  stops (Re.cls_ok ic p) s -> Re.m ic (Re.Cls p) b s cs k = None.
Proof. intros H. destruct s as [|x s]; cbn [Re.m]; [reflexivity|]. simpl in H. now rewrite H. Qed.

Lemma m_lit_ci : forall l w,
  Py.lower w = Py.lower l ->
  forall (R : Type) b s' cs (k : Re.cont R),
    Re.m true (Re.lit l) b (w ++ s') cs k
    = k w (match l with EmptyString => b | _ => false end) s' cs.
Proof.
  induction l as [|c l IH]; intros w Hw R b s' cs k;
    destruct w as [|x w]; try discriminate; [reflexivity|].
  injection Hw as Hc Hw. cbn [Re.lit Re.m append]. unfold Re.chr_ok.
  rewrite Hc, Ascii.eqb_refl, (IH w Hw). now destruct l.
Qed.

Lemma star_loop_cls ic p (R : Type) (k : Re.cont R) : forall s fuel w b cs,
  String.length s <= fuel ->
  Re.star_loop true (fun b' s' cs' k' => Re.m ic (Re.Cls p) b' s' cs' k') k fuel w b s cs
  = greedy_run (Re.cls_ok ic p) k w b s cs.
Proof.
  induction s as [|x s IH]; intros fuel w b cs Hf.
  - destruct fuel; reflexivity.
  - destruct fuel as [|fuel]; [simpl in Hf; lia|].
    cbn [Re.star_loop Re.m greedy_run].
    destruct (Re.cls_ok ic p x); [|reflexivity].
    assert (E : (String.length s <? String.length (String x s)) = true)
      by (apply Nat.ltb_lt; simpl; lia).
    rewrite E, IH by (simpl in Hf; lia). reflexivity.
Qed.

Lemma m_star_cls ic p (R : Type) (k : Re.cont R) b s cs :
  Re.m ic (Re.Star true (Re.Cls p)) b s cs k
  = greedy_run (Re.cls_ok ic p) k "" b s cs.
Proof. cbn [Re.m]. now apply star_loop_cls. Qed.

(** A greedy run that takes [w1] and stops there, when what follows
    the repetition matches at that point. *)
Lemma greedy_run_commit (R : Type) p (k : Re.cont R) y s' cs : forall w1 w b,
  all_chars p w1 = true -> stops p s' ->
  k (w ++ w1) (match w1 with EmptyString => b | _ => false end) s' cs = Some y ->
  greedy_run p k w b (w1 ++ s') cs = Some y.
Proof.
  induction w1 as [|x w1 IH]; intros w b Hall Hstop Hk.
  - rewrite append_empty_r in Hk. destruct s' as [|c s']; simpl in *; [exact Hk|].
    now rewrite Hstop.
  - simpl in Hall. apply andb_true_iff in Hall. destruct Hall as [Hx Hall].
    cbn [append greedy_run]. rewrite Hx, (IH (w ++ String x "") false Hall Hstop);
      [reflexivity|].
    rewrite append_assoc. cbn [append]. now destruct w1.
Qed.

(** ** The two classifiers of a description *)

Lemma category_keywords_lower :
  forall c ks k, In (c, ks) BOQParser.categories -> In k ks -> Py.lower k = k.
Proof.
  assert (H : forallb (fun k => String.eqb (Py.lower k) k)
                (flat_map snd BOQParser.categories) = true) by reflexivity.
  rewrite forallb_forall in H. intros c ks k Hc Hk.
  apply String.eqb_eq, H, in_flat_map. exists (c, ks). auto.
Qed.

Lemma any_keyword_iff (ks : list string) (d : string) :
  (forall k, In k ks -> Py.lower k = k) ->
  (Py.any (fun keyword => Py.contains keyword (Py.lower d)) ks = true
   <-> exists k, In k ks /\ occurs_ci k d).
Proof.
  intros Hks. unfold Py.any. rewrite existsb_exists. split.
  - intros (k & Hin & H). exists k. split; [exact Hin|].
    now apply contains_lower_iff; [apply Hks|].
  - intros (k & Hin & H). exists k. split; [exact Hin|].
    now apply contains_lower_iff; [apply Hks|].
Qed.

Lemma scan_categories_first (before after : list (string * list string))
  (c : string) (ks : list string) (d : string) :
  Py.any (fun keyword => Py.contains keyword d) ks = true ->
  (forall c' ks', In (c', ks') before ->
                  Py.any (fun keyword => Py.contains keyword d) ks' = false) ->
  BOQParser.scan_categories (before ++ (c, ks) :: after)%list d = Some c.
Proof.
  intros Hk. induction before as [|[c' ks'] before IH]; intros Hb; simpl.
  - now rewrite Hk.
  - rewrite (Hb c' ks') by (left; reflexivity).
    apply IH. intros c2 ks2 H2. apply (Hb c2 ks2). now right.
Qed.

Lemma scan_categories_none (cats : list (string * list string)) (d : string) :
  (forall c ks, In (c, ks) cats ->
                Py.any (fun keyword => Py.contains keyword d) ks = false) ->
  BOQParser.scan_categories cats d = None.
Proof.
  induction cats as [|[c ks] cats IH]; intros H; simpl; [reflexivity|].
  rewrite (H c ks) by (left; reflexivity).
  apply IH. intros c2 ks2 H2. apply (H c2 ks2). now right.
Qed.

Lemma no_keyword_any (ks : list string) (d : string) :
  (forall k, In k ks -> Py.lower k = k) ->
  (forall k, In k ks -> ~ occurs_ci k d) ->
  Py.any (fun keyword => Py.contains keyword (Py.lower d)) ks = false.
Proof.
  intros Hl Hn. apply not_true_is_false. intros H.
  apply any_keyword_iff in H; [|exact Hl].
  destruct H as (k & Hin & Hk). exact (Hn k Hin Hk).
Qed.




Lemma scan_units_first (before after : list string) (u d : string) :
  Py.contains u d = true ->
  (forall v, In v before -> Py.contains v d = false) ->
  BOQParser.scan_units (before ++ u :: after)%list d = Some (Py.upper u).
Proof.
  intros Hu. induction before as [|v before IH]; intros Hb; simpl.
  - now rewrite Hu.
  - rewrite (Hb v) by (left; reflexivity). apply IH. intros w Hw. apply Hb. now right.
Qed.

Lemma scan_units_none (us : list string) (d : string) :
  (forall v, In v us -> Py.contains v d = false) ->
  BOQParser.scan_units us d = None.
Proof.
  induction us as [|v us IH]; intros H; simpl; [reflexivity|].
  rewrite (H v) by (left; reflexivity). apply IH. intros w Hw. apply H. now right.
Qed.

(** C3. For every description the unit is the upper-cased form of the
    first of the tokens nos, no, pcs, pc, set, meter, m, ft, each, ea,
    taken in that order, that occurs in the lower-cased description,
    and "NOS" when none of them occurs. *)
Theorem C3_unit_is_first_token (description : string) :
  BOQParser.units = ["nos"; "no"; "pcs"; "pc"; "set"; "meter"; "m"; "ft"; "each"; "ea"]
  /\ (forall before token after,
        BOQParser.units = (before ++ token :: after)%list ->
        occurs token (Py.lower description) ->
        (forall t, In t before -> ~ occurs t (Py.lower description)) ->
        BOQParser._extract_unit description = Py.upper token)
  /\ ((forall t, In t BOQParser.units -> ~ occurs t (Py.lower description)) ->
      BOQParser._extract_unit description = "NOS").
Proof.
  split; [reflexivity|]. split.
  - intros before token after Hu Hocc Hb.
    unfold BOQParser._extract_unit. cbv zeta.
    rewrite Hu, scan_units_first; [reflexivity| |].
    + now apply contains_iff.
    + intros t Ht. apply contains_false_iff. now apply Hb.
  - intros Hnone. unfold BOQParser._extract_unit. cbv zeta.
    rewrite scan_units_none; [reflexivity|].
    intros t Ht. apply contains_false_iff. now apply Hnone.
Qed.

(** A use of C3: in "Cable, 100 ft" the first token that occurs is ft. *)
Lemma C3_unit_is_first_token_witness :
  BOQParser._extract_unit "Cable, 100 ft" = "FT".
Proof.
  destruct (C3_unit_is_first_token "Cable, 100 ft") as (_ & H & _).
  apply (H ["nos"; "no"; "pcs"; "pc"; "set"; "meter"; "m"] "ft" ["each"; "ea"]).
  - reflexivity.
  - apply contains_iff. reflexivity.
  - intros t Ht. apply contains_false_iff. simpl in Ht.
    repeat (destruct Ht as [<-|Ht]; [reflexivity|]). contradiction.
Defined.

(** C4 as stated fails: "50 smoke detectors" does not get the default. *)
Lemma C4_smoke_detectors_not_default :
  ~ (BOQParser._extract_unit "1000 FT of FPLR wire" = "FT"
     /\ BOQParser._extract_unit "50 smoke detectors" = "NOS").
Proof. intros [_ H]. discriminate H. Qed.

(** C4, amended. "1000 FT of FPLR wire" gives "FT"; "50 smoke detectors"
    gives "M", because the token m occurs in it (in "smoke") and none
    of the six tokens before m does. *)
Theorem C4_unit_examples :
  BOQParser._extract_unit "1000 FT of FPLR wire" = "FT"
  /\ BOQParser._extract_unit "50 smoke detectors" = "M"
  /\ occurs "m" (Py.lower "50 smoke detectors")
  /\ (forall t, In t ["nos"; "no"; "pcs"; "pc"; "set"; "meter"] ->
                ~ occurs t (Py.lower "50 smoke detectors")).
Proof.
  split; [reflexivity|]. split; [reflexivity|]. split.
  - apply contains_iff. reflexivity.
  - intros t Ht. apply contains_false_iff. simpl in Ht.
    repeat (destruct Ht as [<-|Ht]; [reflexivity|]). contradiction.
Qed.

(** ** The document type *)

Lemma repr_body_app (q : ascii) (a b : list byte) :
  PdfToExcel.repr_body q (a ++ b)%list
  = PdfToExcel.repr_body q a ++ PdfToExcel.repr_body q b.
Proof.
  induction a as [|x a IH]; simpl; [reflexivity|]. now rewrite IH, append_assoc.
Qed.

(** The phrase survives [str(content)]: its bytes stand for themselves. *)
Lemma phrase_survives_repr (pre post : list byte) :
  occurs "bill of quantities"
    (Py.lower (PdfToExcel.str_bytes
                 (pre ++ list_byte_of_string "Bill of Quantities" ++ post)%list)).
Proof.
  change "bill of quantities" with (Py.lower "Bill of Quantities").
  apply occurs_lower. unfold PdfToExcel.str_bytes. cbv zeta.
  set (q := if (_ && _)%bool then PdfToExcel.DQUOTE else PdfToExcel.QUOTE).
  assert (Hq : PdfToExcel.repr_body q (list_byte_of_string "Bill of Quantities")
               = "Bill of Quantities").
  { subst q. destruct (_ && _)%bool; reflexivity. }
  rewrite !repr_body_app, Hq.
  exists (String "b" (String q (PdfToExcel.repr_body q pre))),
         (PdfToExcel.repr_body q post ++ String q "").
  simpl. now rewrite !append_assoc.
Qed.



(** ** The line items of a BOQ *)

Lemma width_bounds (data : list (list Pandas.value)) (r : list Pandas.value) :
  In r data -> List.length r <= Pandas.width data.
Proof.
  induction data as [|x data IH]; simpl; [contradiction|].
  intros [->|H]; [lia|]. specialize (IH H). lia.
Qed.

Lemma pad_all (w : nat) (data : list (list Pandas.value)) :
  (forall r, In r data -> List.length r <= w) ->
  Forall (fun r => List.length r = w) (map (Pandas.pad w) data).
Proof.
  intros H. apply Forall_forall. intros r Hr. apply in_map_iff in Hr.
  destruct Hr as (r' & <- & Hin). unfold Pandas.pad.
  rewrite length_app, repeat_length. specialize (H r' Hin). lia.
Qed.

Lemma from_rows_well_formed data cols df :
  Pandas.from_rows data cols = Some df -> well_formed df.
Proof.
  unfold Pandas.from_rows, well_formed. destruct data as [|r0 data].
  - intros H. injection H as <-. constructor.
  - destruct (Nat.eqb_spec (Pandas.width (r0 :: data)) (List.length cols)) as [E|E];
      [|discriminate].
    intros H. injection H as <-. cbn [Pandas.rows Pandas.columns]. rewrite <- E.
    exact (pad_all _ (r0 :: data) (width_bounds (r0 :: data))).
Qed.

Lemma frames_of_well_formed tables dfs :
  Pdf.frames_of tables = Some dfs -> Forall well_formed dfs.
Proof.
  revert dfs. induction tables as [|t tables IH]; intros dfs; simpl.
  - intros H. injection H as <-. constructor.
  - destruct t as [|header data]; [apply IH|].
    destruct (Pandas.from_rows _ header) as [df|] eqn:Hdf; [|discriminate].
    destruct (Pdf.frames_of tables) as [dfs'|]; [|discriminate].
    intros H. injection H as <-. constructor.
    + eapply from_rows_well_formed; eassumption.
    + now apply IH.
Qed.

Lemma concat_well_formed frames df :
  Forall well_formed frames -> Pandas.concat frames = Some df -> well_formed df.
Proof.
  unfold Pandas.concat. destruct frames as [|f rest]; [discriminate|].
  intros Hwf. destruct (forallb _ rest) eqn:Hsame.
  - intros H. injection H as <-. unfold well_formed. cbn [Pandas.rows Pandas.columns].
    apply Forall_forall. intros r Hr.
    change (Pandas.rows f ++ flat_map Pandas.rows rest)%list
      with (flat_map Pandas.rows (f :: rest)) in Hr.
    apply in_flat_map in Hr. destruct Hr as (g & Hg & Hr).
    rewrite Forall_forall in Hwf. pose proof (Hwf g Hg) as Hgw.
    unfold well_formed in Hgw. rewrite Forall_forall in Hgw. rewrite (Hgw r Hr).
    destruct Hg as [<-|Hg]; [reflexivity|].
    rewrite forallb_forall in Hsame. specialize (Hsame g Hg).
    unfold Pandas.same_columns in Hsame. apply andb_true_iff in Hsame.
    now apply Nat.eqb_eq.
  - destruct (forallb _ (f :: rest)); [|discriminate].
    intros H. injection H as <-. unfold well_formed. cbn [Pandas.rows Pandas.columns].
    apply Forall_forall. intros r Hr.
    change (Pandas.reindex (Pandas.union_columns (f :: rest)) f
            ++ flat_map (Pandas.reindex (Pandas.union_columns (f :: rest))) rest)%list
      with (flat_map (Pandas.reindex (Pandas.union_columns (f :: rest))) (f :: rest)) in Hr.
    apply in_flat_map in Hr. destruct Hr as (g & _ & Hr).
    unfold Pandas.reindex in Hr. apply in_map_iff in Hr. destruct Hr as (r' & <- & _).
    apply length_map.
Qed.

Lemma apply_categorize series cats :
  Pandas.apply BOQParser.categorize_cell series = Some cats ->
  List.length cats = List.length series /\ Forall is_category cats.
Proof.
  revert cats. induction series as [|v series IH]; intros cats; simpl.
  - intros H. injection H as <-. split; [reflexivity | constructor].
  - destruct (BOQParser.categorize_cell v) as [w|] eqn:Hv; [|discriminate].
    destruct (Pandas.apply _ series) as [ws|]; [|discriminate].
    intros H. injection H as <-. destruct (IH ws eq_refl) as [Hl Ht].
    split; [simpl; congruence|]. constructor; [|exact Ht].
    destruct v; try discriminate. injection Hv as <-. eexists. reflexivity.
Qed.

Lemma label_eqb_sym (a b : Pandas.label) : Pandas.label_eqb a b = Pandas.label_eqb b a.
Proof. destruct a, b; simpl; auto using String.eqb_sym. Qed.

Lemma field_overwritten (l : Pandas.label) (v : Pandas.value) cols r :
  List.length r = List.length cols ->
  Pandas.has_column l cols = true ->
  match Pandas.index_of l cols with
  | Some j =>
      nth_error (map (fun cv : Pandas.label * Pandas.value =>
                        if Pandas.label_eqb (fst cv) l then v else snd cv)
                     (combine cols r)) j
  | None => None
  end = Some v.
Proof.
  revert r. induction cols as [|c cols IH]; intros r Hlen Hhas; [discriminate|].
  destruct r as [|x r]; [discriminate|]. simpl in *.
  destruct (Pandas.label_eqb c l) eqn:E; [reflexivity|].
  rewrite label_eqb_sym, E in Hhas. simpl in Hhas.
  specialize (IH r ltac:(lia) Hhas).
  destruct (Pandas.index_of l cols); [exact IH | discriminate].
Qed.

Lemma field_appended (l : Pandas.label) (v : Pandas.value) cols r :
  List.length r = List.length cols ->
  Pandas.has_column l cols = false ->
  match Pandas.index_of l (cols ++ [l])%list with
  | Some j => nth_error (r ++ [v])%list j
  | None => None
  end = Some v.
Proof.
  revert r. induction cols as [|c cols IH]; intros r Hlen Hhas.
  - destruct r; [|discriminate]. simpl.
    assert (E : Pandas.label_eqb l l = true)
      by (destruct l; simpl; auto using String.eqb_refl).
    now rewrite E.
  - destruct r as [|x r]; [discriminate|]. simpl in *.
    apply orb_false_iff in Hhas. destruct Hhas as [E Hhas].
    rewrite label_eqb_sym, E.
    specialize (IH r ltac:(lia) Hhas).
    destruct (Pandas.index_of l (cols ++ [l])%list); [exact IH | discriminate].
Qed.

Lemma in_combine_split {A B} (xs : list A) (ys : list B) (x : A) (y : B) :
  In (x, y) (combine xs ys) -> In x xs /\ In y ys.
Proof. intros H. split; [eapply in_combine_l | eapply in_combine_r]; eassumption. Qed.

(** After [df[l] = series] every row has the series' value under [l]. *)
Lemma set_column_field (l : Pandas.label) series df row :
  well_formed df ->
  In row (Pandas.rows (Pandas.set_column l series df)) ->
  exists v, In v series /\ Pandas.field (Pandas.set_column l series df) row l = Some v.
Proof.
  intros Hwf. unfold well_formed in Hwf. rewrite Forall_forall in Hwf.
  unfold Pandas.set_column, Pandas.field.
  destruct (Pandas.has_column l (Pandas.columns df)) eqn:Hhas;
    cbn [Pandas.rows Pandas.columns]; intros Hrow;
    apply in_map_iff in Hrow; destruct Hrow as ([r v] & <- & Hin);
    apply in_combine_split in Hin; destruct Hin as [Hr Hv];
    exists v; (split; [exact Hv|]); simpl fst; simpl snd.
  - apply field_overwritten; [now apply Hwf | exact Hhas].
  - apply field_appended; [now apply Hwf | exact Hhas].
Qed.

Lemma parse_tables_category tables df row :
  Forall well_formed tables ->
  BOQParser.parse_tables tables = Some df ->
  In row (Pandas.rows df) ->
  exists d, Pandas.field df row (Some "Category")
            = Some (Pandas.VStr (BOQParser._categorize_smoke_detector_item d)).
Proof.
  intros Hwf. unfold BOQParser.parse_tables.
  destruct (Pandas.concat tables) as [df0|] eqn:Hc; [|discriminate].
  destruct (Pandas.iloc_col 1 df0) as [descriptions|]; [|discriminate].
  destruct (Pandas.apply _ descriptions) as [cats|] eqn:Ha; [|discriminate].
  intros H Hrow. injection H as <-.
  destruct (apply_categorize _ _ Ha) as [_ Ht]. rewrite Forall_forall in Ht.
  destruct (set_column_field _ _ _ _ (concat_well_formed _ _ Hwf Hc) Hrow)
    as (v & Hv & Hf).
  destruct (Ht v Hv) as [d ->]. now exists d.
Qed.

Lemma parse_line_fields line it :
  BOQParser.parse_line line = Some it ->
  BOQParser.unit it = BOQParser._extract_unit (BOQParser.description it)
  /\ BOQParser.category it
     = BOQParser._categorize_smoke_detector_item (BOQParser.description it).
Proof.
  unfold BOQParser.parse_line.
  destruct (Re.match_ _ _ _) as [groups|]; [|discriminate].
  destruct (Re.group 1 groups); [|discriminate].
  destruct (Re.group 2 groups); [|discriminate].
  intros H. injection H as <-. split; reflexivity.
Qed.

Lemma collect_items_fields lines it :
  In it (BOQParser.collect_items lines) ->
  BOQParser.unit it = BOQParser._extract_unit (BOQParser.description it)
  /\ BOQParser.category it
     = BOQParser._categorize_smoke_detector_item (BOQParser.description it).
Proof.
  induction lines as [|line lines IH]; simpl; [contradiction|].
  destruct (BOQParser.parse_line line) as [it'|] eqn:Hl; [|exact IH].
  intros [<-|H]; [eapply parse_line_fields; eassumption | now apply IH].
Qed.

Lemma parse_text_rows text row :
  In row (Pandas.rows (BOQParser.parse_text text)) ->
  Pandas.columns (BOQParser.parse_text text) = BOQParser.item_columns
  /\ exists it, In it (BOQParser.parse_boq_structure text)
                /\ row = BOQParser.item_values it.
Proof.
  unfold BOQParser.parse_text. cbv zeta.
  destruct (BOQParser.parse_boq_structure text) as [|it0 items] eqn:E;
    simpl; [contradiction|].
  intros [<-|H].
  - split; [reflexivity|]. exists it0. split; [now left | reflexivity].
  - split; [reflexivity|]. apply in_map_iff in H. destruct H as (it & <- & Hin).
    exists it. split; [now right | reflexivity].
Qed.




(** ** The records of a specification sheet: product identity *)

Lemma first_model_none (patterns : list Re.re) (text : string) :
  (forall p, In p patterns -> Re.search true p text = None) ->
  SpecSheetParser.first_model patterns text = None.
Proof.
  induction patterns as [|p patterns IH]; intros H; simpl; [reflexivity|].
  rewrite (H p) by (left; reflexivity). apply IH. intros q Hq. apply H. now right.
Qed.

Lemma first_type_none (types : list string) (text_lower : string) :
  (forall t, In t types -> ~ occurs t text_lower) ->
  SpecSheetParser.first_type types text_lower = None.
Proof.
  induction types as [|t types IH]; intros H; simpl; [reflexivity|].
  assert (E : Py.contains t text_lower = false)
    by (apply contains_false_iff, H; now left).
  rewrite E. apply IH. intros u Hu. apply H. now right.
Qed.

Lemma product_info_model (text : string) :
  SpecSheetParser.dict_get "Model Number" "N/A"
    (SpecSheetParser.extract_product_info text)
  = match SpecSheetParser.first_model SpecSheetParser.model_patterns text with
    | Some model => model
    | None => ""
    end.
Proof.
  unfold SpecSheetParser.extract_product_info. cbv zeta.
  destruct (SpecSheetParser.first_model _ text);
    destruct (SpecSheetParser.first_type _ _); reflexivity.
Qed.

Lemma product_info_type (text : string) :
  SpecSheetParser.dict_get "Product Type" "N/A"
    (SpecSheetParser.extract_product_info text)
  = match SpecSheetParser.first_type SpecSheetParser.product_types (Py.lower text) with
    | Some ptype => ptype
    | None => ""
    end.
Proof.
  unfold SpecSheetParser.extract_product_info. cbv zeta.
  destruct (SpecSheetParser.first_model _ text);
    destruct (SpecSheetParser.first_type _ _); reflexivity.
Qed.

Lemma parse_data_head (list_of_set : list string -> list string) (text : string) :
  exists rest,
    SpecSheetParser.parse_data list_of_set text
    = (SpecSheetParser.mkRec "Product Information" "Model Number"
         (SpecSheetParser.dict_get "Model Number" "N/A"
            (SpecSheetParser.extract_product_info text))
       :: SpecSheetParser.mkRec "Product Information" "Product Type"
            (SpecSheetParser.dict_get "Product Type" "N/A"
               (SpecSheetParser.extract_product_info text))
       :: rest)%list.
Proof. unfold SpecSheetParser.parse_data. cbv zeta. eexists. reflexivity. Qed.

Lemma spec_parse_not_empty list_of_set doc df :
  SpecSheetParser.parse list_of_set doc = Some df ->
  Pandas.empty df = false
  /\ Pandas.rows df
     = map SpecSheetParser.record_values
         (SpecSheetParser.parse_data list_of_set (Pdf.extract_text doc)).
Proof.
  unfold SpecSheetParser.parse. cbv zeta.
  destruct (Pdf.extract_tables doc); [|discriminate].
  destruct (parse_data_head list_of_set (Pdf.extract_text doc)) as [rest E].
  rewrite E. intros H. injection H as <-. split; reflexivity.
Qed.

(** C10. For every text the records begin with the Product Information
    records Model Number and Product Type, which are there also when no
    model pattern is found and no product type occurs, their value
    then being the empty string; so there are at least two records, the
    frame of a specification sheet is never empty, and its conversion
    never ends with the no-data warning. *)
Theorem C10_product_records_always_present
  (list_of_set : list string -> list string) (text : string) :
  (exists model ptype rest,
      SpecSheetParser.parse_data list_of_set text
      = (SpecSheetParser.mkRec "Product Information" "Model Number" model
         :: SpecSheetParser.mkRec "Product Information" "Product Type" ptype
         :: rest)%list
      /\ ((forall p, In p SpecSheetParser.model_patterns ->
                     Re.search true p text = None) -> model = "")
      /\ ((forall t, In t SpecSheetParser.product_types ->
                     ~ occurs t (Py.lower text)) -> ptype = ""))
  /\ 2 <= List.length (SpecSheetParser.parse_data list_of_set text)
  /\ (forall doc df,
        SpecSheetParser.parse list_of_set doc = Some df ->
        Pandas.empty df = false /\ 2 <= List.length (Pandas.rows df))
  /\ (forall fs pdf_path,
        PdfToExcel.convert_pdf_to_excel list_of_set fs pdf_path
          (PdfToExcel.given PdfToExcel.spec) <> PdfToExcel.NoDataExtracted)
  /\ (forall fs pdf_path f,
        fs pdf_path = Some f ->
        PdfToExcel.detect (PdfToExcel.content f) pdf_path = PdfToExcel.spec ->
        PdfToExcel.convert_pdf_to_excel list_of_set fs pdf_path PdfToExcel.auto
        <> PdfToExcel.NoDataExtracted).
Proof.
  destruct (parse_data_head list_of_set text) as [rest E].
  split; [|split; [|split; [|split]]].
  - eexists _, _, rest. split; [exact E|]. split.
    + intros H. rewrite product_info_model, first_model_none; [reflexivity | exact H].
    + intros H. rewrite product_info_type, first_type_none; [reflexivity | exact H].
  - rewrite E. simpl. lia.
  - intros doc df H. destruct (spec_parse_not_empty _ _ _ H) as [He Hr].
    split; [exact He|]. rewrite Hr, length_map.
    destruct (parse_data_head list_of_set (Pdf.extract_text doc)) as [rest' ->].
    simpl. lia.
  - intros fs pdf_path. unfold PdfToExcel.convert_pdf_to_excel.
    destruct (fs pdf_path) as [f|]; [|discriminate].
    destruct (PdfToExcel.document f) as [doc|]; [|discriminate].
    destruct (SpecSheetParser.parse list_of_set doc) as [df|] eqn:Hp; [|discriminate].
    destruct (spec_parse_not_empty _ _ _ Hp) as [-> _]. discriminate.
  - intros fs pdf_path f Hf Hd. unfold PdfToExcel.convert_pdf_to_excel.
    rewrite Hf, Hd.
    destruct (PdfToExcel.document f) as [doc|]; [|discriminate].
    destruct (SpecSheetParser.parse list_of_set doc) as [df|] eqn:Hp; [|discriminate].
    destruct (spec_parse_not_empty _ _ _ Hp) as [-> _]. discriminate.
Qed.

(** A use of C10: a text with no model label and no product type. *)
Lemma C10_product_records_always_present_witness :
  exists rest,
    SpecSheetParser.parse_data first_seen "Installation guide, revision 2"
    = (SpecSheetParser.mkRec "Product Information" "Model Number" ""
       :: SpecSheetParser.mkRec "Product Information" "Product Type" ""
       :: rest)%list.
Proof.
  destruct (C10_product_records_always_present first_seen
              "Installation guide, revision 2")
    as ((model & ptype & rest & E & Hm & Ht) & _).
  exists rest. rewrite E, Hm, Ht; [reflexivity | |].
  - intros t Hin. apply contains_false_iff. simpl in Hin.
    repeat (destruct Hin as [<-|Hin]; [reflexivity|]). contradiction.
  - intros p Hin. simpl in Hin.
    repeat (destruct Hin as [<-|Hin]; [vm_compute; reflexivity|]). contradiction.
Defined.

Lemma first_model_first before pattern after text w groups :
  (forall q, In q before -> Re.search true q text = None) ->
  Re.search true pattern text = Some (w, groups) ->
  SpecSheetParser.first_model (before ++ pattern :: after)%list text
  = Some (Re.group1 groups).
Proof.
  intros Hb Hp. induction before as [|q before IH]; simpl.
  - now rewrite Hp.
  - rewrite (Hb q) by (left; reflexivity). apply IH. intros q' Hq'. apply Hb. now right.
Qed.

Lemma model_number_record list_of_set text :
  exists rest,
    SpecSheetParser.parse_data list_of_set text
    = (SpecSheetParser.mkRec "Product Information" "Model Number"
         match SpecSheetParser.first_model SpecSheetParser.model_patterns text with
         | Some model => model
         | None => ""
         end :: rest)%list.
Proof.
  destruct (parse_data_head list_of_set text) as [rest E].
  rewrite product_info_model in E. eexists. exact E.
Qed.

Lemma model_at bb post :
  stops (Re.cls_ok true SpecSheetParser.token_c) post ->
  Re.match_at true model_pattern bb ("Model: SD-2400A" ++ post)
  = Some ("Model: SD-2400A", post, [(1, "SD-2400A")]).
Proof.
  intros Hpost. unfold Re.match_at, model_pattern.
  cbn [nth SpecSheetParser.model_patterns Re.cat]. unfold Re.plus.
  rewrite m_seq.
  rewrite (m_lit_ci "Model" "Model" eq_refl _ bb (": SD-2400A" ++ post)).
  rewrite !m_seq. cbn [append]. rewrite m_cls_ok by reflexivity.
  rewrite m_star_cls.
  apply (greedy_run_commit _ _ _ _ ("SD-2400A" ++ post) _ " "); [reflexivity..|].
  rewrite m_grp, m_seq. cbn [append]. rewrite m_cls_ok by reflexivity.
  rewrite m_star_cls.
  apply (greedy_run_commit _ _ _ _ post _ "D-2400A"); [reflexivity|exact Hpost|].
  reflexivity.
Qed.

Lemma search_model_at pre post :
  Re.no_match_before true model_pattern true pre ("Model: SD-2400A" ++ post) = true ->
  stops (Re.cls_ok true SpecSheetParser.token_c) post ->
  Re.search true model_pattern (pre ++ "Model: SD-2400A" ++ post)
  = Some ("Model: SD-2400A", [(1, "SD-2400A")]).
Proof.
  intros Hpre Hpost. unfold Re.search. rewrite (search_after _ _ _ _ _ Hpre).
  change ("Model: SD-2400A" ++ post) with (String "M" ("odel: SD-2400A" ++ post)).
  cbn [Re.search_from].
  change (String "M" ("odel: SD-2400A" ++ post)) with ("Model: SD-2400A" ++ post).
  now rewrite model_at.
Qed.

(** What a pattern of the form label, separators, token matches. *)
Lemma label_token_shape (name : string) (sepc : ascii -> bool) (w : string) :
  lang true (Re.cat [Re.lit name; Re.plus (Re.Cls sepc);
                     Re.Grp 1 (Re.plus (Re.Cls SpecSheetParser.token_c))]) w ->
  exists l seps tok,
    w = l ++ seps ++ tok /\ Py.lower l = Py.lower name
    /\ seps <> "" /\ all_chars (Re.cls_ok true sepc) seps = true
    /\ tok <> "" /\ all_chars (Re.cls_ok true SpecSheetParser.token_c) tok = true.
Proof.
  cbn [Re.cat]. intros H.
  apply lang_seq in H. destruct H as (l & r1 & -> & Hl & H).
  apply lang_seq in H. destruct H as (seps & tok & -> & Hs & Ht).
  apply lang_lit in Hl. apply lang_plus_cls in Hs. apply lang_grp, lang_plus_cls in Ht.
  exists l, seps, tok. tauto.
Qed.




(** ** The records of a specification sheet: compliance standards *)

(** The text of a match of the UL pattern: a letter u can only be its
    first character or come right after a digit. *)
Lemma ul_shape w : lang true ul_pattern w -> adj (other_letter_or_after_digit "u") w = true.
Proof.
  unfold ul_pattern. cbn [nth SpecSheetParser.standard_patterns Re.cat]. intros H.
  apply lang_seq in H. destruct H as (w1 & r1 & -> & H1 & H).
  apply lang_seq in H. destruct H as (w2 & r2 & -> & H2 & H).
  apply lang_seq in H. destruct H as (w3 & w4 & -> & H3 & H4).
  apply lang_lit in H1. apply lang_star_cls in H2.
  unfold Re.plus in H3. apply lang_seq in H3. destruct H3 as (wx & w3' & -> & Hx & H3).
  apply lang_cls in Hx. destruct Hx as (x & -> & Hx). apply lang_star_cls in H3.
  destruct w1 as [|c1 t1]; [discriminate|].
  injection H1 as _ Ht1.
  assert (Hd : all_chars (Re.cls_ok true Re.digit) (String x w3') = true)
    by (cbn [all_chars]; now rewrite Hx, H3).
  assert (Hav : avoids "u" (t1 ++ w2 ++ String x w3') = true).
  { rewrite !avoids_append, !andb_true_iff. split; [|split].
    - rewrite avoids_lower. unfold Py.lower. rewrite Ht1. reflexivity.
    - now apply (not_letter_avoids _ "u" _ eq_refl ws_not_letter).
    - now apply (not_letter_avoids _ "u" _ eq_refl digit_not_letter). }
  pose proof (adj_digit_head "u" c1 _ Hav) as Hadj.
  apply lang_opt in H4. destruct H4 as [H4| ->].
  - apply lang_cls in H4. destruct H4 as (c & -> & _).
    destruct (last_char (String x w3') ltac:(discriminate)) as (a3 & d & E).
    assert (Hdd : Py.isdigit_c d = true).
    { rewrite E, all_chars_append in Hd. apply andb_true_iff in Hd.
      destruct Hd as [_ Hd]. simpl in Hd. rewrite andb_true_r in Hd.
      now apply digit_is_digit. }
    assert (E1 : String c1 t1 ++ w2 ++ (String x "" ++ w3') ++ String c ""
                 = String c1 (t1 ++ w2 ++ a3) ++ String d (String c "")).
    { cbn [append]. change (String x (w3' ++ String c ""))
        with (String x w3' ++ String c "").
      rewrite E, !append_assoc. reflexivity. }
    assert (E2 : String c1 (t1 ++ w2 ++ String x w3')
                 = String c1 (t1 ++ w2 ++ a3) ++ String d "").
    { cbn [append]. now rewrite E, !append_assoc. }
    rewrite E1. apply adj_snoc; [now rewrite <- E2|].
    unfold other_letter_or_after_digit. now rewrite Hdd, orb_true_r.
  - cbn [append]. now rewrite append_empty_r.
Qed.

Lemma nfpa_shape w : lang true nfpa_pattern w -> adj (other_letter "n") w = true.
Proof.
  unfold nfpa_pattern. cbn [nth SpecSheetParser.standard_patterns Re.cat]. intros H.
  apply lang_seq in H. destruct H as (w1 & r1 & -> & H1 & H).
  apply lang_seq in H. destruct H as (w2 & w3 & -> & H2 & H3).
  apply lang_lit in H1. apply lang_star_cls in H2.
  unfold Re.plus in H3. apply lang_seq in H3. destruct H3 as (wx & w3' & -> & Hx & H3).
  apply lang_cls in Hx. destruct Hx as (x & -> & Hx). apply lang_star_cls in H3.
  destruct w1 as [|c1 t1]; [discriminate|].
  injection H1 as _ Ht1. cbn [append]. apply adj_free_head.
  rewrite !avoids_append, !andb_true_iff. split; [|split].
  - rewrite avoids_lower. unfold Py.lower. rewrite Ht1. reflexivity.
  - now apply (not_letter_avoids _ "n" _ eq_refl ws_not_letter).
  - apply (not_letter_avoids _ "n" _ eq_refl digit_not_letter).
    cbn [all_chars]. now rewrite Hx, H3.
Qed.

Lemma fm_shape w : lang true fm_pattern w -> adj (other_letter "f") w = true.
Proof.
  unfold fm_pattern. cbn [nth SpecSheetParser.standard_patterns Re.cat]. intros H.
  apply lang_seq in H. destruct H as (w1 & r1 & -> & H1 & H).
  apply lang_seq in H. destruct H as (w2 & w3 & -> & H2 & H3).
  apply lang_lit in H1. apply lang_star_cls in H2. apply lang_lit in H3.
  destruct w1 as [|c1 t1]; [discriminate|].
  injection H1 as _ Ht1. cbn [append]. apply adj_free_head.
  rewrite !avoids_append, !andb_true_iff. split; [|split].
  - rewrite avoids_lower. unfold Py.lower. rewrite Ht1. reflexivity.
  - now apply (not_letter_avoids _ "f" _ eq_refl ws_not_letter).
  - rewrite avoids_lower, H3. reflexivity.
Qed.

(** The matches at the three codes of the phrase. *)
Lemma ul_at bb x1 rest :
  Py.lower x1 = "ul" ->
  Re.match_at true ul_pattern bb (x1 ++ " 268," ++ rest) = Some (x1 ++ " 268", "," ++ rest, []).
Proof.
  intros H1. unfold Re.match_at, ul_pattern.
  cbn [nth SpecSheetParser.standard_patterns Re.cat]. unfold Re.plus, Re.star, Re.opt.
  rewrite m_seq, (m_lit_ci "UL" x1 H1), m_seq, m_star_cls.
  apply (greedy_run_commit _ _ _ _ ("268," ++ rest) _ " "); [reflexivity..|].
  rewrite !m_seq. cbn [append]. rewrite m_cls_ok by reflexivity. rewrite m_star_cls.
  apply (greedy_run_commit _ _ _ _ ("," ++ rest) _ "68"); [reflexivity..|].
  rewrite m_alt, m_cls_stops by reflexivity. rewrite m_eps.
  reflexivity.
Qed.

Lemma nfpa_at bb x3 rest :
  Py.lower x3 = "nfpa" ->
  Re.match_at true nfpa_pattern bb (x3 ++ " 72," ++ rest) = Some (x3 ++ " 72", "," ++ rest, []).
Proof.
  intros H3. unfold Re.match_at, nfpa_pattern.
  cbn [nth SpecSheetParser.standard_patterns Re.cat]. unfold Re.plus, Re.star.
  rewrite m_seq, (m_lit_ci "NFPA" x3 H3), m_seq, m_star_cls.
  apply (greedy_run_commit _ _ _ _ ("72," ++ rest) _ " "); [reflexivity..|].
  rewrite !m_seq. cbn [append]. rewrite m_cls_ok by reflexivity. rewrite m_star_cls.
  apply (greedy_run_commit _ _ _ _ ("," ++ rest) _ "2"); [reflexivity..|].
  reflexivity.
Qed.

Lemma fm_at bb x5 x7 rest :
  Py.lower x5 = "fm" -> Py.lower x7 = "approved" ->
  Re.match_at true fm_pattern bb (x5 ++ " " ++ x7 ++ rest) = Some (x5 ++ " " ++ x7, rest, []).
Proof.
  intros H5 H7. unfold Re.match_at, fm_pattern.
  cbn [nth SpecSheetParser.standard_patterns Re.cat]. unfold Re.star.
  rewrite m_seq, (m_lit_ci "FM" x5 H5), m_seq, m_star_cls.
  apply (greedy_run_commit _ _ _ _ (x7 ++ rest) _ " "); [reflexivity| |].
  - destruct x7 as [|c7 x7]; [discriminate|]. injection H7 as H7 _.
    cbn [append stops]. apply letter_not_ws. now rewrite H7.
  - rewrite (m_lit_ci "Approved" x7 H7). cbn [append]. reflexivity.
Qed.

(** The phrase in any case of letters: its three codes. *)
Lemma phrase_split phrase :
  Py.lower phrase = Py.lower standards_phrase ->
  exists x1 x3 x5 x7,
    phrase = x1 ++ " 268, " ++ x3 ++ " 72, " ++ x5 ++ " " ++ x7
    /\ Py.lower x1 = "ul" /\ Py.lower x3 = "nfpa"
    /\ Py.lower x5 = "fm" /\ Py.lower x7 = "approved".
Proof.
  intros H.
  change (Py.lower standards_phrase)
    with ("ul" ++ " 268, " ++ "nfpa" ++ " 72, " ++ "fm" ++ " " ++ "approved") in H.
  destruct (map_str_split _ _ _ _ H) as (x1 & r1 & -> & H1 & H').
  destruct (map_str_split _ _ _ _ H') as (x2 & r2 & -> & H2 & H'').
  destruct (map_str_split _ _ _ _ H'') as (x3 & r3 & -> & H3 & H''').
  destruct (map_str_split _ _ _ _ H''') as (x4 & r4 & -> & H4 & H4').
  destruct (map_str_split _ _ _ _ H4') as (x5 & r5 & -> & H5 & H5').
  destruct (map_str_split _ _ _ _ H5') as (x6 & x7 & -> & H6 & H7).
  apply lower_fixed in H2; [|reflexivity]. apply lower_fixed in H4; [|reflexivity].
  apply lower_fixed in H6; [|reflexivity]. subst x2 x4 x6.
  exists x1, x3, x5, x7. repeat split; assumption.
Qed.

Lemma in_collect_standards pattern w text :
  In pattern SpecSheetParser.standard_patterns ->
  In w (Re.findall true pattern text) ->
  In (Py.upper w) (SpecSheetParser.collect_standards text).
Proof.
  intros Hp Hw. unfold SpecSheetParser.collect_standards. apply in_flat_map.
  exists pattern. split; [exact Hp | now apply in_map].
Qed.

Lemma phrase_codes text pre phrase post :
  text = pre ++ phrase ++ post ->
  Py.lower phrase = Py.lower standards_phrase ->
  not_after_digit pre ->
  In "UL 268" (SpecSheetParser.collect_standards text)
  /\ In "NFPA 72" (SpecSheetParser.collect_standards text)
  /\ In "FM APPROVED" (SpecSheetParser.collect_standards text).
Proof.
  intros -> Hphrase Hpre.
  destruct (phrase_split phrase Hphrase) as (x1 & x3 & x5 & x7 & -> & H1 & H3 & H5 & H7).
  destruct x1 as [|c1 t1]; [discriminate|].
  destruct x3 as [|c3 t3]; [discriminate|].
  destruct x5 as [|c5 t5]; [discriminate|].
  pose proof H1 as H1'. pose proof H3 as H3'. pose proof H5 as H5'.
  injection H1' as Hc1 _. injection H3' as Hc3 _. injection H5' as Hc5 _.
  split; [|split].
  - change "UL 268" with (Py.upper "ul 268").
    rewrite <- (upper_of_lower (String c1 t1 ++ " 268") "ul 268")
      by (rewrite lower_append, H1; reflexivity).
    apply (in_collect_standards ul_pattern); [left; reflexivity|].
    replace (pre ++ (String c1 t1 ++ " 268, " ++ String c3 t3 ++ " 72, "
                     ++ String c5 t5 ++ " " ++ x7) ++ post)
      with (pre ++ String c1 (t1 ++ " 268," ++ " " ++ String c3 t3 ++ " 72, "
                              ++ String c5 t5 ++ " " ++ x7 ++ post))
      by (repeat first [rewrite append_assoc | progress cbn [append]]; reflexivity).
    apply (findall_at (other_letter_or_after_digit "u")); [exact ul_shape| |].
    + intros bb. eexists _, _.
      exact (ul_at bb (String c1 t1) _ H1).
    + intros a d Ea. unfold other_letter_or_after_digit. rewrite Hc1. cbn [Ascii.eqb Bool.eqb negb orb].
      destruct Hpre as [->|(a0 & d0 & -> & Hd0)]; [destruct a; simpl in Ea; discriminate|].
      now rewrite <- (last_char_unique _ _ _ _ Ea).
  - change "NFPA 72" with (Py.upper "nfpa 72").
    rewrite <- (upper_of_lower (String c3 t3 ++ " 72") "nfpa 72")
      by (rewrite lower_append, H3; reflexivity).
    apply (in_collect_standards nfpa_pattern); [right; left; reflexivity|].
    replace (pre ++ (String c1 t1 ++ " 268, " ++ String c3 t3 ++ " 72, "
                     ++ String c5 t5 ++ " " ++ x7) ++ post)
      with ((pre ++ String c1 t1 ++ " 268, ")
            ++ String c3 (t3 ++ " 72," ++ " " ++ String c5 t5 ++ " " ++ x7 ++ post))
      by (repeat first [rewrite append_assoc | progress cbn [append]]; reflexivity).
    apply (findall_at (other_letter "n")); [exact nfpa_shape| |].
    + intros bb. eexists _, _. exact (nfpa_at bb (String c3 t3) _ H3).
    + intros a d _. unfold other_letter. rewrite Hc3. reflexivity.
  - change "FM APPROVED" with (Py.upper "fm approved").
    rewrite <- (upper_of_lower (String c5 t5 ++ " " ++ x7) "fm approved")
      by (rewrite !lower_append, H5, H7; reflexivity).
    apply (in_collect_standards fm_pattern); [right; right; left; reflexivity|].
    replace (pre ++ (String c1 t1 ++ " 268, " ++ String c3 t3 ++ " 72, "
                     ++ String c5 t5 ++ " " ++ x7) ++ post)
      with ((pre ++ String c1 t1 ++ " 268, " ++ String c3 t3 ++ " 72, ")
            ++ String c5 (t5 ++ " " ++ x7 ++ post))
      by (repeat first [rewrite append_assoc | progress cbn [append]]; reflexivity).
    apply (findall_at (other_letter "f")); [exact fm_shape| |].
    + intros bb. eexists _, _. exact (fm_at bb (String c5 t5) x7 _ H5 H7).
    + intros a d _. unfold other_letter. rewrite Hc5. reflexivity.
Qed.

Lemma filter_technical (f : SpecSheetParser.SpecRecord -> bool) (d : SpecSheetParser.dict) :
  filter is_compliance
    (map (fun kv => SpecSheetParser.mkRec "Technical Specifications" (fst kv) (snd kv)) d)
  = [].
Proof. induction d as [|kv d IH]; [reflexivity | exact IH]. Qed.

(** The Compliance records of the result: one, when a standard was
    found. *)
Lemma compliance_records list_of_set text :
  filter is_compliance (SpecSheetParser.parse_data list_of_set text)
  = match SpecSheetParser.extract_standards_compliance list_of_set text with
    | [] => []
    | standards => [SpecSheetParser.mkRec "Compliance" "Standards"
                      (Py.join ", " standards)]
    end.
Proof.
  unfold SpecSheetParser.parse_data. cbv zeta.
  rewrite !filter_app, (filter_technical is_compliance).
  destruct (SpecSheetParser.extract_standards_compliance list_of_set text);
    destruct (SpecSheetParser.extract_features text); reflexivity.
Qed.

Lemma first_seen_enumerates : enumerates_set first_seen.
Proof.
  intros xs. induction xs as [|x xs [IHn IHi]]; [split; [constructor | tauto]|].
  cbn [first_seen]. split.
  - constructor; [|now apply NoDup_filter].
    rewrite filter_In, String.eqb_refl. intros [_ H]. discriminate.
  - intros y. cbn [In]. rewrite filter_In, IHi. split.
    + intros [->|[H _]]; auto.
    + intros [->|H]; [now left|].
      destruct (String.eqb_spec x y) as [E|E]; [now left | right; auto].
Qed.




(** ** The BOQ sheet and its totals *)

(** Arithmetic on row numbers. *)
Ltac row_lia :=
  unfold EG.data_start_row, EG.header_row in *; cbn [List.length] in *; lia.

Lemma cell_set_value r c v ws r' c' :
  EG.cell (EG.set_value r c v ws) r' c'
  = if (r =? r') && (c =? c') then v else EG.cell ws r' c'.
Proof. reflexivity. Qed.

Lemma cell_ws_cell r c v ws r' c' :
  EG.cell (EG.ws_cell r c v ws) r' c'
  = if (r =? r') && (c =? c')
    then match v with Pandas.VNone => EG.cell ws r' c' | _ => v end
    else EG.cell ws r' c'.
Proof.
  destruct v; try reflexivity. simpl. now destruct ((r =? r') && (c =? c')).
Qed.

Lemma cell_write_row_other df idx row ws r c :
  r <> EG.data_start_row + idx ->
  EG.cell (EG.write_row df idx row ws) r c = EG.cell ws r c.
Proof.
  intros H. unfold EG.write_row. cbv zeta.
  rewrite !cell_set_value, !cell_ws_cell.
  assert (E : (EG.data_start_row + idx =? r) = false) by (apply Nat.eqb_neq; row_lia).
  now rewrite E.
Qed.

Lemma cell_write_row_total df idx row ws :
  EG.cell (EG.write_row df idx row ws) (EG.data_start_row + idx) 7
  = Pandas.VStr ("=C" ++ EG.str (EG.data_start_row + idx)
                 ++ "*F" ++ EG.str (EG.data_start_row + idx)).
Proof.
  unfold EG.write_row. cbv zeta. rewrite cell_set_value, Nat.eqb_refl. reflexivity.
Qed.

Lemma cell_write_row_price df idx row ws :
  EG.cell (EG.write_row df idx row ws) (EG.data_start_row + idx) 6 = Pandas.VNum 0.
Proof.
  unfold EG.write_row. cbv zeta. rewrite !cell_set_value, Nat.eqb_refl.
  rewrite andb_false_r. reflexivity.
Qed.

Lemma cell_write_row_quantity df idx row ws :
  EG.cell ws (EG.data_start_row + idx) 3 = Pandas.VNone ->
  EG.cell (EG.write_row df idx row ws) (EG.data_start_row + idx) 3
  = Pandas.get df row (Some "Quantity") (Pandas.VStr "").
Proof.
  intros H. unfold EG.write_row. cbv zeta.
  rewrite !cell_set_value, !cell_ws_cell, Nat.eqb_refl, H.
  cbn [andb Nat.eqb]. now destruct (Pandas.get df row (Some "Quantity") _).
Qed.

Lemma cell_write_rows_other df rs : forall idx ws r c,
  r < EG.data_start_row + idx \/ EG.data_start_row + idx + List.length rs <= r ->
  EG.cell (EG.write_rows df idx rs ws) r c = EG.cell ws r c.
Proof.
  induction rs as [|row rs IH]; intros idx ws r c H; simpl; [reflexivity|].
  rewrite IH by row_lia.
  apply cell_write_row_other. row_lia.
Qed.

Lemma cell_write_rows_at df rs : forall idx ws i row,
  nth_error rs i = Some row ->
  EG.cell (EG.write_rows df idx rs ws) (EG.data_start_row + (idx + i)) 7
  = Pandas.VStr ("=C" ++ EG.str (EG.data_start_row + (idx + i))
                 ++ "*F" ++ EG.str (EG.data_start_row + (idx + i)))
  /\ EG.cell (EG.write_rows df idx rs ws) (EG.data_start_row + (idx + i)) 6
     = Pandas.VNum 0
  /\ (EG.cell ws (EG.data_start_row + (idx + i)) 3 = Pandas.VNone ->
      EG.cell (EG.write_rows df idx rs ws) (EG.data_start_row + (idx + i)) 3
      = Pandas.get df row (Some "Quantity") (Pandas.VStr "")).
Proof.
  induction rs as [|row0 rs IH]; intros idx ws i row Hi; [now destruct i|].
  destruct i as [|i]; simpl in Hi.
  - injection Hi as ->. rewrite Nat.add_0_r. cbn [EG.write_rows].
    rewrite !cell_write_rows_other by row_lia.
    split; [apply cell_write_row_total|].
    split; [apply cell_write_row_price | apply cell_write_row_quantity].
  - cbn [EG.write_rows]. replace (idx + S i) with (S idx + i) by lia.
    destruct (IH (S idx) (EG.write_row df idx row0 ws) i row Hi) as (H7 & H6 & H3).
    split; [exact H7|]. split; [exact H6|]. intros Hws. apply H3.
    rewrite cell_write_row_other by row_lia. exact Hws.
Qed.

Lemma cell_sheet_head now r c :
  EG.data_start_row <= r ->
  EG.cell (EG.write_headers 1 EG.headers
             (EG.set_value 2 1 (Pandas.VStr ("Generated: " ++ now))
                (EG.set_value 1 1
                   (Pandas.VStr "BILL OF QUANTITIES - SMOKE DETECTION SYSTEM") [])))
          r c
  = Pandas.VNone.
Proof.
  unfold EG.data_start_row, EG.header_row. intros H.
  do 5 (destruct r as [|r]; [lia|]). reflexivity.
Qed.

(** The cells of the data rows and of the row after them, as
    [create_boq_sheet] leaves them. *)
Lemma create_boq_sheet_data now df r c :
  EG.data_start_row <= r <= EG.data_start_row + List.length (Pandas.rows df) ->
  EG.cell (EG.create_boq_sheet now df) r c
  = EG.cell (EG.write_rows df 0 (Pandas.rows df)
               (EG.write_headers 1 EG.headers
                  (EG.set_value 2 1 (Pandas.VStr ("Generated: " ++ now))
                     (EG.set_value 1 1
                        (Pandas.VStr "BILL OF QUANTITIES - SMOKE DETECTION SYSTEM") []))))
            r c.
Proof.
  intros H. unfold EG.create_boq_sheet. cbv zeta.
  rewrite cell_set_value, cell_ws_cell.
  assert (E : (EG.data_start_row + List.length (Pandas.rows df) + 2 =? r) = false)
    by (apply Nat.eqb_neq; row_lia).
  now rewrite E.
Qed.

Lemma create_boq_sheet_sum now df :
  EG.cell (EG.create_boq_sheet now df)
          (EG.data_start_row + List.length (Pandas.rows df) + 2) 7
  = Pandas.VStr ("=SUM(G" ++ EG.str EG.data_start_row ++ ":G"
                 ++ EG.str (EG.data_start_row + List.length (Pandas.rows df)) ++ ")").
Proof.
  unfold EG.create_boq_sheet. cbv zeta. rewrite cell_set_value, Nat.eqb_refl. reflexivity.
Qed.

Lemma cell_apply_edits_other edits ws r c :
  c <> 6 -> EG.cell (Sheet.apply_edits edits ws) r c = EG.cell ws r c.
Proof.
  intros H. induction edits as [|[i p] edits IH]; cbn [Sheet.apply_edits]; [reflexivity|].
  rewrite cell_set_value.
  assert (E : (6 =? c) = false) by (apply Nat.eqb_neq; row_lia).
  now rewrite E, andb_false_r.
Qed.

Lemma cell_apply_edits_price edits ws i :
  EG.cell ws (EG.data_start_row + i) 6 = Pandas.VNum 0 ->
  EG.cell (Sheet.apply_edits edits ws) (EG.data_start_row + i) 6
  = Pandas.VNum (Sheet.price_of edits i).
Proof.
  intros H. induction edits as [|[j p] edits IH]; cbn [Sheet.apply_edits]; [exact H|].
  rewrite cell_set_value. cbn [Sheet.price_of].
  replace (EG.data_start_row + j =? EG.data_start_row + i) with (j =? i)
    by (destruct (Nat.eqb_spec j i);
        [subst; now rewrite Nat.eqb_refl | symmetry; apply Nat.eqb_neq; row_lia]).
  destruct (j =? i); [reflexivity | exact IH].
Qed.

Lemma span_digits_printed (d : Decimal.uint) (rest : string) :
  stops Py.isdigit_c rest ->
  Sheet.span_digits (NilEmpty.string_of_uint d ++ rest)
  = (NilEmpty.string_of_uint d, rest).
Proof.
  intros H. induction d; simpl; try (rewrite IHd; reflexivity).
  destruct rest as [|c rest]; simpl in *; [reflexivity | now rewrite H].
Qed.

Lemma str_not_empty (n : nat) : EG.str n <> "".
Proof.
  unfold EG.str. intros H.
  pose proof (DecimalNat.Unsigned.to_of (Nat.to_uint n)) as E.
  rewrite DecimalNat.Unsigned.of_to in E.
  destruct (Nat.to_uint n) eqn:En; try discriminate H.
  symmetry in E. exact (DecimalFacts.unorm_nonnil _ E).
Qed.

Lemma nat_of_digits_str (n : nat) : Sheet.nat_of_digits (EG.str n) = Some n.
Proof.
  pose proof (str_not_empty n) as Hne. unfold Sheet.nat_of_digits.
  destruct (EG.str n) eqn:E; [contradiction|]. rewrite <- E. unfold EG.str.
  rewrite NilEmpty.usu. simpl. now rewrite DecimalNat.Unsigned.of_to.
Qed.

Lemma parse_ref_printed (c : ascii) (n : nat) (rest : string) :
  Py.isupper_c c = true -> stops Py.isdigit_c rest ->
  Sheet.parse_ref (String c (EG.str n ++ rest))
  = Some ((n, nat_of_ascii c - 64), rest).
Proof.
  intros Hc Hr. unfold Sheet.parse_ref. rewrite Hc.
  unfold EG.str at 1. rewrite span_digits_printed by exact Hr.
  fold (EG.str n). now rewrite nat_of_digits_str.
Qed.

Lemma parse_formula_product (n : nat) :
  Sheet.parse_formula ("=C" ++ EG.str n ++ "*F" ++ EG.str n)
  = Some (Sheet.FMul (n, 3) (n, 6)).
Proof.
  unfold Sheet.parse_formula. cbn [append Sheet.strip_prefix Ascii.eqb Bool.eqb].
  rewrite parse_ref_printed by reflexivity.
  cbn [Sheet.strip_prefix Ascii.eqb Bool.eqb].
  rewrite <- (append_empty_r (EG.str n)).
  rewrite parse_ref_printed by (reflexivity || exact I). reflexivity.
Qed.

Lemma parse_formula_sum (a b : nat) :
  Sheet.parse_formula ("=SUM(G" ++ EG.str a ++ ":G" ++ EG.str b ++ ")")
  = Some (Sheet.FSum (a, 7) (b, 7)).
Proof.
  unfold Sheet.parse_formula. cbn [append Sheet.strip_prefix Ascii.eqb Bool.eqb].
  rewrite parse_ref_printed by reflexivity.
  cbn [Sheet.strip_prefix Ascii.eqb Bool.eqb].
  rewrite parse_ref_printed by reflexivity. reflexivity.
Qed.

Lemma range_one_column (r1 r2 c : nat) :
  Sheet.range_cells (r1, c) (r2, c) = map (fun row => (row, c)) (seq r1 (S r2 - r1)).
Proof.
  unfold Sheet.range_cells. cbn [fst snd].
  replace (S c - c) with 1 by lia. cbn [seq map].
  induction (seq r1 (S r2 - r1)) as [|x xs IH]; simpl; [reflexivity | now rewrite IH].
Qed.

(** The value of a product cell whose operands are a quantity and a
    price. *)
Lemma eval_product depth ws r v q p :
  EG.cell ws r 7 = Pandas.VStr ("=C" ++ EG.str r ++ "*F" ++ EG.str r) ->
  EG.cell ws r 3 = v -> Sheet.quantity_number v = Some q ->
  EG.cell ws r 6 = Pandas.VNum p ->
  Sheet.eval (S depth) ws (r, 7) = Some (q * p)%Q.
Proof.
  intros H7 H3 Hq H6. cbn [Sheet.eval fst snd].
  rewrite H7, parse_formula_product. unfold Sheet.operand. cbn [fst snd].
  rewrite H3, H6. destruct v as [s|x| |]; simpl in Hq; try discriminate.
  - destruct (Sheet.is_formula s); [discriminate | now rewrite Hq].
  - now injection Hq as ->.
  - now injection Hq as <-.
Qed.

(** The sum over a column of product cells closed by an empty cell. *)
Lemma sum_products depth ws edits : forall qs r0 i0,
  (forall j q, nth_error qs j = Some q ->
     Sheet.eval (S depth) ws (r0 + j, 7) = Some (q * Sheet.price_of edits (i0 + j))%Q
     /\ exists s, EG.cell ws (r0 + j) 7 = Pandas.VStr s /\ Sheet.is_formula s = true) ->
  EG.cell ws (r0 + List.length qs) 7 = Pandas.VNone ->
  exists t,
    Sheet.sum_opt (map (Sheet.summand (Sheet.eval (S depth) ws) ws)
                       (map (fun row => (row, 7)) (seq r0 (S (List.length qs)))))
    = Some t
    /\ (t == Sheet.total_from edits i0 qs)%Q.
Proof.
  induction qs as [|q qs IH]; intros r0 i0 Hrows Hend.
  - exists (0 + 0)%Q. simpl in Hend. rewrite Nat.add_0_r in Hend.
    cbn [seq map List.length]. unfold Sheet.summand at 1. cbn [fst snd].
    rewrite Hend. split; [reflexivity|]. simpl. reflexivity.
  - destruct (Hrows 0 q eq_refl) as (Hv & s & Hs & Hf).
    rewrite !Nat.add_0_r in *.
    destruct (IH (S r0) (S i0)) as (t & Ht & Heq).
    + intros j qj Hj. replace (S r0 + j) with (r0 + S j) by lia.
      replace (S i0 + j) with (i0 + S j) by lia. now apply Hrows.
    + replace (S r0 + List.length qs) with (r0 + List.length (q :: qs))
        by (simpl; lia). exact Hend.
    + exists (q * Sheet.price_of edits i0 + t)%Q. split.
      * cbn [List.length]. rewrite <- cons_seq. cbn [map Sheet.sum_opt fold_right].
        change (fold_right _ (Some 0%Q) ?l) with (Sheet.sum_opt l).
        rewrite Ht. unfold Sheet.summand at 1. cbn [fst snd].
        now rewrite Hs, Hf, Hv.
      * simpl. now rewrite Heq.
Qed.

Lemma quantities_at df qs : forall rs,
  Forall2 (fun row q =>
             Sheet.quantity_number (Pandas.get df row (Some "Quantity") (Pandas.VStr ""))
             = Some q) rs qs ->
  List.length rs = List.length qs
  /\ forall i q, nth_error qs i = Some q ->
       exists row, nth_error rs i = Some row
                   /\ Sheet.quantity_number
                        (Pandas.get df row (Some "Quantity") (Pandas.VStr "")) = Some q.
Proof.
  intros rs H. induction H as [|row q rs qs Hq H IH].
  - split; [reflexivity|]. intros i q Hi. now destruct i.
  - destruct IH as [Hlen IH]. split; [simpl; congruence|].
    intros [|i] q' Hi; simpl in Hi.
    + injection Hi as <-. exists row. split; [reflexivity | exact Hq].
    + exact (IH i q' Hi).
Qed.



(** ** The classifiers: order and keywords *)

Lemma occurs_trans (a b s : string) : occurs a b -> occurs b s -> occurs a s.
Proof.
  intros (p & q & ->) (p' & q' & ->). exists (p' ++ p), (q ++ q').
  now rewrite !append_assoc.
Qed.

Lemma occurs_inside (k d pre post : string) :
  occurs k d -> occurs k (pre ++ d ++ post).
Proof.
  intros H. apply (occurs_trans k d); [exact H|]. now exists pre, post.
Qed.

Lemma contains_inside (k d pre post : string) :
  Py.contains k (Py.lower d) = true ->
  Py.contains k (Py.lower (pre ++ d ++ post)) = true.
Proof.
  rewrite !contains_iff, !lower_append. apply occurs_inside.
Qed.

Lemma any_inside (ks : list string) (d pre post : string) :
  Py.any (fun keyword => Py.contains keyword (Py.lower d)) ks = true ->
  Py.any (fun keyword => Py.contains keyword (Py.lower (pre ++ d ++ post))) ks = true.
Proof.
  unfold Py.any. rewrite !existsb_exists. intros (k & Hin & Hk).
  exists k. split; [exact Hin | now apply contains_inside].
Qed.

Lemma scan_rank_inside (cats : list (string * list string)) (d pre post : string) :
  NoDup (map fst cats) ->
  forall dflt, ~ In dflt (map fst cats) ->
  index_in (match BOQParser.scan_categories cats (Py.lower (pre ++ d ++ post)) with
            | Some c => c
            | None => dflt
            end) (map fst cats)
  <= index_in (match BOQParser.scan_categories cats (Py.lower d) with
               | Some c => c
               | None => dflt
               end) (map fst cats).
Proof.
  induction cats as [|[c ks] cats IH]; intros Hnd dflt Hd; [reflexivity|].
  cbn [BOQParser.scan_categories map fst] in *.
  inversion Hnd as [|? ? Hc Hnd']; subst.
  destruct (Py.any _ ks) eqn:E2 at 1.
  - cbn [index_in]. rewrite String.eqb_refl. lia.
  - destruct (Py.any (fun keyword => Py.contains keyword (Py.lower d)) ks) eqn:E1.
    + apply (any_inside ks d pre post) in E1. congruence.
    + assert (Hd' : ~ In dflt (map fst cats)) by (intros H; apply Hd; now right).
      specialize (IH Hnd' dflt Hd').
      assert (Hin : forall s, match BOQParser.scan_categories cats s with
                              | Some c0 => c0
                              | None => dflt
                              end <> c).
      { intros s. destruct (BOQParser.scan_categories cats s) as [c0|] eqn:Es.
        - intros ->. apply Hc. clear - Es.
          induction cats as [|[c1 k1] cats IH]; [discriminate|].
          simpl in Es. destruct (Py.any _ k1).
          + injection Es as ->. now left.
          + right. now apply IH.
        - intros ->. apply Hd. now left. }
      cbn [index_in].
      pose proof (Hin (Py.lower (pre ++ d ++ post))) as H1.
      pose proof (Hin (Py.lower d)) as H2.
      apply String.eqb_neq in H1, H2. rewrite H1, H2. lia.
Qed.

(** X1. Words added before or after a description never move it to a later
    category of the table: the category of the longer description is
    the same or an earlier one, "Other" counting as the last. *)
Theorem longer_description_earlier_category (pre description post : string) :
  category_rank (BOQParser._categorize_smoke_detector_item (pre ++ description ++ post))
  <= category_rank (BOQParser._categorize_smoke_detector_item description).
Proof.
  unfold category_rank, BOQParser._categorize_smoke_detector_item. cbv zeta.
  apply scan_rank_inside.
  - repeat constructor; simpl; intuition discriminate.
  - simpl. intuition discriminate.
Qed.

Lemma contains_trans (a b s : string) :
  Py.contains a b = true -> Py.contains a s = false -> Py.contains b s = false.
Proof.
  intros Hab Has. apply contains_false_iff. apply contains_false_iff in Has.
  apply contains_iff in Hab. intros H. apply Has. now apply (occurs_trans a b).
Qed.

(** One step of a scan: the next keyword occurs, or does not. *)
Ltac scan_step H d k :=
  let E := fresh "E" in
  destruct (Py.contains k (Py.lower d)) eqn:E; cbn [orb] in H; try discriminate H.

Ltac scan_steps H d ks :=
  lazymatch ks with
  | nil => idtac
  | cons ?k ?rest => scan_step H d k; scan_steps H d rest
  end.

Lemma lower_keyword_ci (k d : string) :
  Py.lower k = k -> Py.contains k (Py.lower d) = false -> ~ occurs_ci k d.
Proof.
  intros Hk H Hc. apply contains_lower_iff in Hc; [congruence|exact Hk].
Qed.



(** X3. The unit is always one of the ten tokens, upper-cased; and a
    description with the letter m in it, in either case, never gets
    FT, EACH or EA, the tokens that come after m in the list. *)
Theorem unit_after_m_needs_no_m (description : string) :
  In (BOQParser._extract_unit description)
     ["NOS"; "NO"; "PCS"; "PC"; "SET"; "METER"; "M"; "FT"; "EACH"; "EA"]
  /\ (occurs_ci "m" description ->
      In (BOQParser._extract_unit description)
         ["NOS"; "NO"; "PCS"; "PC"; "SET"; "METER"; "M"]).
Proof.
  unfold BOQParser._extract_unit, BOQParser.units. cbv zeta.
  cbn [BOQParser.scan_units]. split.
  - repeat match goal with
           | |- context [Py.contains ?k (Py.lower description)] =>
               destruct (Py.contains k (Py.lower description))
           end; simpl; tauto.
  - intros Hm. apply contains_lower_iff in Hm; [|reflexivity]. rewrite Hm.
    repeat match goal with
           | |- context [if Py.contains ?k (Py.lower description) then _ else _] =>
               destruct (Py.contains k (Py.lower description))
           end; simpl; tauto.
Qed.

Lemma unit_after_m_needs_no_m_witness :
  In (BOQParser._extract_unit "Alarm cable, 500 ft")
     ["NOS"; "NO"; "PCS"; "PC"; "SET"; "METER"; "M"].
Proof.
  apply (unit_after_m_needs_no_m "Alarm cable, 500 ft").
  exists "Alar", "m", " cable, 500 ft". split; reflexivity.
Defined.

Lemma first_type_first (before after : list string) (ptype d : string) :
  Py.contains ptype d = true ->
  (forall t, In t before -> Py.contains t d = false) ->
  SpecSheetParser.first_type (before ++ ptype :: after)%list d = Some (Py.title ptype).
Proof.
  intros Hp. induction before as [|t before IH]; intros Hb; simpl.
  - now rewrite Hp.
  - rewrite (Hb t) by (left; reflexivity). apply IH. intros u Hu. apply Hb. now right.
Qed.

Lemma product_types_lower :
  forall t, In t SpecSheetParser.product_types -> Py.lower t = t.
Proof.
  assert (H : forallb (fun t => String.eqb (Py.lower t) t)
                SpecSheetParser.product_types = true) by reflexivity.
  rewrite forallb_forall in H. intros t Ht. now apply String.eqb_eq, H.
Qed.



(** ** The shape of what the parsers return *)

Lemma subsequence_length {A} (xs ys : list A) :
  subsequence xs ys -> List.length xs <= List.length ys.
Proof. induction 1; simpl; lia. Qed.

Lemma subsequence_in {A} (xs ys : list A) (x : A) :
  subsequence xs ys -> In x xs -> In x ys.
Proof.
  induction 1; intros Hx; [contradiction| |right; auto].
  destruct Hx as [->|Hx]; [now left | right; auto].
Qed.

Lemma subsequence_nodup {A} (xs ys : list A) :
  subsequence xs ys -> NoDup ys -> NoDup xs.
Proof.
  induction 1; intros Hnd; [constructor| |].
  - inversion Hnd as [|? ? Hx Hys]; subst. constructor; [|auto].
    intros Hin. apply Hx. eapply subsequence_in; eassumption.
  - inversion Hnd; subst. auto.
Qed.

Lemma subsequence_filter {A} (p : A -> bool) (xs : list A) :
  subsequence (filter p xs) xs.
Proof.
  induction xs as [|x xs IH]; simpl; [constructor|].
  destruct (p x); now constructor.
Qed.

Lemma subsequence_map {A B} (f : A -> B) (xs ys : list A) :
  subsequence xs ys -> subsequence (map f xs) (map f ys).
Proof. induction 1; simpl; now constructor. Qed.

Lemma feature_keywords_lower :
  forall k, In k SpecSheetParser.feature_keywords -> Py.lower k = k.
Proof.
  assert (H : forallb (fun k => String.eqb (Py.lower k) k)
                SpecSheetParser.feature_keywords = true) by reflexivity.
  rewrite forallb_forall in H. intros k Hk. now apply String.eqb_eq, H.
Qed.


Lemma dict_set_fresh (key v : string) (d : SpecSheetParser.dict) :
  ~ In key (map fst d) -> SpecSheetParser.dict_set key v d = (d ++ [(key, v)])%list.
Proof.
  induction d as [|[k w] d IH]; intros H; simpl; [reflexivity|].
  destruct (String.eqb_spec k key) as [->|_].
  - exfalso. apply H. now left.
  - f_equal. apply IH. intros Hin. apply H. now right.
Qed.

Lemma collect_specs_keys (text : string) (patterns : list (string * Re.re)) :
  NoDup (map fst patterns) ->
  forall specs,
    (forall k, In k (map fst specs) -> ~ In k (map fst patterns)) ->
    exists new,
      SpecSheetParser.collect_specs patterns text specs = (specs ++ new)%list
      /\ subsequence (map fst new) (map fst patterns).
Proof.
  induction patterns as [|[name pattern] patterns IH]; intros Hnd specs Hfresh.
  - exists []. simpl. rewrite List.app_nil_r. split; [reflexivity | constructor].
  - inversion Hnd as [|? ? Hname Hnd']; subst. cbn [SpecSheetParser.collect_specs].
    destruct (Re.search true pattern text) as [[w groups]|].
    + rewrite dict_set_fresh.
      * destruct (IH Hnd' (specs ++ [(name, Re.group1 groups)])%list) as (new & E & Hs).
        { intros k Hk Hin. rewrite map_app in Hk. apply in_app_or in Hk.
          destruct Hk as [Hk|[<-|[]]]; [|exact (Hname Hin)].
          apply (Hfresh k Hk). now right. }
        exists ((name, Re.group1 groups) :: new). rewrite E, <- List.app_assoc.
        split; [reflexivity|]. simpl. now constructor.
      * intros Hin. apply (Hfresh name Hin). now left.
    + destruct (IH Hnd' specs) as (new & E & Hs).
      { intros k Hk Hin. apply (Hfresh k Hk). now right. }
      exists new. split; [exact E|]. simpl. now constructor.
Qed.

(** X6. The records of a specification sheet come in four blocks in a
    fixed order: the two of Product Information; the Technical
    Specifications, in the order of the eight patterns and none twice;
    at most one Compliance record, there when a standard is found; at
    most one Features record, there when a feature is found.  So there
    are between two and twelve records. *)
Theorem spec_records_in_fixed_blocks
  (list_of_set : list string -> list string) (text : string) :
  exists model ptype technical compliance features,
    SpecSheetParser.parse_data list_of_set text
    = ([ SpecSheetParser.mkRec "Product Information" "Model Number" model;
         SpecSheetParser.mkRec "Product Information" "Product Type" ptype ]
       ++ technical ++ compliance ++ features)%list
    /\ Forall (fun r => SpecSheetParser.rec_category r = "Technical Specifications")
              technical
    /\ subsequence (map SpecSheetParser.rec_specification technical)
         [ "Operating Voltage"; "Current Draw"; "Temperature Range"; "Humidity Range";
           "Dimensions"; "Weight"; "Coverage Area"; "Response Time" ]
    /\ compliance
       = match SpecSheetParser.extract_standards_compliance list_of_set text with
         | [] => []
         | standards =>
             [SpecSheetParser.mkRec "Compliance" "Standards" (Py.join ", " standards)]
         end
    /\ features
       = match SpecSheetParser.extract_features text with
         | [] => []
         | found =>
             [SpecSheetParser.mkRec "Features" "Key Features" (Py.join ", " found)]
         end
    /\ 2 <= List.length (SpecSheetParser.parse_data list_of_set text) <= 12.
Proof.
  destruct (collect_specs_keys text SpecSheetParser.technical_patterns) with (specs := @nil (string * string))
    as (new & E & Hs).
  { repeat constructor; simpl; intuition discriminate. }
  { intros k []. }
  simpl app in E.
  unfold SpecSheetParser.parse_data. cbv zeta.
  unfold SpecSheetParser.extract_technical_specs. rewrite E.
  do 2 eexists.
  exists (map (fun kv => SpecSheetParser.mkRec "Technical Specifications" (fst kv) (snd kv)) new).
  do 2 eexists. split; [reflexivity|].
  split; [|split; [|split; [|split]]].
  - apply Forall_forall. intros r Hr. apply in_map_iff in Hr.
    now destruct Hr as (kv & <- & _).
  - rewrite map_map. cbn [SpecSheetParser.rec_specification]. exact Hs.
  - now destruct (SpecSheetParser.extract_standards_compliance list_of_set text).
  - now destruct (SpecSheetParser.extract_features text).
  - apply subsequence_length in Hs. rewrite length_map in Hs.
    cbn [List.length map fst SpecSheetParser.technical_patterns] in Hs.
    rewrite !length_app, length_map. cbn [List.length].
    destruct (SpecSheetParser.extract_standards_compliance list_of_set text);
      destruct (SpecSheetParser.extract_features text); cbn [List.length]; lia.
Qed.

Lemma set_column_well_formed (l : Pandas.label) series df :
  well_formed df -> well_formed (Pandas.set_column l series df).
Proof.
  unfold well_formed, Pandas.set_column. intros Hwf. rewrite Forall_forall in Hwf.
  destruct (Pandas.has_column l (Pandas.columns df));
    cbn [Pandas.rows Pandas.columns]; apply Forall_forall; intros r Hr;
    apply in_map_iff in Hr; destruct Hr as ([r0 v] & <- & Hin);
    apply in_combine_l in Hin; specialize (Hwf r0 Hin); cbn [fst snd].
  - rewrite length_map, length_combine. lia.
  - rewrite !length_app. simpl. lia.
Qed.

Lemma from_records_well_formed (cols : list Pandas.label) records :
  Forall (fun r => List.length r = List.length cols) records ->
  well_formed (Pandas.from_records cols records).
Proof.
  unfold well_formed, Pandas.from_records. destruct records; [constructor|].
  intros H. exact H.
Qed.

(** X7. The frame either parser returns is rectangular: every row has one
    value for each column, whatever the tables of the document. *)
Theorem parsed_frames_rectangular
  (list_of_set : list string -> list string) (doc : Pdf.document)
  (df : Pandas.DataFrame) :
  BOQParser.parse doc = Some df \/ SpecSheetParser.parse list_of_set doc = Some df ->
  well_formed df.
Proof.
  intros [H|H].
  - unfold BOQParser.parse in H. cbv zeta in H.
    destruct (Pdf.extract_tables doc) as [tables|] eqn:Ht; [|discriminate].
    destruct tables as [|t tables].
    + injection H as <-. apply from_records_well_formed.
      apply Forall_forall. intros r Hr. apply in_map_iff in Hr.
      now destruct Hr as (it & <- & _).
    + unfold BOQParser.parse_tables in H.
      destruct (Pandas.concat (t :: tables)) as [df0|] eqn:Hc; [|discriminate].
      destruct (Pandas.iloc_col 1 df0); [|discriminate].
      destruct (Pandas.apply _ _); [|discriminate].
      injection H as <-. apply set_column_well_formed.
      apply (concat_well_formed (t :: tables)); [|exact Hc].
      unfold Pdf.extract_tables in Ht. eapply frames_of_well_formed; eassumption.
  - unfold SpecSheetParser.parse in H. cbv zeta in H.
    destruct (Pdf.extract_tables doc); [|discriminate].
    set (fr := Pandas.from_records _ _) in H.
    assert (E : fr = df) by congruence. rewrite <- E. subst fr.
    apply from_records_well_formed.
    apply Forall_forall. intros r Hr. apply in_map_iff in Hr.
    now destruct Hr as (rc & <- & _).
Qed.

Lemma parsed_frames_rectangular_witness : well_formed (BOQParser.parse_text (Pdf.extract_text text_only)).
Proof.
  apply (parsed_frames_rectangular first_seen text_only). left. reflexivity.
Defined.

(** ** Technical values and the model number *)

Lemma search_from_found ic r : forall s b w groups,
  Re.search_from ic r b s = Some (w, groups) ->
  exists pre rest b' s',
    s = pre ++ rest /\ Re.match_at ic r b' rest = Some (w, s', groups).
Proof.
  induction s as [|c s IH]; intros b w groups H; cbn [Re.search_from] in H.
  - destruct (Re.match_at ic r b "") as [[[w0 s0] cs0]|] eqn:E; [|discriminate].
    injection H as <- <-. now exists "", "", b, s0.
  - destruct (Re.match_at ic r b (String c s)) as [[[w0 s0] cs0]|] eqn:E.
    + injection H as <- <-. now exists "", (String c s), b, s0.
    + apply IH in H. destruct H as (pre & rest & b' & s' & -> & H).
      now exists (String c pre), rest, b', s'.
Qed.

(** A match of [name], separators, and a first group [body]: what is
    left to match when the group begins. *)
Lemma labelled_match name sepc body b s w s' groups :
  Re.match_at true (Re.Seq name (Re.Seq (Re.plus (Re.Cls sepc)) (Re.Grp 1 body))) b s
  = Some (w, s', groups) ->
  exists wn ws b1 s1 cs1,
    s = wn ++ ws ++ s1 /\ lang true name wn
    /\ ws <> "" /\ all_chars (Re.cls_ok true sepc) ws = true
    /\ Re.m true body b1 s1 cs1
         (fun wb _ s'' cs' => Some (wn ++ ws ++ wb, s'', (1, wb) :: cs'))
       = Some (w, s', groups).
Proof.
  unfold Re.match_at. rewrite m_seq. intros H.
  apply m_sound in H. destruct H as (wn & b1 & s1 & cs1 & -> & Hn & H).
  rewrite m_seq in H. apply m_sound in H.
  destruct H as (ws & b2 & s2 & cs2 & -> & Hs & H).
  rewrite m_grp in H. apply lang_plus_cls in Hs. destruct Hs as [Hne Hall].
  exists wn, ws, b2, s2, cs2. repeat split; try assumption.
Qed.

Lemma labelled_sound name sepc body b s w s' groups :
  Re.match_at true (Re.Seq name (Re.Seq (Re.plus (Re.Cls sepc)) (Re.Grp 1 body))) b s
  = Some (w, s', groups) ->
  exists wn ws,
    s = wn ++ ws ++ Re.group1 groups ++ s' /\ lang true name wn
    /\ ws <> "" /\ all_chars (Re.cls_ok true sepc) ws = true
    /\ lang true body (Re.group1 groups).
Proof.
  intros H. apply labelled_match in H.
  destruct H as (wn & ws & b1 & s1 & cs1 & -> & Hn & Hne & Hall & H).
  apply m_sound in H. destruct H as (wb & b2 & s2 & cs2 & -> & Hb & H).
  injection H as <- <- <-. exists wn, ws.
  unfold Re.group1. cbn [Re.group Nat.eqb]. repeat split; assumption.
Qed.

Lemma in_dict_set (k v key w : string) (d : SpecSheetParser.dict) :
  In (k, v) (SpecSheetParser.dict_set key w d) -> (k, v) = (key, w) \/ In (k, v) d.
Proof.
  induction d as [|[k0 w0] d IH]; simpl.
  - intros [H|[]]. now left.
  - destruct (String.eqb_spec k0 key) as [->|_].
    + intros [H|H]; [now left | right; now right].
    + intros [H|H]; [right; now left|].
      destruct (IH H) as [E|E]; [now left | right; now right].
Qed.

(** Every entry of the technical specifications is the first group of
    a pattern found in the text. *)
Lemma collect_specs_origin (text : string) (patterns : list (string * Re.re)) :
  forall specs k v,
    In (k, v) (SpecSheetParser.collect_specs patterns text specs) ->
    In (k, v) specs
    \/ exists pattern w groups,
         In (k, pattern) patterns
         /\ Re.search true pattern text = Some (w, groups)
         /\ v = Re.group1 groups.
Proof.
  induction patterns as [|[name pattern] patterns IH]; intros specs k v H;
    cbn [SpecSheetParser.collect_specs] in H; [now left|].
  destruct (Re.search true pattern text) as [[w groups]|] eqn:E.
  - apply IH in H. destruct H as [H|(p & w' & g & Hin & Hs & Hv)].
    + apply in_dict_set in H. destruct H as [H|H]; [|now left].
      injection H as -> ->. right. exists pattern, w, groups.
      split; [now left | split; [exact E | reflexivity]].
    + right. exists p, w', g. split; [now right | split; assumption].
  - apply IH in H. destruct H as [H|(p & w' & g & Hin & Hs & Hv)]; [now left|].
    right. exists p, w', g. split; [now right | split; assumption].
Qed.

Lemma colon_ws_ci c :
  Re.cls_ok true SpecSheetParser.colon_ws c = SpecSheetParser.colon_ws c.
Proof. destruct c as [[] [] [] [] [] [] [] []]; reflexivity. Qed.

Lemma num_start_1 c :
  Re.cls_ok true (SpecSheetParser.num_c ".-") c = true -> number_start c = true.
Proof. destruct c as [[] [] [] [] [] [] [] []]; vm_compute; congruence. Qed.

Lemma num_start_2 c :
  Re.cls_ok true (SpecSheetParser.num_c ".") c = true -> number_start c = true.
Proof. destruct c as [[] [] [] [] [] [] [] []]; vm_compute; congruence. Qed.

Lemma num_start_3 c :
  Re.cls_ok true (SpecSheetParser.num_c ",") c = true -> number_start c = true.
Proof. destruct c as [[] [] [] [] [] [] [] []]; vm_compute; congruence. Qed.

Lemma num_start_4 c :
  Re.cls_ok true Re.digit c = true -> number_start c = true.
Proof. destruct c as [[] [] [] [] [] [] [] []]; vm_compute; congruence. Qed.

Lemma num_start_5 c :
  Re.chr_ok true "-" c = true -> number_start c = true.
Proof. destruct c as [[] [] [] [] [] [] [] []]; vm_compute; congruence. Qed.

Lemma begins_with_plus (p : ascii -> bool) (q : ascii -> bool) r w :
  (forall c, Re.cls_ok true p c = true -> q c = true) ->
  lang true (Re.Seq (Re.plus (Re.Cls p)) r) w -> begins_with q w = true.
Proof.
  intros Hpq H. apply lang_seq in H. destruct H as (w1 & w2 & -> & H1 & _).
  apply lang_plus_cls in H1. destruct H1 as [Hne Hall].
  destruct w1 as [|c w1]; [contradiction|]. simpl in Hall.
  apply andb_true_iff in Hall. simpl. apply Hpq. tauto.
Qed.

Lemma technical_patterns_labelled k pattern :
  In (k, pattern) SpecSheetParser.technical_patterns ->
  exists name body,
    pattern = Re.Seq name (Re.Seq (Re.plus (Re.Cls SpecSheetParser.colon_ws))
                                  (Re.Grp 1 body))
    /\ (forall w, lang true body w -> begins_with number_start w = true).
Proof.
  unfold SpecSheetParser.technical_patterns, SpecSheetParser.labelled. cbv zeta.
  cbn [In Re.cat]. intros H.
  repeat (destruct H as [H|H];
          [injection H as <- <-; eexists; eexists; split; [reflexivity|]; intros w Hw|]);
    try contradiction.
  - exact (begins_with_plus _ _ _ _ num_start_1 Hw).
  - exact (begins_with_plus _ _ _ _ num_start_1 Hw).
  - apply lang_seq in Hw. destruct Hw as (w1 & w2 & -> & H1 & H2).
    apply lang_opt in H1. destruct H1 as [H1| ->].
    + inversion H1; subst. simpl. now apply num_start_5.
    + exact (begins_with_plus _ _ _ _ num_start_4 H2).
  - exact (begins_with_plus _ _ _ _ num_start_4 Hw).
  - exact (begins_with_plus _ _ _ _ num_start_2 Hw).
  - exact (begins_with_plus _ _ _ _ num_start_2 Hw).
  - exact (begins_with_plus _ _ _ _ num_start_3 Hw).
  - exact (begins_with_plus _ _ _ _ num_start_2 Hw).
Qed.

Lemma technical_record list_of_set text r :
  In r (SpecSheetParser.parse_data list_of_set text) ->
  SpecSheetParser.rec_category r = "Technical Specifications" ->
  In (SpecSheetParser.rec_specification r, SpecSheetParser.rec_value r)
     (SpecSheetParser.extract_technical_specs text).
Proof.
  unfold SpecSheetParser.parse_data. cbv zeta. intros H Hc.
  repeat (apply in_app_or in H; destruct H as [H|H]).
  - destruct H as [<-|[<-|[]]]; discriminate Hc.
  - apply in_map_iff in H. destruct H as ([k v] & <- & H). exact H.
  - destruct (SpecSheetParser.extract_standards_compliance list_of_set text);
      [contradiction|]. destruct H as [<-|[]]. discriminate Hc.
  - destruct (SpecSheetParser.extract_features text); [contradiction|].
    destruct H as [<-|[]]. discriminate Hc.
Qed.



Lemma m_lit_split : forall l (R : Type) b s cs (k : Re.cont R),
  Re.m true (Re.lit l) b s cs k
  = match ci_split l s with
    | Some (w, rest) => k w (match l with EmptyString => b | _ => false end) rest cs
    | None => None
    end.
Proof.
  induction l as [|c l IH]; intros R b s cs k; [reflexivity|].
  cbn [Re.lit ci_split]. rewrite m_seq. destruct s as [|x s]; [reflexivity|].
  cbn [Re.m]. destruct (Re.chr_ok true c x); [|reflexivity].
  rewrite IH. destruct (ci_split l s) as [[w rest]|]; [|reflexivity].
  cbn [append]. now destruct l.
Qed.

Lemma ci_split_sound : forall l s w rest,
  ci_split l s = Some (w, rest) -> s = w ++ rest /\ Py.lower w = Py.lower l.
Proof.
  induction l as [|c l IH]; intros s w rest H; cbn [ci_split] in H.
  - injection H as <- <-. split; reflexivity.
  - destruct s as [|x s]; [discriminate|].
    destruct (Re.chr_ok true c x) eqn:Ex; [|discriminate].
    destruct (ci_split l s) as [[w0 r0]|] eqn:E; [|discriminate].
    injection H as <- <-. destruct (IH _ _ _ E) as [-> Hl].
    split; [reflexivity|]. unfold Re.chr_ok in Ex. apply Ascii.eqb_eq in Ex.
    unfold Py.lower in *. simpl. now rewrite Ex, Hl.
Qed.

Lemma ci_split_longer : forall l1 l2 s,
  ci_split l1 s = None -> ci_split (l1 ++ l2) s = None.
Proof.
  induction l1 as [|c l1 IH]; intros l2 s H; [discriminate|].
  cbn [ci_split append] in *. destruct s as [|x s]; [reflexivity|].
  destruct (Re.chr_ok true c x); [|reflexivity].
  destruct (ci_split l1 s) as [[w r]|] eqn:E; [discriminate|].
  now rewrite (IH l2 s E).
Qed.

Lemma technical_pattern_of list_of_set text r :
  In r (SpecSheetParser.parse_data list_of_set text) ->
  SpecSheetParser.rec_category r = "Technical Specifications" ->
  exists pattern pre rest b s' w groups,
    In (SpecSheetParser.rec_specification r, pattern) SpecSheetParser.technical_patterns
    /\ text = pre ++ rest
    /\ Re.match_at true pattern b rest = Some (w, s', groups)
    /\ SpecSheetParser.rec_value r = Re.group1 groups.
Proof.
  intros Hin Hc. pose proof (technical_record _ _ _ Hin Hc) as H.
  unfold SpecSheetParser.extract_technical_specs in H.
  apply collect_specs_origin in H.
  destruct H as [[]|(pattern & w & groups & Hp & Hs & Hv)].
  unfold Re.search in Hs. apply search_from_found in Hs.
  destruct Hs as (pre & rest & b' & s' & -> & Hm).
  now exists pattern, pre, rest, b', s', w, groups.
Qed.



Lemma greedy_run_total (R : Type) p (k : Re.cont R) :
  (forall w b s cs, k w b s cs <> None) ->
  forall s w b cs,
    exists run rest b',
      s = run ++ rest /\ all_chars p run = true /\ stops p rest
      /\ greedy_run p k w b s cs = k (w ++ run) b' rest cs.
Proof.
  intros Hk. induction s as [|x s IH]; intros w b cs.
  - exists "", "", b. rewrite (append_empty_r w). now repeat split.
  - cbn [greedy_run]. destruct (p x) eqn:Ex.
    + destruct (IH (w ++ String x "") false cs) as (run & rest & b' & -> & Hall & Hst & E).
      rewrite E. destruct (k ((w ++ String x "") ++ run) b' rest cs) eqn:Ek.
      * exists (String x run), rest, b'. simpl. rewrite Ex, Hall.
        repeat split; [exact Hst|]. rewrite <- Ek, append_assoc. reflexivity.
      * exfalso. exact (Hk _ _ _ _ Ek).
    + exists "", (String x s), b. rewrite (append_empty_r w).
      repeat split. exact Ex.
Qed.

Lemma first_model_origin (patterns : list Re.re) (text v : string) :
  SpecSheetParser.first_model patterns text = Some v ->
  exists pattern w groups,
    In pattern patterns /\ Re.search true pattern text = Some (w, groups)
    /\ v = Re.group1 groups.
Proof.
  induction patterns as [|p patterns IH]; simpl; [discriminate|].
  destruct (Re.search true p text) as [[w groups]|] eqn:E.
  - intros H. injection H as <-. exists p, w, groups. auto.
  - intros H. destruct (IH H) as (q & w & g & Hin & Hs & Hv).
    exists q, w, g. auto.
Qed.

Lemma model_sep_ci c :
  Re.cls_ok true (Re.either SpecSheetParser.colon_ws (Re.only "#")) c = true ->
  SpecSheetParser.colon_ws c = true \/ c = "#"%char.
Proof.
  destruct c as [[] [] [] [] [] [] [] []]; vm_compute; intros H;
    try discriminate H; auto.
Qed.

(** A label, separators and a token as first group, with nothing after
    it in the pattern: the token is the longest run of token characters
    at that place. *)
Lemma token_match name sepc b s w s' groups :
  Re.match_at true
    (Re.Seq name (Re.Seq (Re.plus (Re.Cls sepc))
                         (Re.Grp 1 (Re.plus (Re.Cls SpecSheetParser.token_c))))) b s
  = Some (w, s', groups) ->
  exists wn a d,
    s = wn ++ a ++ String d (Re.group1 groups ++ s')
    /\ Re.cls_ok true sepc d = true
    /\ Re.group1 groups <> ""
    /\ all_chars (Re.cls_ok true SpecSheetParser.token_c) (Re.group1 groups) = true
    /\ stops (Re.cls_ok true SpecSheetParser.token_c) s'.
Proof.
  intros H. apply labelled_match in H.
  destruct H as (wn & ws & b1 & s1 & cs1 & -> & Hn & Hne & Hall & H).
  unfold Re.plus in H. rewrite m_seq in H.
  destruct s1 as [|x s1]; [discriminate H|].
  destruct (Re.cls_ok true SpecSheetParser.token_c x) eqn:Ex;
    [|rewrite m_cls_stops in H by exact Ex; discriminate H].
  rewrite (m_cls_ok _ _ _ _ _ _ _ _ Ex), m_star_cls in H.
  match type of H with
  | greedy_run ?p ?k ?w0 ?b0 ?s0 ?c0 = _ =>
      destruct (greedy_run_total _ p k ltac:(discriminate) s0 w0 b0 c0)
        as (run & rest & b' & -> & Hrun & Hst & E)
  end.
  rewrite E in H. cbn [append] in H. injection H as <- <- <-.
  destruct (last_char ws Hne) as (a & d & ->).
  rewrite all_chars_append in Hall. apply andb_true_iff in Hall.
  destruct Hall as [_ Hd]. cbn [all_chars] in Hd. rewrite andb_true_r in Hd.
  exists wn, a, d. unfold Re.group1. cbn [Re.group Nat.eqb append].
  split; [now rewrite !append_assoc|]. split; [exact Hd|].
  split; [discriminate|]. split; [|exact Hst].
  cbn [all_chars]. now rewrite Ex, Hrun.
Qed.


(** ** Which lines of a BOQ are items *)

Lemma star_loop_sound_plain ic g r :
  (forall (R : Type) b s cs (k : Re.cont R) x,
      Re.m ic r b s cs k = Some x ->
      exists w b' s', s = w ++ s' /\ lang ic r w /\ k w b' s' cs = Some x) ->
  forall (R : Type) (k : Re.cont R) fuel w0 b s cs x,
    Re.star_loop g (fun b' s' cs' k' => Re.m ic r b' s' cs' k') k fuel w0 b s cs = Some x ->
    exists w b' s',
      s = w ++ s' /\ lang ic (Re.Star g r) w /\ k (w0 ++ w) b' s' cs = Some x.
Proof.
  intros Hr R k. induction fuel as [|fuel IH]; intros w0 b s cs x H.
  - simpl in H. exists "", b, s. rewrite (append_empty_r w0).
    split; [reflexivity|]. split; [constructor | exact H].
  - assert (Hstop : k w0 b s cs = Some x ->
              exists w b' s',
                s = w ++ s' /\ lang ic (Re.Star g r) w /\ k (w0 ++ w) b' s' cs = Some x).
    { intros Hk. exists "", b, s. rewrite (append_empty_r w0).
      split; [reflexivity|]. split; [constructor | exact Hk]. }
    assert (Hagain : forall y,
              Re.m ic r b s cs
                (fun w1 b1 s1 cs1 =>
                   if String.length s1 <? String.length s
                   then Re.star_loop g (fun b' s' cs' k' => Re.m ic r b' s' cs' k')
                          k fuel (w0 ++ w1) b1 s1 cs1
                   else None) = Some y ->
              exists w b' s',
                s = w ++ s' /\ lang ic (Re.Star g r) w /\ k (w0 ++ w) b' s' cs = Some y).
    { intros y Hy. apply Hr in Hy. destruct Hy as (w1 & b1 & s1 & -> & Hl1 & Hy).
      destruct (String.length s1 <? String.length (w1 ++ s1)); [|discriminate].
      apply IH in Hy. destruct Hy as (w2 & b2 & s2 & -> & Hl2 & Hy).
      exists (w1 ++ w2), b2, s2. rewrite <- !append_assoc in *.
      split; [reflexivity|]. split; [now constructor | exact Hy]. }
    cbn [Re.star_loop] in H. destruct g.
    + destruct (Re.m ic r b s cs _) as [y|] eqn:E.
      * injection H as <-. now apply Hagain.
      * now apply Hstop.
    + destruct (k w0 b s cs) as [y|] eqn:E.
      * injection H as <-. now apply Hstop.
      * now apply Hagain.
Qed.

(** A pattern without groups leaves the groups as they are. *)
Lemma m_sound_plain ic r :
  no_group r = true ->
  forall (R : Type) b s cs (k : Re.cont R) x,
    Re.m ic r b s cs k = Some x ->
    exists w b' s', s = w ++ s' /\ lang ic r w /\ k w b' s' cs = Some x.
Proof.
  induction r as [|c|p|r1 IH1 r2 IH2|r1 IH1 r2 IH2|g r IH|n r IH| |];
    intros Hg R b s cs k x H; cbn [Re.m] in H; cbn [no_group] in Hg.
  - exists "", b, s. repeat split; [constructor | exact H].
  - destruct s as [|y s]; [discriminate|].
    destruct (Re.chr_ok ic c y) eqn:E; [|discriminate].
    exists (String y ""), false, s. repeat split; [now constructor | exact H].
  - destruct s as [|y s]; [discriminate|].
    destruct (Re.cls_ok ic p y) eqn:E; [|discriminate].
    exists (String y ""), false, s. repeat split; [now constructor | exact H].
  - apply andb_true_iff in Hg. destruct Hg as [Hg1 Hg2].
    apply (IH1 Hg1) in H. destruct H as (w1 & b1 & s1 & -> & Hl1 & H).
    apply (IH2 Hg2) in H. destruct H as (w2 & b2 & s2 & -> & Hl2 & H).
    exists (w1 ++ w2), b2, s2. rewrite append_assoc.
    repeat split; [now constructor | exact H].
  - apply andb_true_iff in Hg. destruct Hg as [Hg1 Hg2].
    destruct (Re.m ic r1 b s cs k) as [y|] eqn:E.
    + injection H as <-. apply (IH1 Hg1) in E.
      destruct E as (w & b' & s' & -> & Hl & E).
      exists w, b', s'. repeat split; [now apply L_AltL | exact E].
    + apply (IH2 Hg2) in H. destruct H as (w & b' & s' & -> & Hl & H).
      exists w, b', s'. repeat split; [now apply L_AltR | exact H].
  - apply (star_loop_sound_plain ic g r (IH Hg)) in H.
    destruct H as (w & b' & s' & -> & Hl & H).
    exists w, b', s'. repeat split; [exact Hl | exact H].
  - discriminate Hg.
  - destruct b; [|discriminate]. exists "", true, s.
    repeat split; [constructor | exact H].
  - destruct (Re.at_eol s); [|discriminate]. exists "", b, s.
    repeat split; [constructor | exact H].
Qed.

Lemma star_loop_lazy_cls ic p (R : Type) (k : Re.cont R) : forall s fuel w b cs,
  String.length s <= fuel ->
  Re.star_loop false (fun b' s' cs' k' => Re.m ic (Re.Cls p) b' s' cs' k') k fuel w b s cs
  = lazy_run (Re.cls_ok ic p) k w b s cs.
Proof.
  induction s as [|x s IH]; intros fuel w b cs Hf.
  - destruct fuel; cbn [Re.star_loop Re.m lazy_run]; now destruct (k w b "" cs).
  - destruct fuel as [|fuel]; [simpl in Hf; lia|].
    cbn [Re.star_loop Re.m lazy_run].
    destruct (k w b (String x s) cs); [reflexivity|].
    destruct (Re.cls_ok ic p x); [|reflexivity].
    assert (E : (String.length s <? String.length (String x s)) = true)
      by (apply Nat.ltb_lt; simpl; lia).
    rewrite E, IH by (simpl in Hf; lia). reflexivity.
Qed.

Lemma m_lazy_cls ic p (R : Type) (k : Re.cont R) b s cs :
  Re.m ic (Re.Star false (Re.Cls p)) b s cs k
  = lazy_run (Re.cls_ok ic p) k "" b s cs.
Proof. cbn [Re.m]. now apply star_loop_lazy_cls. Qed.

(** A lazy run that stops after [w1], the first place at which what
    follows the repetition matches. *)
Lemma lazy_run_commit (R : Type) p (k : Re.cont R) y s' cs : forall w1 w b,
  all_chars p w1 = true ->
  (forall a c, w1 = a ++ c -> c <> "" ->
               k (w ++ a) (match a with EmptyString => b | _ => false end) (c ++ s') cs
               = None) ->
  k (w ++ w1) (match w1 with EmptyString => b | _ => false end) s' cs = Some y ->
  lazy_run p k w b (w1 ++ s') cs = Some y.
Proof.
  induction w1 as [|x w1 IH]; intros w b Hall Hnone Hk.
  - rewrite (append_empty_r w) in Hk. cbn [append].
    destruct s' as [|c s']; cbn [lazy_run]; now rewrite Hk.
  - simpl in Hall. apply andb_true_iff in Hall. destruct Hall as [Hx Hall].
    cbn [append lazy_run].
    pose proof (Hnone "" (String x w1) eq_refl ltac:(discriminate)) as H0.
    rewrite (append_empty_r w) in H0. cbn [append] in H0. rewrite H0, Hx.
    apply IH; [exact Hall| |].
    + intros a c -> Hc. specialize (Hnone (String x a) c eq_refl Hc).
      rewrite append_assoc. cbn [append]. rewrite <- Hnone. now destruct a.
    + rewrite append_assoc. cbn [append]. rewrite <- Hk. now destruct w1.
Qed.

(** Committed steps of the matcher. *)
Lemma m_plus_commit ic p (R : Type) (k : Re.cont R) b w s' cs y :
  w <> "" -> all_chars (Re.cls_ok ic p) w = true -> stops (Re.cls_ok ic p) s' ->
  k w false s' cs = Some y ->
  Re.m ic (Re.plus (Re.Cls p)) b (w ++ s') cs k = Some y.
Proof.
  intros Hne Hall Hst Hk. destruct w as [|x w]; [contradiction|].
  simpl in Hall. apply andb_true_iff in Hall. destruct Hall as [Hx Hall].
  unfold Re.plus. rewrite m_seq. cbn [append].
  rewrite (m_cls_ok _ _ _ _ _ _ _ _ Hx), m_star_cls.
  apply greedy_run_commit; [exact Hall | exact Hst|].
  cbn [append]. now destruct w.
Qed.

Lemma m_star_commit ic p (R : Type) (k : Re.cont R) b w s' cs y :
  all_chars (Re.cls_ok ic p) w = true -> stops (Re.cls_ok ic p) s' ->
  k w (match w with EmptyString => b | _ => false end) s' cs = Some y ->
  Re.m ic (Re.star (Re.Cls p)) b (w ++ s') cs k = Some y.
Proof.
  intros Hall Hst Hk. unfold Re.star. rewrite m_star_cls.
  now apply greedy_run_commit.
Qed.

Lemma m_opt_take ic r (R : Type) (k : Re.cont R) b s cs y :
  Re.m ic r b s cs k = Some y -> Re.m ic (Re.opt r) b s cs k = Some y.
Proof. intros H. unfold Re.opt. now rewrite m_alt, H. Qed.

Lemma m_opt_skip ic r (R : Type) (k : Re.cont R) b s cs y :
  Re.m ic r b s cs k = None -> k "" b s cs = Some y ->
  Re.m ic (Re.opt r) b s cs k = Some y.
Proof. intros H Hk. unfold Re.opt. now rewrite m_alt, H, m_eps. Qed.

Lemma m_chr_ok ic c (R : Type) (k : Re.cont R) b x s cs :
  Re.chr_ok ic c x = true ->
  Re.m ic (Re.Chr c) b (String x s) cs k = k (String x "") false s cs.
Proof. intros H. cbn [Re.m]. now rewrite H. Qed.

Lemma m_chr_stops ic c (R : Type) (k : Re.cont R) b s cs :
  stops (Re.chr_ok ic c) s -> Re.m ic (Re.Chr c) b s cs k = None.
Proof.
  intros H. destruct s as [|x s]; cbn [Re.m]; [reflexivity|]. simpl in H. now rewrite H.
Qed.

Lemma m_bol ic (R : Type) (k : Re.cont R) s cs :
  Re.m ic Re.Bol true s cs k = k "" true s cs.
Proof. reflexivity. Qed.

Lemma rstrip_end : forall s a d,
  Py.rstrip s = a ++ String d "" -> Py.isspace_c d = false.
Proof.
  induction s as [|c s IH]; intros a d H; cbn [Py.rstrip] in H.
  - destruct a; discriminate.
  - destruct (Py.rstrip s) as [|c' r] eqn:E.
    + destruct (Py.isspace_c c) eqn:Ec; [destruct a; discriminate|].
      destruct a as [|x a]; cbn [append] in H.
      * now injection H as <-.
      * injection H as _ H. destruct a; discriminate.
    + destruct a as [|x a]; cbn [append] in H.
      * discriminate.
      * injection H as _ H. exact (IH a d H).
Qed.

Lemma strip_end (line a : string) (d : ascii) :
  Py.strip line = a ++ String d "" -> Py.isspace_c d = false.
Proof. apply rstrip_end. Qed.

Lemma span_digits_app : forall ds rest,
  all_chars Py.isdigit_c ds = true -> stops Py.isdigit_c rest ->
  Sheet.span_digits (ds ++ rest) = (ds, rest).
Proof.
  induction ds as [|c ds IH]; intros rest Hall Hst.
  - destruct rest as [|x rest]; [reflexivity|]. simpl in *. now rewrite Hst.
  - simpl in Hall. apply andb_true_iff in Hall. destruct Hall as [Hc Hall].
    cbn [append Sheet.span_digits]. now rewrite Hc, (IH rest Hall Hst).
Qed.

Lemma all_chars_plain (p : ascii -> bool) s :
  all_chars (Re.cls_ok false p) s = all_chars p s.
Proof. induction s as [|c s IH]; simpl; [reflexivity|]. now rewrite IH. Qed.

Lemma lang_chr_plain c w : lang false (Re.Chr c) w -> w = String c "".
Proof.
  inversion 1; subst. unfold Re.chr_ok in *.
  match goal with H : Ascii.eqb _ _ = true |- _ => apply Ascii.eqb_eq in H; now subst end.
Qed.

(** The texts of the first group of the item pattern. *)
Lemma lang_item_number w :
  lang false (Re.Seq (Re.plus (Re.Cls Re.digit))
                (Re.Seq (Re.opt (Re.Chr ".")) (Re.star (Re.Cls Re.digit)))) w ->
  item_number w = true.
Proof.
  intros H. apply lang_seq in H. destruct H as (i & r & -> & Hi & H).
  apply lang_seq in H. destruct H as (o & j & -> & Ho & Hj).
  apply lang_plus_cls in Hi. destruct Hi as [Hne Hi]. rewrite all_chars_plain in Hi.
  apply lang_star_cls in Hj. rewrite all_chars_plain in Hj.
  change Re.digit with Py.isdigit_c in Hi, Hj.
  apply lang_opt in Ho. unfold item_number. destruct Ho as [Ho| ->].
  - apply lang_chr_plain in Ho. subst o. rewrite span_digits_app by (auto; reflexivity).
    cbn [append]. rewrite Ascii.eqb_refl, Hj. destruct i; [contradiction | reflexivity].
  - cbn [append]. rewrite <- (append_empty_r (i ++ j)), span_digits_app.
    + destruct i; [contradiction | reflexivity].
    + now rewrite all_chars_append, Hi.
    + exact I.
Qed.

(** The texts of the third group. *)
Lemma lang_quantity_text w :
  lang false (Re.Seq (Re.plus (Re.Cls Re.digit))
                (Re.opt (Re.Seq (Re.Chr ".") (Re.plus (Re.Cls Re.digit))))) w ->
  quantity_text w = true.
Proof.
  intros H. apply lang_seq in H. destruct H as (i & r & -> & Hi & H).
  apply lang_plus_cls in Hi. destruct Hi as [Hne Hi]. rewrite all_chars_plain in Hi.
  change Re.digit with Py.isdigit_c in Hi.
  apply lang_opt in H. unfold quantity_text. destruct H as [H| ->].
  - apply lang_seq in H. destruct H as (o & j & -> & Ho & Hj).
    apply lang_chr_plain in Ho. subst o.
    apply lang_plus_cls in Hj. destruct Hj as [Hnj Hj]. rewrite all_chars_plain in Hj.
    change Re.digit with Py.isdigit_c in Hj.
    rewrite span_digits_app by (auto; reflexivity).
    cbn [append]. rewrite Ascii.eqb_refl, Hj.
    destruct i; [contradiction|]. destruct j; [contradiction | reflexivity].
  - rewrite span_digits_app by (auto; exact I). destruct i; [contradiction | reflexivity].
Qed.

(** The end of the item pattern: white space up to the end of the line. *)
Lemma m_trailing (R : Type) (k : Re.cont R) b s cs x :
  Re.m false (Re.Seq (Re.star (Re.Cls Re.ws)) Re.Eol) b s cs k = Some x ->
  exists w b' s',
    s = w ++ s' /\ all_chars Py.isspace_c w = true /\ Re.at_eol s' = true
    /\ k w b' s' cs = Some x.
Proof.
  rewrite m_seq. intros H. apply m_sound_plain in H; [|reflexivity].
  destruct H as (w & b' & s' & -> & Hw & H). cbn [Re.m] in H.
  destruct (Re.at_eol s') eqn:E; [|discriminate].
  apply lang_star_cls in Hw. rewrite all_chars_plain in Hw.
  exists w, b', s'. rewrite (append_empty_r w) in H. auto.
Qed.

Lemma at_eol_ws s : Re.at_eol s = true -> all_chars Py.isspace_c s = true.
Proof.
  destruct s as [|c [|d s]]; simpl; try discriminate; [reflexivity|].
  intros H. apply Ascii.eqb_eq in H. now subst c.
Qed.

(** White space at the end of a stripped line is no white space. *)
Lemma strip_no_trailing (line x t : string) :
  Py.strip line = x ++ t -> all_chars Py.isspace_c t = true -> t = "".
Proof.
  intros H Ht. destruct t as [|c t]; [reflexivity|exfalso].
  destruct (last_char (String c t) ltac:(discriminate)) as (a & d & E).
  rewrite E, all_chars_append in Ht. apply andb_true_iff in Ht. destruct Ht as [_ Hd].
  simpl in Hd. rewrite andb_true_r in Hd.
  rewrite E, <- append_assoc in H. apply strip_end in H. congruence.
Qed.

(** What a match of the item pattern is made of. *)
Lemma item_match (s : string) (groups : Re.caps) :
  Re.match_ false BOQParser.item_pattern s = Some groups ->
  exists no gap desc tail trail,
    s = no ++ gap ++ desc ++ tail ++ trail
    /\ item_number no = true
    /\ gap <> "" /\ all_chars Py.isspace_c gap = true
    /\ desc <> "" /\ all_chars Re.dot desc = true
    /\ all_chars Py.isspace_c trail = true
    /\ ((tail = "" /\ groups = [(2, desc); (1, no)])
        \/ exists gap2 q,
             tail = gap2 ++ q /\ gap2 <> "" /\ all_chars Py.isspace_c gap2 = true
             /\ quantity_text q = true /\ q <> ""
             /\ groups = [(3, q); (2, desc); (1, no)]).
Proof.
  unfold Re.match_, Re.match_at, BOQParser.item_pattern. cbv zeta. cbn [Re.cat].
  destruct (Re.m false _ true s [] _) as [[[w s'] cs]|] eqn:H; [|discriminate].
  intros E. injection E as ->.
  rewrite m_seq, m_bol in H. cbv beta in H.
  rewrite m_seq, m_grp in H. apply m_sound_plain in H; [|reflexivity].
  destruct H as (no & b1 & s1 & -> & Hno & H). cbv beta in H.
  rewrite m_seq in H. apply m_sound_plain in H; [|reflexivity].
  destruct H as (gap & b2 & s2 & -> & Hgap & H). cbv beta in H.
  rewrite m_seq, m_grp in H. apply m_sound_plain in H; [|reflexivity].
  destruct H as (desc & b3 & s3 & -> & Hdesc & H). cbv beta in H.
  apply lang_item_number in Hno.
  apply lang_plus_cls in Hgap. destruct Hgap as [Hgap1 Hgap2].
  rewrite all_chars_plain in Hgap2.
  unfold Re.plus_lazy in Hdesc. apply lang_seq in Hdesc.
  destruct Hdesc as (d1 & d2 & -> & Hd1 & Hd2).
  apply lang_cls in Hd1. destruct Hd1 as (x & -> & Hx).
  apply lang_star_cls in Hd2. rewrite all_chars_plain in Hd2.
  assert (Hdot : all_chars Re.dot (String x "" ++ d2) = true)
    by (cbn [append all_chars]; unfold Re.cls_ok in Hx; now rewrite Hd2, Hx).
  rewrite m_seq in H. unfold Re.opt at 1 in H. rewrite m_alt in H.
  match type of H with
  | match ?t with _ => _ end = _ => destruct t as [y|] eqn:EQ
  end.
  - injection H as ->.
    rewrite m_seq in EQ. apply m_sound_plain in EQ; [|reflexivity].
    destruct EQ as (gap2 & b4 & s4 & -> & Hgap' & H). cbv beta in H.
    rewrite m_grp in H. apply m_sound_plain in H; [|reflexivity].
    destruct H as (q & b5 & s5 & -> & Hq & H). cbv beta in H.
    apply m_trailing in H. destruct H as (t & b6 & s6 & -> & Ht & Heol & H).
    injection H as _ <- <-.
    apply lang_plus_cls in Hgap'. destruct Hgap' as [Hg1 Hg2].
    rewrite all_chars_plain in Hg2. apply lang_quantity_text in Hq.
    exists no, gap, (String x "" ++ d2), (gap2 ++ q), (t ++ s6).
    split; [now rewrite !append_assoc|].
    repeat (split; [first [assumption | discriminate]|]).
    split; [rewrite all_chars_append, Ht; now apply at_eol_ws|].
    right. exists gap2, q. repeat (split; [first [assumption | reflexivity]|]).
    split; [|reflexivity]. intros ->. discriminate Hq.
  - rewrite m_eps in H. apply m_trailing in H.
    destruct H as (t & b6 & s6 & -> & Ht & Heol & H). injection H as _ <- <-.
    exists no, gap, (String x "" ++ d2), "", (t ++ s6).
    split; [now rewrite !append_assoc|].
    repeat (split; [first [assumption | discriminate]|]).
    split; [rewrite all_chars_append, Ht; now apply at_eol_ws|].
    left. split; reflexivity.
Qed.



Lemma span_digits_spec : forall s a b,
  Sheet.span_digits s = (a, b) ->
  s = a ++ b /\ all_chars Py.isdigit_c a = true /\ stops Py.isdigit_c b.
Proof.
  induction s as [|c s IH]; intros a b H; cbn [Sheet.span_digits] in H.
  - injection H as <- <-. now repeat split.
  - destruct (Py.isdigit_c c) eqn:Ec.
    + destruct (Sheet.span_digits s) as [ds rest] eqn:E. injection H as <- <-.
      destruct (IH _ _ eq_refl) as (-> & Ha & Hb). simpl. rewrite Ec, Ha. auto.
    + injection H as <- <-. simpl. auto.
Qed.

Lemma item_number_parts no :
  item_number no = true ->
  exists i f,
    no = i ++ f /\ i <> "" /\ all_chars Py.isdigit_c i = true
    /\ (f = "" \/ exists j, f = String "." j /\ all_chars Py.isdigit_c j = true).
Proof.
  unfold item_number. destruct (Sheet.span_digits no) as [i f] eqn:E.
  apply span_digits_spec in E. destruct E as (-> & Hi & _).
  intros H. apply andb_true_iff in H. destruct H as [Hne H].
  exists i, f. split; [reflexivity|]. split; [intros ->; discriminate Hne|].
  split; [exact Hi|]. destruct f as [|c j]; [now left|right].
  apply andb_true_iff in H. destruct H as [Hc Hj]. apply Ascii.eqb_eq in Hc. subst c.
  now exists j.
Qed.

Lemma quantity_text_parts q :
  quantity_text q = true ->
  exists i f,
    q = i ++ f /\ i <> "" /\ all_chars Py.isdigit_c i = true
    /\ (f = "" \/ exists j, f = String "." j /\ j <> ""
                            /\ all_chars Py.isdigit_c j = true).
Proof.
  unfold quantity_text. destruct (Sheet.span_digits q) as [i f] eqn:E.
  apply span_digits_spec in E. destruct E as (-> & Hi & _).
  intros H. apply andb_true_iff in H. destruct H as [Hne H].
  exists i, f. split; [reflexivity|]. split; [intros ->; discriminate Hne|].
  split; [exact Hi|]. destruct f as [|c j]; [now left|right].
  apply andb_true_iff in H. destruct H as [H Hj]. apply andb_true_iff in H.
  destruct H as [Hc Hnj]. apply Ascii.eqb_eq in Hc. subst c.
  exists j. split; [reflexivity|]. split; [intros ->; discriminate Hnj | exact Hj].
Qed.

Lemma digit_not_ws c : Py.isdigit_c c = true -> Py.isspace_c c = false.
Proof. destruct c as [[] [] [] [] [] [] [] []]; vm_compute; congruence. Qed.

Lemma ws_not_digit_or_point c :
  Py.isspace_c c = true -> Py.isdigit_c c = false /\ Ascii.eqb "." c = false.
Proof. destruct c as [[] [] [] [] [] [] [] []]; vm_compute; split; congruence. Qed.

Lemma digits_not_ws s :
  all_chars Py.isdigit_c s = true -> all_chars not_ws s = true.
Proof.
  apply all_chars_weaken. intros c Hc. unfold not_ws. now rewrite digit_not_ws.
Qed.

Lemma quantity_text_not_ws q :
  quantity_text q = true -> q <> "" /\ all_chars not_ws q = true.
Proof.
  intros H. apply quantity_text_parts in H.
  destruct H as (i & f & -> & Hne & Hi & Hf). split.
  - destruct i; [contradiction | discriminate].
  - rewrite all_chars_append, (digits_not_ws i Hi).
    destruct Hf as [->|(j & -> & _ & Hj)]; [reflexivity|].
    simpl. now rewrite (digits_not_ws j Hj).
Qed.

(** The first group on an item number that white space follows. *)
Lemma m_item_number_commit (R : Type) (k : Re.cont R) b no rest cs y :
  item_number no = true ->
  begins_with Py.isspace_c rest = true ->
  k no false rest cs = Some y ->
  Re.m false (Re.Seq (Re.plus (Re.Cls Re.digit))
                (Re.Seq (Re.opt (Re.Chr ".")) (Re.star (Re.Cls Re.digit))))
       b (no ++ rest) cs k = Some y.
Proof.
  intros Hno Hrest Hk. apply item_number_parts in Hno.
  destruct Hno as (i & f & -> & Hne & Hi & Hf).
  destruct rest as [|x rest]; [discriminate|]. simpl in Hrest.
  destruct (ws_not_digit_or_point x Hrest) as [Hx1 Hx2].
  rewrite m_seq, append_assoc. apply m_plus_commit; [exact Hne| | |].
  - now rewrite all_chars_plain.
  - destruct Hf as [->|(j & -> & _)]; simpl; [exact Hx1 | reflexivity].
  - rewrite m_seq. destruct Hf as [->|(j & -> & Hj)].
    + apply m_opt_skip; [apply m_chr_stops; exact Hx2|].
      cbn [append]. change (String x rest) with ("" ++ String x rest).
      apply m_star_commit; [reflexivity | exact Hx1|].
      now rewrite (append_empty_r i) in *.
    + apply m_opt_take. cbn [append]. rewrite m_chr_ok by reflexivity.
      apply m_star_commit; [now rewrite all_chars_plain | exact Hx1|].
      cbn [append] in *. now destruct j.
Qed.

(** The third group on a quantity at the end of the line. *)
Lemma m_quantity_commit (R : Type) (k : Re.cont R) b q cs y :
  quantity_text q = true ->
  k q false "" cs = Some y ->
  Re.m false (Re.Seq (Re.plus (Re.Cls Re.digit))
                (Re.opt (Re.Seq (Re.Chr ".") (Re.plus (Re.Cls Re.digit)))))
       b q cs k = Some y.
Proof.
  intros Hq Hk. apply quantity_text_parts in Hq.
  destruct Hq as (i & f & -> & Hne & Hi & Hf).
  rewrite m_seq. apply m_plus_commit; [exact Hne| | |].
  - now rewrite all_chars_plain.
  - destruct Hf as [->|(j & -> & _)]; simpl; reflexivity || exact I.
  - destruct Hf as [->|(j & -> & Hnj & Hj)].
    + apply m_opt_skip; [rewrite m_seq; now apply m_chr_stops|].
      now rewrite (append_empty_r i) in *.
    + apply m_opt_take. rewrite m_seq, m_chr_ok by reflexivity.
      rewrite <- (append_empty_r j). apply m_plus_commit;
        [exact Hnj | now rewrite all_chars_plain | exact I|].
      exact Hk.
Qed.

Lemma m_trailing_end (R : Type) (k : Re.cont R) b cs :
  Re.m false (Re.Seq (Re.star (Re.Cls Re.ws)) Re.Eol) b "" cs k = k "" b "" cs.
Proof. reflexivity. Qed.

(** What can follow the description in a match: nothing, or white
    space and a quantity. *)
Lemma lang_quantity_part w :
  lang false
    (Re.opt (Re.Seq (Re.plus (Re.Cls Re.ws))
               (Re.Grp 3 (Re.Seq (Re.plus (Re.Cls Re.digit))
                            (Re.opt (Re.Seq (Re.Chr ".") (Re.plus (Re.Cls Re.digit)))))))) w ->
  w = "" \/ exists g q, w = g ++ q /\ g <> "" /\ all_chars Py.isspace_c g = true
                        /\ quantity_text q = true.
Proof.
  intros H. apply lang_opt in H. destruct H as [H| ->]; [right | now left].
  apply lang_seq in H. destruct H as (g & q & -> & Hg & Hq).
  apply lang_plus_cls in Hg. destruct Hg as [Hne Hg]. rewrite all_chars_plain in Hg.
  apply lang_grp, lang_quantity_text in Hq. now exists g, q.
Qed.

(** White space and a quantity at the end of a text: the quantity is
    what follows the last white space. *)
Lemma quantity_at_end (x g q g' q' : string) :
  ends_in not_ws x -> g <> "" -> all_chars Py.isspace_c g = true ->
  g' <> "" -> all_chars Py.isspace_c g' = true ->
  all_chars not_ws q = true -> all_chars not_ws q' = true ->
  x ++ g ++ q = g' ++ q' -> False.
Proof.
  intros (a & d & -> & Hd) Hg1 Hg2 Hg1' Hg2' Hq Hq' E.
  unfold not_ws in Hd. apply negb_true_iff in Hd.
  destruct (Nat.le_gt_cases (String.length (a ++ String d "")) (String.length g'))
    as [Hlen|Hlen].
  - symmetry in E.
    destruct (same_prefix _ _ _ _ E Hlen) as (e & He & _).
    rewrite He, !all_chars_append in Hg2'. cbn [all_chars] in Hg2'.
    rewrite Hd in Hg2'. rewrite andb_false_r in Hg2'. discriminate.
  - destruct (same_prefix g' (a ++ String d "") (g ++ q) q' E ltac:(lia))
      as (e & He & Hq'e).
    rewrite Hq'e, !all_chars_append in Hq'.
    destruct g as [|c g]; [contradiction|]. simpl in Hg2, Hq'.
    apply andb_true_iff in Hg2. destruct Hg2 as [Hc _].
    unfold not_ws in Hq' at 2. rewrite Hc in Hq'. simpl in Hq'.
    rewrite andb_false_r in Hq'. discriminate.
Qed.

Lemma ends_in_append (p : ascii -> bool) (s t : string) :
  ends_in p t -> ends_in p (s ++ t).
Proof.
  intros (a & d & -> & Hd). exists (s ++ a), d. now rewrite append_assoc.
Qed.

Lemma ends_in_all (p : ascii -> bool) (s : string) :
  s <> "" -> all_chars p s = true -> ends_in p s.
Proof.
  intros Hne Hall. destruct (last_char s Hne) as (a & d & ->). exists a, d.
  split; [reflexivity|]. rewrite all_chars_append in Hall.
  apply andb_true_iff in Hall. destruct Hall as [_ Hd]. simpl in Hd.
  now rewrite andb_true_r in Hd.
Qed.

(** After a beginning of the description that stops short, the rest of
    the pattern does not match. *)
Lemma tail_none (R : Type) (k : Re.cont R) b cs rest :
  rest <> "" -> ends_in not_ws rest ->
  (forall g q, rest = g ++ q -> g <> "" -> all_chars Py.isspace_c g = true ->
               quantity_text q = true -> False) ->
  Re.m false item_tail b rest cs k = None.
Proof.
  intros Hne (a & d & -> & Hd) Hno. unfold item_tail.
  match goal with |- ?t = None => destruct t as [y|] eqn:E; [exfalso | reflexivity] end.
  rewrite m_seq in E. apply m_sound in E.
  destruct E as (w1 & b1 & s1 & cs1 & Hs & Hw1 & E).
  apply m_trailing in E. destruct E as (t & b2 & s2 & -> & Ht & Heol & _).
  apply at_eol_ws in Heol.
  assert (Hts : t ++ s2 = "").
  { destruct (t ++ s2) as [|c ts] eqn:Ets; [reflexivity|exfalso].
    destruct (last_char (String c ts) ltac:(discriminate)) as (a' & d' & E').
    assert (Hall : all_chars Py.isspace_c (t ++ s2) = true)
      by now rewrite all_chars_append, Ht, Heol.
    rewrite Ets, E', all_chars_append in Hall. apply andb_true_iff in Hall.
    destruct Hall as [_ Hd']. simpl in Hd'. rewrite andb_true_r in Hd'.
    rewrite E', <- append_assoc in Hs. apply last_char_unique in Hs.
    subst d'. unfold not_ws in Hd. now rewrite Hd' in Hd. }
  rewrite Hts, (append_empty_r w1) in Hs.
  apply lang_quantity_part in Hw1.
  destruct Hw1 as [->|(g & q & -> & Hg1 & Hg2 & Hq)].
  - destruct a; discriminate.
  - exact (Hno g q Hs Hg1 Hg2 Hq).
Qed.

Lemma tail_quantity (R : Type) (k : Re.cont R) b cs y gap2 qty :
  gap2 <> "" -> all_chars Py.isspace_c gap2 = true -> quantity_text qty = true ->
  (forall b', k (gap2 ++ qty) b' "" ((3, qty) :: cs) = Some y) ->
  Re.m false item_tail b (gap2 ++ qty) cs k = Some y.
Proof.
  intros Hg1 Hg2 Hq Hk. unfold item_tail. rewrite m_seq. apply m_opt_take. rewrite m_seq.
  destruct (quantity_text_parts _ Hq) as (i & f & Eq & Hi1 & Hi2 & _).
  apply m_plus_commit; [exact Hg1 | now rewrite all_chars_plain | |].
  - rewrite Eq. destruct i as [|c i]; [contradiction|]. simpl in *.
    apply andb_true_iff in Hi2. destruct Hi2 as [Hc _]. now apply digit_not_ws.
  - rewrite m_grp. apply m_quantity_commit; [exact Hq|].
    rewrite m_trailing_end, (append_empty_r (gap2 ++ qty)). apply Hk.
Qed.

Lemma tail_empty (R : Type) (k : Re.cont R) b cs y :
  (forall b', k "" b' "" cs = Some y) ->
  Re.m false item_tail b "" cs k = Some y.
Proof.
  intros Hk. unfold item_tail. rewrite m_seq. apply m_opt_skip; [reflexivity|].
  rewrite m_trailing_end. apply Hk.
Qed.

(** The match of the item pattern on a line of a number, white space,
    a description and a tail, the description being the shortest that
    the tail can follow. *)
Lemma item_pattern_core (no gap desc tail : string) (extra : Re.caps) :
  item_number no = true ->
  gap <> "" -> all_chars Py.isspace_c gap = true ->
  all_chars Re.dot desc = true -> begins_with not_ws desc = true ->
  (forall a c0 (R : Type) (k : Re.cont R) b cs,
      desc = a ++ c0 -> a <> "" -> c0 <> "" ->
      Re.m false item_tail b (c0 ++ tail) cs k = None) ->
  (forall (R : Type) (k : Re.cont R) b cs y,
      (forall b', k tail b' "" (extra ++ cs)%list = Some y) ->
      Re.m false item_tail b tail cs k = Some y) ->
  Re.match_ false BOQParser.item_pattern (no ++ gap ++ desc ++ tail)
  = Some (extra ++ [(2, desc); (1, no)])%list.
Proof.
  intros Hno Hg1 Hg2 Hdot Hbeg Hshort Htail.
  destruct desc as [|c desc]; [discriminate|]. simpl in Hbeg, Hdot.
  apply andb_true_iff in Hdot. destruct Hdot as [Hc Hdot].
  assert (H : exists w,
             Re.match_at false BOQParser.item_pattern true
               (no ++ gap ++ String c desc ++ tail)
             = Some (w, "", (extra ++ [(2, String c desc); (1, no)])%list)).
  { eexists. unfold Re.match_at, BOQParser.item_pattern. cbv zeta. cbn [Re.cat].
    rewrite m_seq, m_bol. cbv beta. rewrite m_seq, m_grp.
    apply m_item_number_commit; [exact Hno| |].
    { destruct gap as [|x gap]; [contradiction|]. simpl in *.
      now apply andb_true_iff in Hg2. }
    rewrite m_seq. apply m_plus_commit;
      [exact Hg1 | now rewrite all_chars_plain | |].
    { unfold not_ws in Hbeg. apply negb_true_iff in Hbeg. exact Hbeg. }
    rewrite m_seq, m_grp. unfold Re.plus_lazy. rewrite m_seq. cbn [append].
    rewrite m_cls_ok by exact Hc. rewrite m_lazy_cls.
    apply lazy_run_commit.
    - now rewrite all_chars_plain.
    - intros a c0 Ea Hc0. cbn [append].
      apply (Hshort (String c a) c0); [now rewrite Ea | discriminate | exact Hc0].
    - cbn [append]. apply Htail. intros b'. reflexivity. }
  destruct H as [w H]. unfold Re.match_. now rewrite H.
Qed.




Lemma one_word_no_quantity (desc : string) :
  all_chars not_ws desc = true ->
  forall p g q, desc = p ++ g ++ q -> g <> "" -> all_chars Py.isspace_c g = true ->
                quantity_text q = true -> False.
Proof.
  intros Hall p g q -> Hg1 Hg2 _. rewrite !all_chars_append in Hall.
  destruct g as [|c g]; [contradiction|]. simpl in Hall, Hg2.
  apply andb_true_iff in Hg2. destruct Hg2 as [Hc _]. unfold not_ws in Hall at 2.
  rewrite Hc in Hall. simpl in Hall. rewrite andb_false_r in Hall. discriminate.
Qed.


Lemma lazy_run_some (R : Type) p (k : Re.cont R) s' cs : forall w1 w b,
  all_chars p w1 = true ->
  (exists y, k (w ++ w1) (match w1 with EmptyString => b | _ => false end) s' cs = Some y) ->
  exists y, lazy_run p k w b (w1 ++ s') cs = Some y.
Proof.
  induction w1 as [|x w1 IH]; intros w b Hall [y Hk].
  - rewrite (append_empty_r w) in Hk. exists y. cbn [append].
    destruct s' as [|c s']; cbn [lazy_run]; now rewrite Hk.
  - simpl in Hall. apply andb_true_iff in Hall. destruct Hall as [Hx Hall].
    cbn [append lazy_run]. destruct (k w b (String x (w1 ++ s')) cs) as [y0|];
      [now exists y0|].
    rewrite Hx. apply IH; [exact Hall|]. exists y.
    rewrite append_assoc. cbn [append]. rewrite <- Hk. now destruct w1.
Qed.

Lemma m_item_number_some (R : Type) (k : Re.cont R) b no rest cs :
  item_number no = true ->
  begins_with Py.isspace_c rest = true ->
  (exists y, k no false rest cs = Some y) ->
  exists y,
    Re.m false (Re.Seq (Re.plus (Re.Cls Re.digit))
                  (Re.Seq (Re.opt (Re.Chr ".")) (Re.star (Re.Cls Re.digit))))
         b (no ++ rest) cs k = Some y.
Proof.
  intros Hno Hrest [y Hk]. exists y. now apply m_item_number_commit.
Qed.

Lemma m_plus_some ic p (R : Type) (k : Re.cont R) b w s' cs :
  w <> "" -> all_chars (Re.cls_ok ic p) w = true -> stops (Re.cls_ok ic p) s' ->
  (exists y, k w false s' cs = Some y) ->
  exists y, Re.m ic (Re.plus (Re.Cls p)) b (w ++ s') cs k = Some y.
Proof.
  intros Hne Hall Hst [y Hk]. exists y. now apply m_plus_commit.
Qed.

Lemma lstrip_split (s : string) :
  exists w, s = w ++ Py.lstrip s /\ all_chars Py.isspace_c w = true
            /\ stops Py.isspace_c (Py.lstrip s).
Proof.
  induction s as [|c s (w & E & Hw & Hst)].
  - exists "". now repeat split.
  - cbn [Py.lstrip]. destruct (Py.isspace_c c) eqn:Ec.
    + exists (String c w). cbn [append all_chars]. rewrite Ec, Hw, <- E. auto.
    + exists "". cbn. auto.
Qed.

Lemma all_chars_lstrip p s : all_chars p s = true -> all_chars p (Py.lstrip s) = true.
Proof.
  intros H. destruct (lstrip_split s) as (w & E & _). rewrite E, all_chars_append in H.
  now apply andb_true_iff in H.
Qed.

Lemma all_chars_rstrip p : forall s,
  all_chars p s = true -> all_chars p (Py.rstrip s) = true.
Proof.
  induction s as [|c s IH]; intros H; [reflexivity|].
  simpl in H. apply andb_true_iff in H. destruct H as [Hc Hs].
  cbn [Py.rstrip]. specialize (IH Hs). destruct (Py.rstrip s) as [|c' r].
  - destruct (Py.isspace_c c); [reflexivity|]. simpl. now rewrite Hc.
  - cbn [all_chars] in *. now rewrite Hc, IH.
Qed.

Lemma all_chars_strip p s : all_chars p s = true -> all_chars p (Py.strip s) = true.
Proof. intros H. now apply all_chars_rstrip, all_chars_lstrip. Qed.

(** A match of the item pattern gives an item. *)
Lemma match_gives_item (line : string) (groups : Re.caps) :
  Re.match_ false BOQParser.item_pattern (Py.strip line) = Some groups ->
  exists it, BOQParser.parse_line line = Some it.
Proof.
  intros H. unfold BOQParser.parse_line. rewrite H. apply item_match in H.
  destruct H as (no & gap & desc & tail & trail & _ & _ & _ & _ & _ & _ & _ & Hcase).
  destruct Hcase as [[_ ->]|(gap2 & q & _ & _ & _ & _ & _ & ->)];
    cbn [Re.group Nat.eqb]; eexists; reflexivity.
Qed.

Lemma line_is_item_iff (line : string) :
  all_chars Re.dot line = true ->
  ((exists it, BOQParser.parse_line line = Some it)
   <-> exists no gap rest,
         Py.strip line = no ++ gap ++ rest
         /\ item_number no = true
         /\ gap <> "" /\ all_chars Py.isspace_c gap = true
         /\ rest <> "").
Proof.
  intros Hline. split.
  - intros [it H]. unfold BOQParser.parse_line in H.
    destruct (Re.match_ false BOQParser.item_pattern (Py.strip line)) as [groups|] eqn:E;
      [|discriminate].
    apply item_match in E.
    destruct E as (no & gap & desc & tail & trail & Hs & Hno & Hg1 & Hg2 & Hd1 & _).
    exists no, gap, (desc ++ tail ++ trail). repeat (split; [assumption|]).
    destruct desc; [contradiction | discriminate].
  - intros (no & gap & rest & Hs & Hno & Hg1 & Hg2 & Hrest).
    pose proof (all_chars_strip _ _ Hline) as Hdot. rewrite Hs in Hdot.
    rewrite !all_chars_append in Hdot. apply andb_true_iff in Hdot.
    destruct Hdot as [_ Hdot]. apply andb_true_iff in Hdot. destruct Hdot as [_ Hdot].
    destruct (lstrip_split rest) as (w & Er & Hw & Hst).
    assert (Hne : Py.lstrip rest <> "").
    { intros E0. rewrite E0, (append_empty_r w) in Er. subst w.
      destruct (last_char rest Hrest) as (a & d & Ea).
      rewrite Ea, all_chars_append in Hw. apply andb_true_iff in Hw.
      destruct Hw as [_ Hd]. simpl in Hd. rewrite andb_true_r in Hd.
      rewrite Ea, <- !append_assoc in Hs. apply strip_end in Hs. congruence. }
    assert (Hdot' : all_chars Re.dot (Py.lstrip rest) = true)
      by now apply all_chars_lstrip.
    destruct (Py.lstrip rest) as [|c d'] eqn:El; [contradiction|].
    simpl in Hst, Hdot'. apply andb_true_iff in Hdot'. destruct Hdot' as [Hc Hd'].
    assert (H : exists y,
               Re.match_at false BOQParser.item_pattern true
                 (no ++ (gap ++ w) ++ String c (d' ++ "")) = Some y).
    { unfold Re.match_at, BOQParser.item_pattern. cbv zeta. cbn [Re.cat].
      rewrite m_seq, m_bol. cbv beta. rewrite m_seq, m_grp.
      apply m_item_number_some; [exact Hno| |].
      { destruct gap as [|x gap]; [contradiction|]. simpl in *.
        now apply andb_true_iff in Hg2. }
      rewrite m_seq. apply m_plus_some.
      - destruct gap; [contradiction | discriminate].
      - rewrite all_chars_plain. change Re.ws with Py.isspace_c.
        now rewrite all_chars_append, Hg2, Hw.
      - exact Hst.
      - rewrite m_seq, m_grp. unfold Re.plus_lazy. rewrite m_seq.
        rewrite m_cls_ok by exact Hc. rewrite m_lazy_cls.
        apply lazy_run_some; [now rewrite all_chars_plain|].
        eexists. apply tail_empty. intros b'. reflexivity. }
    destruct H as [[[w0 s0] groups] H].
    apply (match_gives_item line groups). unfold Re.match_.
    rewrite Hs, Er, (append_empty_r d') in *.
    replace (no ++ gap ++ w ++ String c d') with (no ++ (gap ++ w) ++ String c d')
      by now rewrite !append_assoc.
    now rewrite H.
Qed.



(** ** The summary by category *)

(** The order of texts *)
Lemma ascii_compare_lt_trans (a b c : ascii) :
  Ascii.compare a b = Lt -> Ascii.compare b c = Lt -> Ascii.compare a c = Lt.
Proof.
  unfold Ascii.compare. rewrite !N.compare_lt_iff. apply N.lt_trans.
Qed.

Lemma string_compare_lt_trans : forall a b c : string,
  String.compare a b = Lt -> String.compare b c = Lt -> String.compare a c = Lt.
Proof.
  induction a as [|x a IH]; intros [|y b] [|z c]; simpl; try congruence.
  destruct (Ascii.compare x y) eqn:Exy; try discriminate.
  - apply Ascii.compare_eq_iff in Exy. subst y.
    destruct (Ascii.compare x z); try congruence. apply IH.
  - destruct (Ascii.compare y z) eqn:Eyz; try discriminate.
    + apply Ascii.compare_eq_iff in Eyz. subst z. now rewrite Exy.
    + now rewrite (ascii_compare_lt_trans x y z Exy Eyz).
Qed.

Lemma string_compare_refl (a : string) : String.compare a a = Eq.
Proof.
  induction a as [|x a IH]; simpl; [reflexivity|].
  assert (E : Ascii.compare x x = Eq) by (unfold Ascii.compare; apply N.compare_refl).
  now rewrite E.
Qed.

Lemma string_compare_lt_neq (a b : string) : String.compare a b = Lt -> a <> b.
Proof. intros H ->. now rewrite string_compare_refl in H. Qed.

Lemma string_compare_gt_lt (a b : string) :
  String.compare a b = Gt -> String.compare b a = Lt.
Proof. intros H. rewrite String.compare_antisym, H. reflexivity. Qed.

(** One more row in the groups *)
Lemma group_size_absent (c : string) (groups : list (Pandas.value * nat)) :
  (forall y, In y (text_keys groups) -> y <> c) -> group_size groups c = 0.
Proof.
  induction groups as [|[k n] groups IH]; intros H; [reflexivity|].
  destruct k as [k| | |]; cbn [group_size]; try (apply IH; intros y Hy; apply H; exact Hy).
  change (text_keys ((Pandas.VStr k, n) :: groups)) with (k :: text_keys groups) in H.
  destruct (String.eqb_spec k c) as [E|_].
  - exfalso. apply (H k); [now left | exact E].
  - apply IH. intros y Hy. apply H. now right.
Qed.

Lemma count_key_text (c : string) (groups : list (Pandas.value * nat)) :
  (forall g, In g groups -> exists k, fst g = Pandas.VStr k) ->
  increasing (text_keys groups) ->
  (forall g, In g (Pandas.count_key (Pandas.VStr c) groups) ->
             exists k, fst g = Pandas.VStr k)
  /\ increasing (text_keys (Pandas.count_key (Pandas.VStr c) groups))
  /\ (forall y, In y (text_keys (Pandas.count_key (Pandas.VStr c) groups))
                <-> y = c \/ In y (text_keys groups))
  /\ (forall c', group_size (Pandas.count_key (Pandas.VStr c) groups) c'
                 = group_size groups c' + (if String.eqb c c' then 1 else 0)).
Proof.
  induction groups as [|[k n] groups IH]; intros Hstr Hinc.
  - cbn. repeat split.
    + intros g [<-|[]]. now exists c.
    + intros y [].
    + intros [<-|[]]. now left.
    + intros [->|[]]. now left.
  - destruct (Hstr (k, n) ltac:(now left)) as [k0 Ek]. cbn [fst] in Ek. subst k.
    assert (Hstr' : forall g, In g groups -> exists k, fst g = Pandas.VStr k)
      by (intros g Hg; apply Hstr; now right).
    change (text_keys ((Pandas.VStr k0, n) :: groups)) with (k0 :: text_keys groups) in *.
    destruct Hinc as [Hk0 Hinc].
    destruct (IH Hstr' Hinc) as (IH1 & IH2 & IH3 & IH4).
    cbn [Pandas.count_key Pandas.key_compare].
    destruct (String.compare c k0) eqn:E.
    + apply String.compare_eq_iff in E. subst k0.
      change (text_keys ((Pandas.VStr c, S n) :: groups)) with (c :: text_keys groups).
      split; [|split; [|split]].
      * intros g [<-|Hg]; [now exists c | now apply Hstr'].
      * split; [exact Hk0 | exact Hinc].
      * intros y. split.
        -- intros [<-|Hy]; [now left | right; now right].
        -- intros [->|[->|Hy]]; [now left | now left | now right].
      * intros c'. cbn [group_size]. destruct (String.eqb c c'); lia.
    + change (text_keys ((Pandas.VStr c, 1) :: (Pandas.VStr k0, n) :: groups))
        with (c :: k0 :: text_keys groups).
      assert (Hall : forall y, In y (k0 :: text_keys groups) -> String.compare c y = Lt).
      { intros y [<-|Hy]; [exact E|].
        apply (string_compare_lt_trans c k0 y E). now apply Hk0. }
      split; [|split; [|split]].
      * intros g [<-|Hg]; [now exists c | now apply Hstr].
      * split; [exact Hall|]. split; [exact Hk0 | exact Hinc].
      * intros y. split.
        -- intros [<-|Hy]; [now left | now right].
        -- intros [->|Hy]; [now left | now right].
      * intros c'. cbn [group_size].
        destruct (String.eqb_spec c c') as [<-|Hne]; [|lia].
        assert (E0 : group_size ((Pandas.VStr k0, n) :: groups) c = 0).
        { apply group_size_absent. intros y Hy Ey. subst y.
          apply Hall in Hy. now rewrite string_compare_refl in Hy. }
        cbn [group_size] in E0. lia.
    + apply string_compare_gt_lt in E.
      change (text_keys ((Pandas.VStr k0, n) :: Pandas.count_key (Pandas.VStr c) groups))
        with (k0 :: text_keys (Pandas.count_key (Pandas.VStr c) groups)).
      split; [|split; [|split]].
      * intros g [<-|Hg]; [now exists k0 | now apply IH1].
      * split; [|exact IH2]. intros y Hy. apply IH3 in Hy.
        destruct Hy as [->|Hy]; [exact E | now apply Hk0].
      * intros y. split.
        -- intros [<-|Hy]; [right; now left|]. apply IH3 in Hy.
           destruct Hy as [->|Hy]; [now left | right; now right].
        -- intros [->|[->|Hy]].
           ++ right. apply IH3. now left.
           ++ now left.
           ++ right. apply IH3. now right.
      * intros c'. cbn [group_size]. rewrite IH4.
        destruct (String.eqb_spec k0 c') as [<-|Hne]; [|reflexivity].
        destruct (String.eqb_spec c k0) as [->|_]; [|lia].
        now rewrite string_compare_refl in E.
Qed.

Lemma count_key_sum (v : Pandas.value) (groups : list (Pandas.value * nat)) :
  list_sum (map snd (Pandas.count_key v groups)) = S (list_sum (map snd groups)).
Proof.
  induction groups as [|[k n] groups IH]; [reflexivity|].
  cbn [Pandas.count_key]. destruct (Pandas.key_compare v k).
  - simpl. lia.
  - simpl. lia.
  - change (list_sum (map snd ((k, n) :: Pandas.count_key v groups)))
      with (n + list_sum (map snd (Pandas.count_key v groups))).
    rewrite IH. simpl. lia.
Qed.

(** The groups of a list of rows whose cells are all texts. *)
Lemma group_rows {A : Type} (cell : A -> Pandas.value) (rs : list A) :
  (forall r, In r rs -> exists c, cell r = Pandas.VStr c) ->
  forall groups,
    (forall g, In g groups -> exists k, fst g = Pandas.VStr k) ->
    increasing (text_keys groups) ->
    let strings := flat_map (fun r => match cell r with
                                      | Pandas.VStr c => [c]
                                      | _ => []
                                      end) rs in
    let groups' := fold_left (fun groups r =>
                                if Pandas.isna (cell r) then groups
                                else Pandas.count_key (cell r) groups) rs groups in
    (forall g, In g groups' -> exists k, fst g = Pandas.VStr k)
    /\ increasing (text_keys groups')
    /\ (forall y, In y (text_keys groups') <-> In y strings \/ In y (text_keys groups))
    /\ (forall c, group_size groups' c
                  = group_size groups c + count_occ string_dec strings c)
    /\ list_sum (map snd groups') = list_sum (map snd groups) + List.length rs.
Proof.
  induction rs as [|r rs IH]; intros Hcells groups Htext Hinc; cbv zeta.
  - cbn. repeat split; auto; tauto.
  - destruct (Hcells r ltac:(now left)) as [c Ec].
    cbn [fold_left flat_map]. rewrite Ec. cbn [Pandas.isna].
    destruct (count_key_text c groups Htext Hinc) as (H1 & H2 & H3 & H4).
    destruct (IH (fun r' Hr' => Hcells r' (or_intror Hr')) _ H1 H2)
      as (I1 & I2 & I3 & I4 & I5).
    split; [exact I1|]. split; [exact I2|]. split; [|split].
    + intros y. rewrite I3, H3. cbn [app In]. intuition (subst; auto).
    + intros c'. rewrite I4, H4. cbn [app count_occ].
      destruct (string_dec c c') as [->|Hne].
      * rewrite String.eqb_refl. lia.
      * apply String.eqb_neq in Hne. rewrite Hne. lia.
    + rewrite I5, count_key_sum. cbn [List.length]. lia.
Qed.

Lemma groups_as_map (groups : list (Pandas.value * nat)) :
  (forall g, In g groups -> exists k, fst g = Pandas.VStr k) ->
  increasing (text_keys groups) ->
  groups = map (fun c => (Pandas.VStr c, group_size groups c)) (text_keys groups).
Proof.
  induction groups as [|[k n] groups IH]; intros Htext Hinc; [reflexivity|].
  destruct (Htext (k, n) ltac:(now left)) as [k0 Ek]. cbn [fst] in Ek. subst k.
  change (text_keys ((Pandas.VStr k0, n) :: groups)) with (k0 :: text_keys groups) in *.
  destruct Hinc as [Hk0 Hinc]. cbn [map group_size]. rewrite String.eqb_refl. f_equal.
  rewrite IH at 1; [|intros g Hg; apply Htext; now right | exact Hinc].
  apply map_ext_in. intros c Hc.
  destruct (String.eqb_spec k0 c) as [->|_]; [|reflexivity].
  apply Hk0 in Hc. now rewrite string_compare_refl in Hc.
Qed.

Lemma nth_get (df : Pandas.DataFrame) (l : Pandas.label) (j : nat)
  (r : list Pandas.value) :
  Pandas.index_of l (Pandas.columns df) = Some j ->
  nth j r Pandas.VNone = Pandas.get df r l Pandas.VNone.
Proof.
  intros Hj. unfold Pandas.get, Pandas.field. rewrite Hj. clear Hj.
  revert j. induction r as [|v r IH]; intros [|j]; simpl; auto.
Qed.

Lemma fold_left_same {A B : Type} (f g : A -> B -> A) (l : list B) (a : A) :
  (forall x y, f x y = g x y) -> fold_left f l a = fold_left g l a.
Proof.
  intros H. revert a. induction l as [|y l IH]; intros a; simpl; [reflexivity|].
  now rewrite H, IH.
Qed.

(** The groups of the Category column of a frame whose categories are
    all texts. *)
Lemma groupby_category (df : Pandas.DataFrame) (groups : list (Pandas.value * nat)) :
  Pandas.groupby_size (Some "Category") df = Some groups ->
  (forall r, In r (Pandas.rows df) -> exists c, category_cell df r = Pandas.VStr c) ->
  exists cats,
    groups = map (fun c => (Pandas.VStr c, count_occ string_dec (categories_of df) c)) cats
    /\ increasing cats
    /\ (forall c, In c cats <-> In c (categories_of df))
    /\ list_sum (map (count_occ string_dec (categories_of df)) cats)
       = List.length (Pandas.rows df).
Proof.
  unfold Pandas.groupby_size.
  destruct (Pandas.index_of _ _) as [j|] eqn:Hj; [|discriminate].
  destruct (1 <? _); [discriminate|]. intros H Hcells. injection H as <-.
  rewrite (fold_left_same _
             (fun groups r => if Pandas.isna (category_cell df r) then groups
                              else Pandas.count_key (category_cell df r) groups))
    by (intros x y; cbv zeta; unfold category_cell; now rewrite (nth_get df _ j y Hj)).
  destruct (group_rows (category_cell df) (Pandas.rows df) Hcells []
              ltac:(intros g []) I) as (H1 & H2 & H3 & H4 & H5).
  cbv zeta in H1, H2, H3, H4, H5. fold (categories_of df) in H3, H4.
  set (gs := fold_left _ (Pandas.rows df) []) in *.
  exists (text_keys gs). split; [|split; [|split]].
  - rewrite (groups_as_map gs H1 H2) at 1. apply map_ext. intros c.
    now rewrite H4.
  - exact H2.
  - intros c. rewrite H3. cbn. tauto.
  - pose proof (f_equal (fun g => list_sum (map snd g)) (groups_as_map gs H1 H2)) as E.
    cbv beta in E. rewrite map_map in E. cbn [snd] in E.
    rewrite (map_ext _ _ H4) in E. cbn [group_size Nat.add] in E.
    transitivity (list_sum (map snd gs)); [symmetry; exact E | exact H5].
Qed.

Lemma has_column_index (l : Pandas.label) (cols : list Pandas.label) :
  Pandas.has_column l cols = true -> exists j, Pandas.index_of l cols = Some j.
Proof.
  unfold Pandas.has_column. induction cols as [|c cols IH]; simpl; [discriminate|].
  rewrite (label_eqb_sym l c). destruct (Pandas.label_eqb c l); [now exists 0|].
  simpl. intros H. destruct (IH H) as [j ->]. now exists (S j).
Qed.

Lemma filter_has_column (l : Pandas.label) (cols : list Pandas.label) :
  0 < List.length (filter (Pandas.label_eqb l) cols) -> Pandas.has_column l cols = true.
Proof.
  unfold Pandas.has_column. induction cols as [|c cols IH]; simpl; [lia|].
  destruct (Pandas.label_eqb l c); [reflexivity|]. exact IH.
Qed.

(** The grouping raises when the label is there more than once. *)
Lemma groupby_duplicate (l : Pandas.label) (df : Pandas.DataFrame) :
  1 < List.length (filter (Pandas.label_eqb l) (Pandas.columns df)) ->
  Pandas.has_column l (Pandas.columns df) = true
  /\ Pandas.groupby_size l df = None.
Proof.
  intros H. assert (Hhas : Pandas.has_column l (Pandas.columns df) = true)
    by (apply filter_has_column; lia).
  split; [exact Hhas|]. unfold Pandas.groupby_size.
  destruct (has_column_index _ _ Hhas) as [j ->].
  apply Nat.ltb_lt in H. now rewrite H.
Qed.

Lemma groupby_single (l : Pandas.label) (df : Pandas.DataFrame) :
  Pandas.has_column l (Pandas.columns df) = true ->
  List.length (filter (Pandas.label_eqb l) (Pandas.columns df)) <= 1 ->
  exists groups, Pandas.groupby_size l df = Some groups.
Proof.
  intros Hhas H. unfold Pandas.groupby_size.
  destruct (has_column_index _ _ Hhas) as [j ->].
  assert (E : (1 <? List.length (filter (Pandas.label_eqb l) (Pandas.columns df))) = false)
    by (apply Nat.ltb_ge; exact H).
  rewrite E. eexists. reflexivity.
Qed.

(** X15. The summary of a frame by category.  Without a Category column it
    is the empty frame, and with more than one it cannot be built.
    Otherwise, for a frame whose categories are all texts, it has one
    row for each category that occurs, in increasing order, with the
    number of the rows of that category; the counts add up to the
    number of rows of the frame. *)
Theorem summary_counts_every_item (df : Pandas.DataFrame) :
  (Pandas.has_column (Some "Category") (Pandas.columns df) = false ->
   BOQParser.get_summary df = Some (Pandas.mkDF [] []))
  /\ (1 < List.length (filter (Pandas.label_eqb (Some "Category")) (Pandas.columns df)) ->
      BOQParser.get_summary df = None)
  /\ (forall summary,
        BOQParser.get_summary df = Some summary ->
        Pandas.has_column (Some "Category") (Pandas.columns df) = true ->
        (forall r, In r (Pandas.rows df) ->
                   exists c, category_cell df r = Pandas.VStr c) ->
        exists cats,
          summary
          = Pandas.mkDF [Some "Category"; Some "Count"]
              (map (fun c =>
                      [Pandas.VStr c;
                       Pandas.VNum (inject_Z (Z.of_nat
                                      (count_occ string_dec (categories_of df) c)))])
                   cats)
          /\ increasing cats
          /\ (forall c, In c cats <-> In c (categories_of df))
          /\ list_sum (map (count_occ string_dec (categories_of df)) cats)
             = List.length (Pandas.rows df)).
Proof.
  unfold BOQParser.get_summary. split; [|split].
  - intros ->. reflexivity.
  - intros H. destruct (groupby_duplicate _ _ H) as [-> ->]. reflexivity.
  - intros summary H Hhas Hcells. rewrite Hhas in H.
    destruct (Pandas.groupby_size _ df) as [groups|] eqn:E; [|discriminate].
    injection H as <-.
    destruct (groupby_category df groups E Hcells) as (cats & -> & H2 & H3 & H4).
    exists cats. split; [|auto]. unfold Pandas.reset_index. now rewrite map_map.
Qed.

Lemma summary_counts_every_item_witness :
  exists cats,
    Pandas.mkDF [Some "Category"; Some "Count"]
      [[Pandas.VStr "Installation Materials"; Pandas.VNum 1];
       [Pandas.VStr "Notification Devices"; Pandas.VNum 1]]
    = Pandas.mkDF [Some "Category"; Some "Count"]
        (map (fun c =>
                [Pandas.VStr c;
                 Pandas.VNum (inject_Z (Z.of_nat
                                (count_occ string_dec (categories_of two_items) c)))])
             cats)
    /\ increasing cats
    /\ (forall c, In c cats <-> In c (categories_of two_items))
    /\ list_sum (map (count_occ string_dec (categories_of two_items)) cats)
       = List.length (Pandas.rows two_items).
Proof.
  destruct (summary_counts_every_item two_items) as (_ & _ & H).
  apply H.
  - reflexivity.
  - reflexivity.
  - intros r [<-|[<-|[]]]; eexists; reflexivity.
Defined.

Lemma increasing_nodup (xs : list string) : increasing xs -> NoDup xs.
Proof.
  induction xs as [|x xs IH]; intros H; [constructor|].
  destruct H as [Hx H]. constructor; [|auto].
  intros Hin. apply Hx in Hin. now rewrite string_compare_refl in Hin.
Qed.

(** The classifier gives one of nine names. *)
Lemma category_names (description : string) :
  In (BOQParser._categorize_smoke_detector_item description)
     ("Other" :: map fst BOQParser.categories).
Proof.
  unfold BOQParser._categorize_smoke_detector_item, BOQParser.categories. cbv zeta.
  cbn [BOQParser.scan_categories Py.any existsb map fst].
  repeat match goal with
         | |- context [if (Py.contains ?k ?s || _) then _ else _] =>
             destruct (Py.contains k s); cbn [orb]
         | |- context [if (false) then _ else _] => cbv iota
         end;
    simpl; tauto.
Qed.

Lemma has_column_app (l : Pandas.label) (cols : list Pandas.label) :
  Pandas.has_column l (cols ++ [l])%list = true.
Proof.
  unfold Pandas.has_column. rewrite existsb_app. simpl.
  assert (E : Pandas.label_eqb l l = true)
    by (destruct l; simpl; auto using String.eqb_refl).
  rewrite E. now rewrite orb_true_r.
Qed.

Lemma parsed_row_category (doc : Pdf.document) (df : Pandas.DataFrame)
  (row : list Pandas.value) :
  BOQParser.parse doc = Some df -> In row (Pandas.rows df) ->
  exists d, Pandas.field df row (Some "Category")
            = Some (Pandas.VStr (BOQParser._categorize_smoke_detector_item d)).
Proof.
  unfold BOQParser.parse. cbv zeta.
  destruct (Pdf.extract_tables doc) as [tables|] eqn:Ht; [|discriminate].
  destruct tables as [|t tables].
  - intros H Hrow. injection H as <-.
    destruct (parse_text_rows _ _ Hrow) as (Hcols & it & Hit & ->).
    destruct (collect_items_fields _ _ Hit) as [_ Hc].
    unfold Pandas.field. rewrite Hcols. simpl. rewrite Hc. eexists. reflexivity.
  - intros H Hrow. eapply parse_tables_category; [|exact H|exact Hrow].
    unfold Pdf.extract_tables in Ht. eapply frames_of_well_formed; eassumption.
Qed.

(** The categories of a parsed BOQ: every row has one, a text that the
    classifier gave. *)
Lemma parsed_boq_categories (doc : Pdf.document) (df : Pandas.DataFrame) :
  BOQParser.parse doc = Some df -> Pandas.empty df = false ->
  Pandas.has_column (Some "Category") (Pandas.columns df) = true
  /\ forall r, In r (Pandas.rows df) ->
               exists d, category_cell df r
                         = Pandas.VStr (BOQParser._categorize_smoke_detector_item d).
Proof.
  intros Hp He. split.
  - unfold BOQParser.parse in Hp. cbv zeta in Hp.
    destruct (Pdf.extract_tables doc) as [[|t tables]|]; [| |discriminate].
    + injection Hp as <-. unfold BOQParser.parse_text in *. cbv zeta in *.
      destruct (map BOQParser.item_values _); [discriminate He | reflexivity].
    + unfold BOQParser.parse_tables in Hp.
      destruct (Pandas.concat (t :: tables)) as [df0|]; [|discriminate].
      destruct (Pandas.iloc_col 1 df0); [|discriminate].
      destruct (Pandas.apply _ _); [|discriminate].
      injection Hp as <-. unfold Pandas.set_column.
      destruct (Pandas.has_column _ (Pandas.columns df0)) eqn:E;
        cbn [Pandas.columns]; [exact E | apply has_column_app].
  - intros r Hr.
    destruct (parsed_row_category doc df r Hp Hr) as [d Hd].
    exists d. unfold category_cell, Pandas.get. now rewrite Hd.
Qed.

Lemma cell_write_summary_rows_other groups : forall idx ws r c,
  r < EG.header_row + 1 + idx \/ EG.header_row + 1 + idx + List.length groups <= r ->
  EG.cell (EG.write_summary_rows idx groups ws) r c = EG.cell ws r c.
Proof.
  induction groups as [|[k n] groups IH]; intros idx ws r c H; [reflexivity|].
  cbn [EG.write_summary_rows]. cbv zeta. rewrite IH by row_lia.
  rewrite !cell_ws_cell.
  assert (E : (EG.header_row + 1 + idx =? r) = false) by (apply Nat.eqb_neq; row_lia).
  now rewrite E.
Qed.

Lemma cell_write_summary_rows_at groups : forall idx ws i k n,
  nth_error groups i = Some (Pandas.VStr k, n) ->
  EG.cell (EG.write_summary_rows idx groups ws) (EG.header_row + 1 + (idx + i)) 1
  = Pandas.VStr k
  /\ EG.cell (EG.write_summary_rows idx groups ws) (EG.header_row + 1 + (idx + i)) 2
     = Pandas.VNum (inject_Z (Z.of_nat n)).
Proof.
  induction groups as [|[k0 n0] groups IH]; intros idx ws i k n Hi; [now destruct i|].
  destruct i as [|i]; cbn [nth_error] in Hi.
  - injection Hi as -> ->. rewrite Nat.add_0_r. cbn [EG.write_summary_rows]. cbv zeta.
    rewrite !cell_write_summary_rows_other by row_lia.
    rewrite !cell_ws_cell, !Nat.eqb_refl. split; reflexivity.
  - cbn [EG.write_summary_rows]. cbv zeta.
    replace (idx + S i) with (S idx + i) by lia. now apply IH.
Qed.

(** X16. The Summary sheet of a parsed BOQ that has items.  It cannot be
    built when the tables name Category more than once.  Otherwise it
    lists, from row 5 on, the categories of the items, each once and
    in increasing order, with the number of its items beside it; they
    are among the nine names of the classifier, nothing is written
    below them, and the counts add up to the number of items. *)
Theorem boq_summary_sheet (doc : Pdf.document) (df : Pandas.DataFrame) :
  BOQParser.parse doc = Some df ->
  Pandas.empty df = false ->
  (1 < List.length (filter (Pandas.label_eqb (Some "Category")) (Pandas.columns df)) ->
   EG.create_summary_sheet (Some df) = None)
  /\ (List.length (filter (Pandas.label_eqb (Some "Category")) (Pandas.columns df)) <= 1 ->
      exists ws cats,
        EG.create_summary_sheet (Some df) = Some ws
        /\ increasing cats
        /\ (forall c, In c cats <-> In c (categories_of df))
        /\ (forall c, In c cats -> In c ("Other" :: map fst BOQParser.categories))
        /\ List.length cats <= 9
        /\ EG.cell ws 4 1 = Pandas.VStr "Category"
        /\ EG.cell ws 4 2 = Pandas.VStr "Item Count"
        /\ (forall i c,
              nth_error cats i = Some c ->
              EG.cell ws (5 + i) 1 = Pandas.VStr c
              /\ EG.cell ws (5 + i) 2
                 = Pandas.VNum (inject_Z (Z.of_nat
                                  (count_occ string_dec (categories_of df) c))))
        /\ (forall col, EG.cell ws (5 + List.length cats) col = Pandas.VNone)
        /\ list_sum (map (count_occ string_dec (categories_of df)) cats)
           = List.length (Pandas.rows df)).
Proof.
  intros Hp He. destruct (parsed_boq_categories doc df Hp He) as [Hhas Hcat].
  unfold EG.create_summary_sheet. cbv zeta. rewrite Hhas. split.
  - intros H. destruct (groupby_duplicate _ _ H) as [_ ->]. reflexivity.
  - intros H. destruct (groupby_single _ _ Hhas H) as [groups E]. rewrite E.
    assert (Hcells : forall r, In r (Pandas.rows df) ->
                               exists c, category_cell df r = Pandas.VStr c).
    { intros r Hr. destruct (Hcat r Hr) as [d Hd]. eexists. exact Hd. }
    destruct (groupby_category df groups E Hcells) as (cats & -> & H2 & H3 & H4).
    assert (Hnames : forall c, In c cats -> In c ("Other" :: map fst BOQParser.categories)).
    { intros c Hc. apply H3 in Hc. unfold categories_of in Hc.
      apply in_flat_map in Hc. destruct Hc as (r & Hr & Hc).
      destruct (Hcat r Hr) as [d Hd]. rewrite Hd in Hc. destruct Hc as [<-|[]].
      apply category_names. }
    eexists. exists cats. split; [reflexivity|].
    split; [exact H2|]. split; [exact H3|]. split; [exact Hnames|].
    split; [|split; [|split; [|split; [|split]]]].
    + apply (NoDup_incl_length (increasing_nodup _ H2)) in Hnames. exact Hnames.
    + rewrite cell_write_summary_rows_other by row_lia. reflexivity.
    + rewrite cell_write_summary_rows_other by row_lia. reflexivity.
    + intros i c Hi.
      apply (cell_write_summary_rows_at _ 0 _ i c
               (count_occ string_dec (categories_of df) c)).
      rewrite nth_error_map, Hi. reflexivity.
    + intros col. rewrite cell_write_summary_rows_other by (rewrite length_map; row_lia).
      rewrite !cell_ws_cell, !cell_set_value. reflexivity.
    + exact H4.
Qed.

Lemma boq_summary_sheet_witness :
  exists ws cats,
    EG.create_summary_sheet (Some (BOQParser.parse_text (Pdf.extract_text text_only)))
    = Some ws
    /\ increasing cats
    /\ (forall c, In c cats
                  <-> In c (categories_of
                              (BOQParser.parse_text (Pdf.extract_text text_only))))
    /\ (forall c, In c cats -> In c ("Other" :: map fst BOQParser.categories))
    /\ List.length cats <= 9
    /\ EG.cell ws 4 1 = Pandas.VStr "Category"
    /\ EG.cell ws 4 2 = Pandas.VStr "Item Count"
    /\ (forall i c,
          nth_error cats i = Some c ->
          EG.cell ws (5 + i) 1 = Pandas.VStr c
          /\ EG.cell ws (5 + i) 2
             = Pandas.VNum
                 (inject_Z (Z.of_nat
                    (count_occ string_dec
                       (categories_of (BOQParser.parse_text (Pdf.extract_text text_only)))
                       c))))
    /\ (forall col, EG.cell ws (5 + List.length cats) col = Pandas.VNone)
    /\ list_sum
         (map (count_occ string_dec
                 (categories_of (BOQParser.parse_text (Pdf.extract_text text_only))))
              cats)
       = List.length (Pandas.rows (BOQParser.parse_text (Pdf.extract_text text_only))).
Proof.
  destruct (boq_summary_sheet text_only
              (BOQParser.parse_text (Pdf.extract_text text_only))) as [_ H].
  - reflexivity.
  - reflexivity.
  - apply H. vm_compute. lia.
Defined.

(** ** The specification sheet and the comparison of sheets *)

Lemma cell_write_spec_row_other df idx row st r c :
  r <> EG.data_start_row + idx ->
  EG.cell (snd (EG.write_spec_row df idx row st)) r c = EG.cell (snd st) r c.
Proof.
  intros H. unfold EG.write_spec_row. cbv zeta. cbn [snd].
  assert (E : (EG.data_start_row + idx =? r) = false) by (apply Nat.eqb_neq; lia).
  rewrite !cell_ws_cell, E. cbn [andb].
  destruct (Pandas.value_ne _ _); cbn [snd]; rewrite cell_ws_cell, E; reflexivity.
Qed.

Lemma cell_write_spec_rows_other df rs : forall idx st r c,
  r < EG.data_start_row + idx \/ EG.data_start_row + idx + List.length rs <= r ->
  EG.cell (snd (EG.write_spec_rows df idx rs st)) r c = EG.cell (snd st) r c.
Proof.
  induction rs as [|row rs IH]; intros idx st r c H; [reflexivity|].
  cbn [EG.write_spec_rows]. rewrite IH by row_lia.
  apply cell_write_spec_row_other. row_lia.
Qed.

(** The three cells of a row after the loop body, on a row not yet
    written. *)
Lemma cell_write_spec_row_at df idx row current ws :
  (forall c, EG.cell ws (EG.data_start_row + idx) c = Pandas.VNone) ->
  let category := Pandas.get df row (Some "Category") (Pandas.VStr "") in
  let st := EG.write_spec_row df idx row (current, ws) in
  fst st = (if Pandas.value_ne category current then category else current)
  /\ EG.cell (snd st) (EG.data_start_row + idx) 1
     = (if Pandas.value_ne category current then category else Pandas.VStr "")
  /\ EG.cell (snd st) (EG.data_start_row + idx) 2
     = Pandas.get df row (Some "Specification") (Pandas.VStr "")
  /\ EG.cell (snd st) (EG.data_start_row + idx) 3
     = Pandas.get df row (Some "Value") (Pandas.VStr "").
Proof.
  intros Hempty. cbv zeta. unfold EG.write_spec_row. cbv zeta. cbn [fst snd].
  rewrite !cell_ws_cell, !Nat.eqb_refl. cbn [andb Nat.eqb].
  destruct (Pandas.value_ne _ current); cbn [fst snd];
    rewrite ?cell_ws_cell, ?Nat.eqb_refl, ?Hempty; cbn [andb Nat.eqb];
    repeat split;
    repeat match goal with
           | |- context [match ?v with _ => _ end] => destruct v
           end; reflexivity.
Qed.

(** The cells of the data rows after the loop. *)
Lemma cells_write_spec_rows df rs : forall idx current ws,
  (forall r c, EG.data_start_row + idx <= r -> EG.cell ws r c = Pandas.VNone) ->
  let final := snd (EG.write_spec_rows df idx rs (current, ws)) in
  column_cells final 1 (EG.data_start_row + idx) (List.length rs)
  = headings current
      (map (fun row => Pandas.get df row (Some "Category") (Pandas.VStr "")) rs)
  /\ column_cells final 2 (EG.data_start_row + idx) (List.length rs)
     = map (fun row => Pandas.get df row (Some "Specification") (Pandas.VStr "")) rs
  /\ column_cells final 3 (EG.data_start_row + idx) (List.length rs)
     = map (fun row => Pandas.get df row (Some "Value") (Pandas.VStr "")) rs.
Proof.
  induction rs as [|row rs IH]; intros idx current ws Hempty; cbv zeta;
    [repeat split|].
  cbn [EG.write_spec_rows List.length map headings]. unfold column_cells in *.
  cbn [seq map]. rewrite <- !seq_shift, !map_map.
  destruct (cell_write_spec_row_at df idx row current ws) as (H0 & H1 & H2 & H3).
  { intros c. apply Hempty. lia. }
  cbv zeta in H0, H1, H2, H3.
  destruct (EG.write_spec_row df idx row (current, ws)) as [current' ws'] eqn:Est.
  cbn [fst snd] in H0, H1, H2, H3.
  destruct (IH (S idx) current' ws') as (I1 & I2 & I3).
  { intros r c Hr. replace ws' with (snd (EG.write_spec_row df idx row (current, ws)))
      by now rewrite Est.
    rewrite cell_write_spec_row_other by lia. apply Hempty. lia. }
  cbv zeta in I1, I2, I3.
  rewrite !Nat.add_0_r, !cell_write_spec_rows_other by row_lia. cbn [snd].
  rewrite H1, H2, H3.
  assert (Eshift : forall col,
             map (fun x => EG.cell (snd (EG.write_spec_rows df (S idx) rs (current', ws')))
                                   (EG.data_start_row + idx + S x) col)
                 (seq 0 (List.length rs))
             = map (fun i => EG.cell (snd (EG.write_spec_rows df (S idx) rs (current', ws')))
                                     (EG.data_start_row + S idx + i) col)
                   (seq 0 (List.length rs))).
  { intros col. apply map_ext. intros x. f_equal. lia. }
  rewrite !Eshift, I1, I2, I3, H0.
  destruct (Pandas.value_ne _ current); repeat split; reflexivity.
Qed.

Lemma value_ne_text (c : string) (v : Pandas.value) :
  Pandas.value_ne (Pandas.VStr c) v = false -> v = Pandas.VStr c.
Proof.
  destruct v; simpl; try discriminate. intros H. apply negb_false_iff in H.
  apply String.eqb_eq in H. now subst.
Qed.

(** Filling down gives the categories back. *)
Lemma fill_down_headings (cats : list Pandas.value) :
  (forall v, In v cats -> exists c, v = Pandas.VStr c /\ c <> "") ->
  forall current above,
    current = Pandas.VNone \/ current = above ->
    fill_down above (headings current cats) = cats.
Proof.
  induction cats as [|v cats IH]; intros Hcats current above Hc; [reflexivity|].
  destruct (Hcats v ltac:(now left)) as (c & -> & Hne).
  assert (Hcats' : forall v, In v cats -> exists c, v = Pandas.VStr c /\ c <> "")
    by (intros v Hv; apply Hcats; now right).
  cbn [headings]. destruct (Pandas.value_ne (Pandas.VStr c) current) eqn:E.
  - cbn [fill_down]. destruct c as [|x c]; [contradiction|]. cbv zeta.
    f_equal. apply IH; [exact Hcats' | now right].
  - apply value_ne_text in E. subst current.
    destruct Hc as [Hc|Hc]; [discriminate|]. subst above.
    cbn [fill_down]. cbv zeta. f_equal. apply IH; [exact Hcats' | now right].
Qed.

Lemma spec_sheet_head now r c :
  EG.data_start_row <= r ->
  EG.cell (EG.write_headers 1 EG.spec_headers
             (EG.set_value 2 1 (Pandas.VStr ("Generated: " ++ now))
                (EG.set_value 1 1
                   (Pandas.VStr "PRODUCT SPECIFICATIONS - SMOKE DETECTION EQUIPMENT") [])))
          r c
  = Pandas.VNone.
Proof.
  unfold EG.data_start_row, EG.header_row. intros H.
  do 5 (destruct r as [|r]; [lia|]). reflexivity.
Qed.

(** X17. The specification sheet loses nothing by leaving out a category
    that repeats the one above.  For a frame whose categories are
    texts that are not empty, reading column A from row 5 down, an
    empty cell standing for the cell above it, gives the categories of
    the rows back, in order; columns B and C hold the specifications
    and the values, and row 4 the three headers. *)
Theorem spec_sheet_categories_recoverable (now : string) (df : Pandas.DataFrame) :
  (forall r, In r (Pandas.rows df) ->
             exists c, Pandas.get df r (Some "Category") (Pandas.VStr "") = Pandas.VStr c
                       /\ c <> "") ->
  let ws := EG.create_spec_sheet now df in
  let n := List.length (Pandas.rows df) in
  fill_down Pandas.VNone (column_cells ws 1 5 n)
  = map (fun r => Pandas.get df r (Some "Category") (Pandas.VStr "")) (Pandas.rows df)
  /\ column_cells ws 2 5 n
     = map (fun r => Pandas.get df r (Some "Specification") (Pandas.VStr ""))
           (Pandas.rows df)
  /\ column_cells ws 3 5 n
     = map (fun r => Pandas.get df r (Some "Value") (Pandas.VStr "")) (Pandas.rows df)
  /\ (EG.cell ws 4 1 = Pandas.VStr "Category"
      /\ EG.cell ws 4 2 = Pandas.VStr "Specification"
      /\ EG.cell ws 4 3 = Pandas.VStr "Value").
Proof.
  intros Hcats. cbv zeta. unfold EG.create_spec_sheet. cbv zeta.
  set (head := EG.write_headers 1 EG.spec_headers _).
  destruct (cells_write_spec_rows df (Pandas.rows df) 0 Pandas.VNone head)
    as (H1 & H2 & H3).
  { intros r c Hr. apply spec_sheet_head. lia. }
  cbv zeta in H1, H2, H3. change (EG.data_start_row + 0) with 5 in H1, H2, H3.
  rewrite H1, H2, H3. split; [|split; [|split]]; try reflexivity.
  - apply fill_down_headings; [|now left].
    intros v Hv. apply in_map_iff in Hv. destruct Hv as (r & <- & Hr). now apply Hcats.
  - rewrite !cell_write_spec_rows_other by row_lia. repeat split.
Qed.

Lemma spec_sheet_categories_recoverable_witness :
  fill_down Pandas.VNone
    (column_cells
       (EG.create_spec_sheet "2024-01-01 09:00"
          (Pandas.mkDF SpecSheetParser.spec_columns
             [[Pandas.VStr "Product Information"; Pandas.VStr "Model Number";
               Pandas.VStr "SD-2400A"];
              [Pandas.VStr "Product Information"; Pandas.VStr "Product Type";
               Pandas.VStr "Smoke Detector"];
              [Pandas.VStr "Compliance"; Pandas.VStr "Standards";
               Pandas.VStr "UL 268"]]))
       1 5 3)
  = [Pandas.VStr "Product Information"; Pandas.VStr "Product Information";
     Pandas.VStr "Compliance"].
Proof.
  apply (spec_sheet_categories_recoverable "2024-01-01 09:00"
           (Pandas.mkDF SpecSheetParser.spec_columns
              [[Pandas.VStr "Product Information"; Pandas.VStr "Model Number";
                Pandas.VStr "SD-2400A"];
               [Pandas.VStr "Product Information"; Pandas.VStr "Product Type";
                Pandas.VStr "Smoke Detector"];
               [Pandas.VStr "Compliance"; Pandas.VStr "Standards";
                Pandas.VStr "UL 268"]])).
  intros r [<-|[<-|[<-|[]]]]; eexists; (split; [reflexivity | discriminate]).
Defined.

Lemma str_inj (a b : nat) : Py.str a = Py.str b -> a = b.
Proof.
  intros H. pose proof (nat_of_digits_str a) as Ha. pose proof (nat_of_digits_str b) as Hb.
  change (EG.str a) with (Py.str a) in Ha. change (EG.str b) with (Py.str b) in Hb.
  rewrite H in Ha. congruence.
Qed.

(** The frame of a parsed specification sheet: three columns, and the
    records as rows. *)
Lemma parsed_spec_frame list_of_set doc f :
  SpecSheetParser.parse list_of_set doc = Some f ->
  Pandas.columns f = SpecSheetParser.spec_columns
  /\ Pandas.rows f
     = map SpecSheetParser.record_values
         (SpecSheetParser.parse_data list_of_set (Pdf.extract_text doc)).
Proof.
  unfold SpecSheetParser.parse. cbv zeta.
  destruct (Pdf.extract_tables doc); [|discriminate].
  destruct (parse_data_head list_of_set (Pdf.extract_text doc)) as [rest E].
  rewrite E. intros H. injection H as <-. split; reflexivity.
Qed.

Lemma comparison_row_parsed i f r :
  Pandas.columns f = SpecSheetParser.spec_columns ->
  SpecSheetParser.comparison_row i f (SpecSheetParser.record_values r)
  = Pandas.VStr ("Product " ++ Py.str (i + 1)) :: SpecSheetParser.record_values r.
Proof.
  intros Hc. unfold SpecSheetParser.comparison_row, Pandas.get, Pandas.field.
  rewrite Hc. reflexivity.
Qed.

Lemma comparison_data_parsed list_of_set (fs : list Pandas.DataFrame) :
  Forall (fun f => exists doc, SpecSheetParser.parse list_of_set doc = Some f) fs ->
  forall i,
    SpecSheetParser.comparison_data i fs
    = flat_map (fun kf => map (cons (Pandas.VStr ("Product " ++ Py.str (fst kf + 1))))
                              (Pandas.rows (snd kf)))
               (combine (seq i (List.length fs)) fs).
Proof.
  induction 1 as [|f fs [doc Hf] _ IH]; intros i; [reflexivity|].
  cbn [SpecSheetParser.comparison_data List.length seq combine flat_map fst snd].
  rewrite IH. f_equal. destruct (parsed_spec_frame _ _ _ Hf) as [Hc Hr].
  rewrite Hr, !map_map. apply map_ext. intros r. now apply comparison_row_parsed.
Qed.

Lemma in_combine_seq {A} (xs : list A) : forall i k x,
  In (k, x) (combine (seq i (List.length xs)) xs) <-> (i <= k /\ nth_error xs (k - i) = Some x).
Proof.
  induction xs as [|y xs IH]; intros i k x; cbn [List.length seq combine In].
  - split; [contradiction|]. intros [_ H]. now destruct (k - i).
  - rewrite IH. split.
    + intros [H|[Hle H]].
      * injection H as <- <-. rewrite Nat.sub_diag. auto.
      * split; [lia|]. replace (k - i) with (S (k - S i)) by lia. exact H.
    + intros [Hle H]. destruct (k - i) as [|d] eqn:E.
      * left. injection H as ->. f_equal. lia.
      * right. split; [lia|]. replace (k - S i) with d by lia. exact H.
Qed.

(** X18. The comparison of parsed specification sheets.  The rows of the
    sheets follow one another, each with the label of its sheet,
    Product 1, Product 2, ..., put before its three values; the rows
    under the label of a sheet are the rows of that sheet and of no
    other; and with no sheet at all the frame is the empty one. *)
Theorem comparison_keeps_sheets_apart
  (list_of_set : list string -> list string) (multiple_specs : list Pandas.DataFrame) :
  Forall (fun f => exists doc, SpecSheetParser.parse list_of_set doc = Some f)
         multiple_specs ->
  let result := SpecSheetParser.get_comparison_format multiple_specs in
  Pandas.rows result
  = flat_map (fun kf => map (cons (Pandas.VStr ("Product " ++ Py.str (fst kf + 1))))
                            (Pandas.rows (snd kf)))
             (combine (seq 0 (List.length multiple_specs)) multiple_specs)
  /\ (forall k row,
        In (Pandas.VStr ("Product " ++ Py.str (k + 1)) :: row) (Pandas.rows result)
        <-> exists f, nth_error multiple_specs k = Some f /\ In row (Pandas.rows f))
  /\ Pandas.columns result
     = match multiple_specs with
       | [] => []
       | _ :: _ => SpecSheetParser.comparison_columns
       end.
Proof.
  intros Hfs. cbv zeta.
  assert (Hrows : Pandas.rows (SpecSheetParser.get_comparison_format multiple_specs)
                  = SpecSheetParser.comparison_data 0 multiple_specs).
  { unfold SpecSheetParser.get_comparison_format, Pandas.from_records.
    now destruct (SpecSheetParser.comparison_data 0 multiple_specs). }
  rewrite Hrows, (comparison_data_parsed list_of_set _ Hfs). split; [reflexivity|]. split.
  - intros k row. rewrite in_flat_map. split.
    + intros ([i f] & Hin & Hrow). cbn [fst snd] in Hrow.
      apply in_map_iff in Hrow. destruct Hrow as (r & E & Hr).
      injection E as E <-. apply in_combine_seq in Hin. destruct Hin as [_ Hin].
      rewrite Nat.sub_0_r in Hin.
      assert (i = k). { apply str_inj in E. lia. }
      subst i. now exists f.
    + intros (f & Hk & Hrow). exists (k, f). split.
      * apply in_combine_seq. rewrite Nat.sub_0_r. split; [lia | exact Hk].
      * cbn [fst snd]. now apply in_map.
  - unfold SpecSheetParser.get_comparison_format.
    destruct Hfs as [|f fs [doc Hf] _]; [reflexivity|].
    cbn [SpecSheetParser.comparison_data].
    destruct (parsed_spec_frame _ _ _ Hf) as [_ Hr].
    destruct (parse_data_head list_of_set (Pdf.extract_text doc)) as [rest E].
    rewrite Hr, E. reflexivity.
Qed.

Lemma comparison_keeps_sheets_apart_witness :
  Pandas.columns (SpecSheetParser.get_comparison_format
                    [Pandas.from_records SpecSheetParser.spec_columns
                       (map SpecSheetParser.record_values
                          (SpecSheetParser.parse_data first_seen
                             (Pdf.extract_text text_only)))])
  = SpecSheetParser.comparison_columns.
Proof.
  apply (comparison_keeps_sheets_apart first_seen
           [Pandas.from_records SpecSheetParser.spec_columns
              (map SpecSheetParser.record_values
                 (SpecSheetParser.parse_data first_seen (Pdf.extract_text text_only)))]).
  constructor; [|constructor]. exists text_only. reflexivity.
Defined.

(** ** The conversion of a BOQ *)

Lemma split_on_lines (sep : ascii) : forall s line,
  In line (Py.split_on sep s) ->
  all_chars (fun c => negb (Ascii.eqb c sep)) line = true.
Proof.
  induction s as [|c s IH]; intros line H; cbn [Py.split_on] in H.
  - destruct H as [<-|[]]. reflexivity.
  - destruct (Ascii.eqb c sep) eqn:Ec.
    + destruct H as [<-|H]; [reflexivity | now apply IH].
    + destruct (Py.split_on sep s) as [|w ws] eqn:E.
      * destruct H as [<-|[]]. simpl. now rewrite Ec.
      * destruct H as [<-|H].
        -- simpl. rewrite Ec. apply IH. now left.
        -- apply IH. now right.
Qed.

Lemma collect_items_nil (lines : list string) :
  BOQParser.collect_items lines = []
  <-> forall line, In line lines -> BOQParser.parse_line line = None.
Proof.
  induction lines as [|l lines IH]; cbn [BOQParser.collect_items].
  - split; [intros _ line [] | reflexivity].
  - destruct (BOQParser.parse_line l) as [it|] eqn:E.
    + split; [discriminate|]. intros H. specialize (H l (or_introl eq_refl)). congruence.
    + rewrite IH. split.
      * intros H line [<-|Hl]; [exact E | now apply H].
      * intros H line Hl. apply H. now right.
Qed.



Lemma apply_categorize_none (series : list Pandas.value) :
  Pandas.apply BOQParser.categorize_cell series = None
  <-> exists v, In v series /\ forall s, v <> Pandas.VStr s.
Proof.
  induction series as [|v series IH]; cbn [Pandas.apply].
  - split; [discriminate | intros (v & [] & _)].
  - destruct v as [s| | |]; cbn [BOQParser.categorize_cell];
      try (split; [intros _; eexists; split; [now left | discriminate] | reflexivity]).
    destruct (Pandas.apply BOQParser.categorize_cell series) as [ws|].
    + split; [discriminate|]. intros (v & [<-|Hv] & Hn).
      * now specialize (Hn s).
      * assert (H : exists v, In v series /\ forall s, v <> Pandas.VStr s)
          by (exists v; auto).
        apply IH in H. discriminate.
    + split; [|reflexivity]. intros _. destruct IH as [IH _].
      destruct (IH eq_refl) as (v & Hv & Hn). exists v. split; [now right | exact Hn].
Qed.

Lemma set_column_rows (l : Pandas.label) series df :
  List.length series = List.length (Pandas.rows df) ->
  List.length (Pandas.rows (Pandas.set_column l series df))
  = List.length (Pandas.rows df).
Proof.
  intros H. unfold Pandas.set_column.
  destruct (Pandas.has_column l (Pandas.columns df)); cbn [Pandas.rows];
    rewrite length_map, length_combine; lia.
Qed.



(** The bytes that [str] writes with an escape that ends in the letter b. *)
Lemma escape_ends_in_b (q : ascii) (b : byte) :
  q = PdfToExcel.QUOTE \/ q = PdfToExcel.DQUOTE ->
  In b [x0b; x1b; x8b; x9b; xab; xbb; xcb; xdb; xeb; xfb] ->
  exists e, Py.lower (PdfToExcel.repr_byte q b) = e ++ "b".
Proof.
  intros Hq Hb. simpl in Hb.
  destruct Hq as [-> | ->];
    repeat (destruct Hb as [<-|Hb]; [eexists (String _ (String _ (String _ ""))); reflexivity|]);
    contradiction.
Qed.

(** X21. The type is read off the text that [str] gives for the bytes, in
    which a byte that is not printable is written as an escape.  So
    the bytes 0B, 1B, 8B, ..., FB followed by the letters o and q read
    as "boq": a content with them is taken for a BOQ, whatever else it
    says and whatever the file name. *)
Theorem escaped_bytes_read_as_boq (pre post : list byte) (b : byte) (pdf_path : string) :
  In b [x0b; x1b; x8b; x9b; xab; xbb; xcb; xdb; xeb; xfb] ->
  PdfToExcel.detect (pre ++ b :: x6f :: x71 :: post)%list pdf_path = PdfToExcel.boq.
Proof.
  intros Hb. unfold PdfToExcel.detect. cbv zeta.
  assert (H : Py.contains "boq"
                (Py.lower (PdfToExcel.str_bytes (pre ++ b :: x6f :: x71 :: post)%list))
              = true).
  { apply contains_iff. unfold PdfToExcel.str_bytes. cbv zeta.
    set (q := if (_ && _)%bool then PdfToExcel.DQUOTE else PdfToExcel.QUOTE).
    assert (Hq : q = PdfToExcel.QUOTE \/ q = PdfToExcel.DQUOTE)
      by (subst q; destruct (_ && _)%bool; auto).
    destruct (escape_ends_in_b q b Hq Hb) as [e He].
    assert (Ho : PdfToExcel.repr_byte q x6f = "o")
      by (destruct Hq as [-> | ->]; reflexivity).
    assert (Hq' : PdfToExcel.repr_byte q x71 = "q")
      by (destruct Hq as [-> | ->]; reflexivity).
    rewrite repr_body_app. cbn [PdfToExcel.repr_body]. rewrite Ho, Hq'.
    exists (Py.lower (String "b" (String q (PdfToExcel.repr_body q pre))) ++ e),
           (Py.lower (PdfToExcel.repr_body q post ++ String q "")).
    change (String "b" (String q ?x)) with ("b" ++ String q "" ++ x).
    rewrite !lower_append, He. cbn [Py.lower Py.map_str append].
    rewrite !append_assoc. cbn [append]. reflexivity. }
  rewrite H, orb_true_r. reflexivity.
Qed.

Lemma escaped_bytes_read_as_boq_witness :
  PdfToExcel.detect
    (list_byte_of_string "Specification sheet " ++ x0b :: x6f :: x71 :: [])%list
    "spec.pdf"
  = PdfToExcel.boq.
Proof. apply escaped_bytes_read_as_boq. now left. Defined.

(** ** The data rows of the BOQ sheet *)

(** The five cells that the loop body copies from a row, on a row of
    the sheet not yet written. *)
Lemma cell_write_row_data df idx row ws :
  (forall c, EG.cell ws (EG.data_start_row + idx) c = Pandas.VNone) ->
  let r := EG.data_start_row + idx in
  let ws' := EG.write_row df idx row ws in
  EG.cell ws' r 1 = Pandas.get df row (Some "Item No") (Pandas.VStr "")
  /\ EG.cell ws' r 2 = Pandas.get df row (Some "Description") (Pandas.VStr "")
  /\ EG.cell ws' r 3 = Pandas.get df row (Some "Quantity") (Pandas.VStr "")
  /\ EG.cell ws' r 4 = Pandas.get df row (Some "Unit") (Pandas.VStr "NOS")
  /\ EG.cell ws' r 5 = Pandas.get df row (Some "Category") (Pandas.VStr "Other").
Proof.
  intros Hempty. cbv zeta. unfold EG.write_row. cbv zeta.
  rewrite !cell_set_value, !cell_ws_cell, !Nat.eqb_refl, !Hempty. cbn [andb Nat.eqb].
  repeat split;
    match goal with |- match ?v with _ => _ end = _ => now destruct v end.
Qed.

Lemma cell_write_rows_data df rs : forall idx ws i row,
  (forall r c, EG.data_start_row + idx <= r -> EG.cell ws r c = Pandas.VNone) ->
  nth_error rs i = Some row ->
  let r := EG.data_start_row + (idx + i) in
  let ws' := EG.write_rows df idx rs ws in
  EG.cell ws' r 1 = Pandas.get df row (Some "Item No") (Pandas.VStr "")
  /\ EG.cell ws' r 2 = Pandas.get df row (Some "Description") (Pandas.VStr "")
  /\ EG.cell ws' r 3 = Pandas.get df row (Some "Quantity") (Pandas.VStr "")
  /\ EG.cell ws' r 4 = Pandas.get df row (Some "Unit") (Pandas.VStr "NOS")
  /\ EG.cell ws' r 5 = Pandas.get df row (Some "Category") (Pandas.VStr "Other").
Proof.
  induction rs as [|row0 rs IH]; intros idx ws i row Hempty Hi; [now destruct i|].
  destruct i as [|i]; cbn [nth_error] in Hi; cbv zeta.
  - injection Hi as ->. rewrite Nat.add_0_r. cbn [EG.write_rows].
    rewrite !cell_write_rows_other by row_lia.
    apply cell_write_row_data. intros c. apply Hempty. lia.
  - cbn [EG.write_rows]. replace (idx + S i) with (S idx + i) by lia.
    apply IH; [|exact Hi]. intros r c Hr.
    rewrite cell_write_row_other by row_lia. apply Hempty. row_lia.
Qed.

(** X22. The BOQ sheet records every item where it belongs.  The item of
    index i is in row 5 + i: its number, description and quantity in
    columns A to C, its unit in D, "NOS" when the frame has no Unit
    column, and its category in E, "Other" when there is no Category
    column.  Row 4 has the seven headers, the two rows after the items
    are empty, and the label of the total is in column F two rows
    below them. *)
Theorem boq_sheet_records_items (now : string) (df : Pandas.DataFrame)
  (i : nat) (row : list Pandas.value) :
  nth_error (Pandas.rows df) i = Some row ->
  let ws := EG.create_boq_sheet now df in
  let n := List.length (Pandas.rows df) in
  (EG.cell ws (5 + i) 1 = Pandas.get df row (Some "Item No") (Pandas.VStr "")
   /\ EG.cell ws (5 + i) 2 = Pandas.get df row (Some "Description") (Pandas.VStr "")
   /\ EG.cell ws (5 + i) 3 = Pandas.get df row (Some "Quantity") (Pandas.VStr "")
   /\ EG.cell ws (5 + i) 4 = Pandas.get df row (Some "Unit") (Pandas.VStr "NOS")
   /\ EG.cell ws (5 + i) 5 = Pandas.get df row (Some "Category") (Pandas.VStr "Other"))
  /\ (Pandas.has_column (Some "Unit") (Pandas.columns df) = false ->
      EG.cell ws (5 + i) 4 = Pandas.VStr "NOS")
  /\ map (EG.cell ws 4) [1; 2; 3; 4; 5; 6; 7]
     = map Pandas.VStr
         ["Item No"; "Description"; "Quantity"; "Unit"; "Category"; "Unit Price";
          "Total Price"]
  /\ (forall c, EG.cell ws (5 + n) c = Pandas.VNone
                /\ EG.cell ws (5 + n + 1) c = Pandas.VNone)
  /\ EG.cell ws (5 + n + 2) 6 = Pandas.VStr "TOTAL:".
Proof.
  intros Hi. cbv zeta.
  assert (Hlt : i < List.length (Pandas.rows df))
    by (apply nth_error_Some; congruence).
  assert (Hdata : EG.cell (EG.create_boq_sheet now df) (5 + i) 1
                  = Pandas.get df row (Some "Item No") (Pandas.VStr "")
                  /\ EG.cell (EG.create_boq_sheet now df) (5 + i) 2
                     = Pandas.get df row (Some "Description") (Pandas.VStr "")
                  /\ EG.cell (EG.create_boq_sheet now df) (5 + i) 3
                     = Pandas.get df row (Some "Quantity") (Pandas.VStr "")
                  /\ EG.cell (EG.create_boq_sheet now df) (5 + i) 4
                     = Pandas.get df row (Some "Unit") (Pandas.VStr "NOS")
                  /\ EG.cell (EG.create_boq_sheet now df) (5 + i) 5
                     = Pandas.get df row (Some "Category") (Pandas.VStr "Other")).
  { rewrite !create_boq_sheet_data by row_lia.
    apply (cell_write_rows_data df (Pandas.rows df) 0 _ i row); [|exact Hi].
    intros r c Hr. apply cell_sheet_head. row_lia. }
  split; [exact Hdata|]. split; [|split; [|split]].
  - intros Hno. destruct Hdata as (_ & _ & _ & -> & _).
    unfold Pandas.get, Pandas.field.
    assert (E : Pandas.index_of (Some "Unit") (Pandas.columns df) = None).
    { revert Hno. unfold Pandas.has_column.
      induction (Pandas.columns df) as [|c cols IH]; [reflexivity|].
      cbn [existsb Pandas.index_of]. rewrite (label_eqb_sym (Some "Unit") c).
      destruct (Pandas.label_eqb c (Some "Unit")); [discriminate|].
      cbn [orb]. intros H. now rewrite (IH H). }
    now rewrite E.
  - unfold EG.create_boq_sheet. cbv zeta. cbn [map].
    rewrite !cell_set_value, !cell_ws_cell.
    assert (E : (EG.data_start_row + List.length (Pandas.rows df) + 2 =? 4) = false)
      by (apply Nat.eqb_neq; row_lia).
    rewrite E. cbn [andb]. rewrite !cell_write_rows_other by row_lia. reflexivity.
  - intros c. rewrite !create_boq_sheet_data by row_lia.
    rewrite !cell_write_rows_other by row_lia.
    rewrite cell_sheet_head by row_lia. split; [reflexivity|].
    unfold EG.create_boq_sheet. cbv zeta. rewrite cell_set_value, cell_ws_cell.
    assert (E : (EG.data_start_row + List.length (Pandas.rows df) + 2
                 =? 5 + List.length (Pandas.rows df) + 1) = false)
      by (apply Nat.eqb_neq; row_lia).
    rewrite E. cbn [andb]. rewrite cell_write_rows_other by row_lia.
    apply cell_sheet_head. row_lia.
  - unfold EG.create_boq_sheet. cbv zeta. rewrite cell_set_value, cell_ws_cell.
    change (EG.data_start_row) with 5. rewrite Nat.eqb_refl. reflexivity.
Qed.

Lemma boq_sheet_records_items_witness :
  EG.cell (EG.create_boq_sheet "2024-01-01 09:00"
             (Pandas.mkDF [Some "Item"; Some "Description"; Some "Qty"]
                [[Pandas.VStr "1"; Pandas.VStr "Junction box"; Pandas.VStr "5"]]))
          5 4
  = Pandas.VStr "NOS".
Proof.
  apply (boq_sheet_records_items "2024-01-01 09:00"
           (Pandas.mkDF [Some "Item"; Some "Description"; Some "Qty"]
              [[Pandas.VStr "1"; Pandas.VStr "Junction box"; Pandas.VStr "5"]])
           0 [Pandas.VStr "1"; Pandas.VStr "Junction box"; Pandas.VStr "5"]);
    reflexivity.
Defined.
